(** * dnsctl: name utilities, update messages and zone lifecycle

    A shallow embedding of the parts of dnsctl that its specification makes
    claims about, and of the code around them:

    - [internal/zone/normalize.go]: NormalizeZone, NormalizeOwner,
      IsWithinZone, dnsWireFormat, SHA1WireLabel, ValidateRecordType,
      IsApexOwner;
    - [internal/zone/file.go]: DefaultZoneFileData, WriteZoneFile,
      RemoveZoneFile, BumpSerial;
    - [internal/zone/create.go] and the zone deleter: CreateZone, DeleteZone;
    - [pkg/update]: AddRRset, DeleteRRset, DeleteAllRRs, BuildPTRUpdate,
      BuildPTRDelete;
    - [internal/acme/acme.go]: Present, Cleanup, containsPrefix;
    - [internal/rrset]: ValidateRDATA and its validators, ValidatePolicy,
      BuildRR, Manager.Delete;
    - [internal/config] and [internal/lock]: IsAllowedRRType, LockFilePath,
      ZoneLockPath;
    - [internal/ssh]: Handle, ParseCommand, ValidateCommand.

    Go strings are byte strings: a [gostring] is the list of its bytes, each
    byte a [Z] in [0, 255].  The Go library functions the code calls
    (strings.ToLower, strings.ToUpper, strings.EqualFold, strings.TrimSpace,
    strings.Split, strings.Fields, strconv.ParseUint, unicode/utf8,
    crypto/sha1, encoding/hex, the update helpers of miekg/dns) are embedded
    next to the code that uses them.  Tables of the Go runtime and of
    miekg/dns are parameters: the Unicode case mappings and case folding
    outside ASCII, the IDNA profile that NormalizeZone applies, net.ParseIP,
    and the maps between record type names and numbers.  So are
    filepath.Join and what the lifecycle code meets outside the process (file
    locks, rndc, the DNS exchange, the faults of the file system), gathered
    in the record [Env]. *)

From Stdlib Require Import Ascii String.
From Stdlib Require Import ZArith List Bool Lia.
Import ListNotations.

Local Open Scope Z_scope.

(** ** Go byte strings *)

Definition gostring := list Z.

(** The bytes of a string literal. *)
Definition str (s : string) : gostring :=
  List.map (fun a => Z.of_N (N_of_ascii a)) (list_ascii_of_string s).

Fixpoint eqb_str (s t : gostring) : bool :=
  match s, t with
  | [], [] => true
  | a :: s', b :: t' => (a =? b) && eqb_str s' t'
  | _, _ => false
  end.

(** [s[n:]] and [s[:n]] for [0 <= n <= len(s)]. *)
Definition sliceFrom (n : nat) (s : gostring) : gostring := skipn n s.
Definition sliceTo (n : nat) (s : gostring) : gostring := firstn n s.

(** strings.HasSuffix:
    [len(s) >= len(suffix) && s[len(s)-len(suffix):] == suffix]. *)
Definition HasSuffix (s suffix : gostring) : bool :=
  (length suffix <=? length s)%nat
  && eqb_str (sliceFrom (length s - length suffix) s) suffix.

(** strings.HasPrefix:
    [len(s) >= len(prefix) && s[:len(prefix)] == prefix]. *)
Definition HasPrefix (s prefix : gostring) : bool :=
  (length prefix <=? length s)%nat
  && eqb_str (sliceTo (length prefix) s) prefix.

(** ** unicode/utf8 *)

Definition RuneError : Z := 0xFFFD.
Definition RuneSelf : Z := 0x80.
Definition MaxRune : Z := 0x10FFFF.

(** The [first] table of unicode/utf8 with its accept ranges: what a leading
    byte announces. *)
Inductive firstInfo :=
| FAscii
| FInvalid
| FLead (sz : nat) (lo hi : Z).

Definition first (b : Z) : firstInfo :=
  if b <? 0x80 then FAscii
  else if b <? 0xC2 then FInvalid
  else if b <? 0xE0 then FLead 2 0x80 0xBF
  else if b =? 0xE0 then FLead 3 0xA0 0xBF
  else if b <? 0xED then FLead 3 0x80 0xBF
  else if b =? 0xED then FLead 3 0x80 0x9F
  else if b <? 0xF0 then FLead 3 0x80 0xBF
  else if b =? 0xF0 then FLead 4 0x90 0xBF
  else if b <? 0xF4 then FLead 4 0x80 0xBF
  else if b =? 0xF4 then FLead 4 0x80 0x8F
  else FInvalid.

Definition isCont (b : Z) : bool := (0x80 <=? b) && (b <=? 0xBF).

(** utf8.DecodeRuneInString: the rune at the head of [s] and its width;
    an invalid or truncated sequence decodes to [(RuneError, 1)]. *)
Definition DecodeRuneInString (s : gostring) : Z * nat :=
  match s with
  | [] => (RuneError, 0%nat)
  | s0 :: t =>
    match first s0 with
    | FAscii => (s0, 1%nat)
    | FInvalid => (RuneError, 1%nat)
    | FLead sz lo hi =>
      if (length s <? sz)%nat then (RuneError, 1%nat)
      else
        match t with
        | [] => (RuneError, 1%nat)
        | s1 :: t1 =>
          if (s1 <? lo) || (hi <? s1) then (RuneError, 1%nat)
          else if (sz <=? 2)%nat then
            (Z.lor (Z.shiftl (Z.land s0 0x1F) 6) (Z.land s1 0x3F), 2%nat)
          else
            match t1 with
            | [] => (RuneError, 1%nat)
            | s2 :: t2 =>
              if negb (isCont s2) then (RuneError, 1%nat)
              else if (sz <=? 3)%nat then
                (Z.lor (Z.lor (Z.shiftl (Z.land s0 0x0F) 12)
                              (Z.shiftl (Z.land s1 0x3F) 6))
                       (Z.land s2 0x3F), 3%nat)
              else
                match t2 with
                | [] => (RuneError, 1%nat)
                | s3 :: _ =>
                  if negb (isCont s3) then (RuneError, 1%nat)
                  else
                    (Z.lor (Z.lor (Z.lor (Z.shiftl (Z.land s0 0x07) 18)
                                         (Z.shiftl (Z.land s1 0x3F) 12))
                                  (Z.shiftl (Z.land s2 0x3F) 6))
                           (Z.land s3 0x3F), 4%nat)
                end
            end
        end
    end
  end.

(** utf8.RuneStart: [b&0xC0 != 0x80]. *)
Definition RuneStart (b : Z) : bool := negb (Z.land b 0xC0 =? 0x80).

(** The backward scan of utf8.DecodeLastRuneInString: from [start], step
    down while [start >= lim] until a byte that starts a rune. *)
Fixpoint scanStart (fuel : nat) (s : gostring) (start lim : Z) : Z :=
  match fuel with
  | O => start
  | S n =>
    if start <? lim then start
    else if RuneStart (nth (Z.to_nat start) s 0) then start
    else scanStart n s (start - 1) lim
  end.

(** utf8.DecodeLastRuneInString. *)
Definition DecodeLastRuneInString (s : gostring) : Z * nat :=
  let e := Z.of_nat (length s) in
  if e =? 0 then (RuneError, 0%nat)
  else
    let r := nth (Z.to_nat (e - 1)) s 0 in
    if r <? RuneSelf then (r, 1%nat)
    else
      let lim := Z.max 0 (e - 4) in
      let start := Z.max 0 (scanStart 4 s (e - 2) lim) in
      let '(r', size) := DecodeRuneInString (sliceFrom (Z.to_nat start) s) in
      if start + Z.of_nat size =? e then (r', size) else (RuneError, 1%nat).

(** utf8.AppendRune, as strings.Builder.WriteRune uses it. *)
Definition AppendRune (r : Z) : gostring :=
  if (0 <=? r) && (r <? RuneSelf) then [r]
  else if (0 <=? r) && (r <=? 0x7FF) then
    [Z.lor 0xC0 (Z.shiftr r 6); Z.lor 0x80 (Z.land r 0x3F)]
  else
    let r3 :=
      if (r <? 0) || (MaxRune <? r) || ((0xD800 <=? r) && (r <=? 0xDFFF))
      then Some RuneError
      else if r <=? 0xFFFF then Some r else None in
    match r3 with
    | Some r =>
      [Z.lor 0xE0 (Z.shiftr r 12);
       Z.lor 0x80 (Z.land (Z.shiftr r 6) 0x3F);
       Z.lor 0x80 (Z.land r 0x3F)]
    | None =>
      [Z.lor 0xF0 (Z.shiftr r 18);
       Z.lor 0x80 (Z.land (Z.shiftr r 12) 0x3F);
       Z.lor 0x80 (Z.land (Z.shiftr r 6) 0x3F);
       Z.lor 0x80 (Z.land r 0x3F)]
    end.

(** ** unicode and strings *)

(** unicode.IsSpace: the Latin-1 switch, and the White_Space table above
    Latin-1. *)
Definition IsSpace (r : Z) : bool :=
  if (0 <=? r) && (r <=? 0xFF) then
    ((0x09 <=? r) && (r <=? 0x0D)) || (r =? 0x20) || (r =? 0x85) || (r =? 0xA0)
  else
    (r =? 0x1680) || ((0x2000 <=? r) && (r <=? 0x200A))
    || (r =? 0x2028) || (r =? 0x2029) || (r =? 0x202F)
    || (r =? 0x205F) || (r =? 0x3000).

(** The [asciiSpace] table of package strings:
    ['\t', '\n', '\v', '\f', '\r', ' ']. *)
Definition asciiSpace (c : Z) : bool :=
  ((0x09 <=? c) && (c <=? 0x0D)) || (c =? 0x20).

(** strings.TrimLeftFunc(s, unicode.IsSpace): drop leading runes while they
    are white space. *)
Fixpoint trimLeftSpace (fuel : nat) (s : gostring) : gostring :=
  match fuel with
  | O => []
  | S n =>
    match s with
    | [] => []
    | _ :: _ =>
      let '(r, w) := DecodeRuneInString s in
      if IsSpace r then trimLeftSpace n (sliceFrom w s) else s
    end
  end.

Definition TrimLeftFunc_IsSpace (s : gostring) : gostring :=
  trimLeftSpace (length s) s.

(** lastIndexFunc(s, f, truth) of package strings: the start of the last
    rune [r] with [f(r) == truth], scanning [s[0:i]] backwards; [None] is
    -1. *)
Fixpoint lastIndexFunc (f : Z -> bool) (truth : bool) (fuel : nat)
         (s : gostring) (i : nat) : option nat :=
  match fuel with
  | O => None
  | S n =>
    if (i =? 0)%nat then None
    else
      let '(r, size) := DecodeLastRuneInString (sliceTo i s) in
      if Bool.eqb (f r) truth then Some (i - size)%nat
      else lastIndexFunc f truth n s (i - size)%nat
  end.

(** strings.TrimRightFunc(s, unicode.IsSpace). *)
Definition TrimRightFunc_IsSpace (s : gostring) : gostring :=
  match lastIndexFunc IsSpace false (S (length s)) s (length s) with
  | None => []
  | Some i =>
    if RuneSelf <=? nth i s 0 then
      let '(_, wid) := DecodeRuneInString (sliceFrom i s) in
      sliceTo (i + wid) s
    else sliceTo (i + 1) s
  end.

(** The second loop of strings.TrimSpace, run on the reversed string: find
    the first ASCII non-space byte from the end; a non-ASCII byte hands over
    to TrimRightFunc. *)
Fixpoint trimSpaceStop (r : gostring) : gostring :=
  match r with
  | [] => []
  | c :: t =>
    if RuneSelf <=? c then TrimRightFunc_IsSpace (rev r)
    else if asciiSpace c then trimSpaceStop t
    else rev r
  end.

(** strings.TrimSpace: the ASCII fast path from both ends, with the
    Unicode-aware fallback on the first non-ASCII byte. *)
Fixpoint TrimSpace (s : gostring) : gostring :=
  match s with
  | [] => []
  | c :: t =>
    if RuneSelf <=? c then TrimRightFunc_IsSpace (TrimLeftFunc_IsSpace s)
    else if asciiSpace c then TrimSpace t
    else trimSpaceStop (rev s)
  end.

(** strings.Split(s, sep) for a one-byte separator: the fields between the
    occurrences of [sep]; [Split("", sep)] is one empty field. *)
Fixpoint splitAcc (sep : Z) (s cur : gostring) : list gostring :=
  match s with
  | [] => [rev cur]
  | c :: t =>
    if c =? sep then rev cur :: splitAcc sep t []
    else splitAcc sep t (c :: cur)
  end.

Definition Split (s : gostring) (sep : Z) : list gostring := splitAcc sep s [].

Definition isUpperByte (c : Z) : bool := (0x41 <=? c) && (c <=? 0x5A).
Definition isLowerByte (c : Z) : bool := (0x61 <=? c) && (c <=? 0x7A).

(** [c += 'a' - 'A'] on an upper-case ASCII letter. *)
Definition lowerByte (c : Z) : Z := if isUpperByte c then c + 32 else c.
Definition upperByte (c : Z) : Z := if isLowerByte c then c - 32 else c.

Definition isASCII (s : gostring) : bool := forallb (fun c => c <? RuneSelf) s.
Definition hasUpper (s : gostring) : bool := existsb isUpperByte s.

(** strings.Map(mapping, s): every rune of [s] (an invalid byte counts as
    RuneError) replaced by the encoding of its image; a negative image is
    dropped. *)
Fixpoint mapRunes (fuel : nat) (mapping : Z -> Z) (s : gostring) : gostring :=
  match fuel with
  | O => []
  | S n =>
    match s with
    | [] => []
    | _ :: _ =>
      let '(c, w) := DecodeRuneInString s in
      let r := mapping c in
      (if r <? 0 then [] else AppendRune r) ++ mapRunes n mapping (sliceFrom w s)
    end
  end.

Definition Map (mapping : Z -> Z) (s : gostring) : gostring :=
  mapRunes (length s) mapping s.

Section Unicode.

(** [unicode.To(unicode.LowerCase, r)]: the lower-case mapping of the
    Unicode case tables, consulted for runes above ASCII only. *)
Variable To_LowerCase : Z -> Z.

(** unicode.ToLower. *)
Definition unicode_ToLower (r : Z) : Z :=
  if r <=? 0x7F then lowerByte r else To_LowerCase r.

(** strings.ToLower: byte-wise on an ASCII string, rune-wise otherwise. *)
Definition ToLower (s : gostring) : gostring :=
  if isASCII s then
    if negb (hasUpper s) then s else List.map lowerByte s
  else Map unicode_ToLower s.

End Unicode.

(** strings.ToUpper on an ASCII string. *)
Definition ToUpperASCII (s : gostring) : gostring := List.map upperByte s.

(** ** Go errors and results *)

Inductive Errno := ENOENT | EACCES | EPERM | EBUSY | EIO | EROFS | ENOTDIR.

(** A Go [error]: a message ([errors.New], [fmt.Errorf] without [%w], with
    the values formatted into it), a message wrapping a cause
    ([fmt.Errorf("...: %w", err)]), or the [*fs.PathError] of a failed
    system call. *)
Inductive error :=
| Error (msg : string) (args : list gostring)
| Wrap (msg : string) (cause : error)
| PathError (op : string) (path : gostring) (errno : Errno).

(** A Go [(T, error)] result. *)
Inductive result (A : Type) :=
| Ok (v : A)
| Err (e : error).

Arguments Ok {A} v.
Arguments Err {A} e.

Definition isOk {A} (r : result A) : bool :=
  match r with Ok _ => true | Err _ => false end.

(** ** internal/zone/normalize.go *)

Definition maxDomainLength : nat := 253.
Definition maxLabelLength : nat := 63.

Definition dot : gostring := str ".".

(** [for _, ch := range s]: the runes of [s]. *)
Fixpoint runesOf (fuel : nat) (s : gostring) : list Z :=
  match fuel with
  | O => []
  | S n =>
    match s with
    | [] => []
    | _ :: _ =>
      let '(c, w) := DecodeRuneInString s in
      c :: runesOf n (sliceFrom w s)
    end
  end.

Definition runes (s : gostring) : list Z := runesOf (length s) s.

(** isDNSLabelChar. *)
Definition isDNSLabelChar (ch : Z) : bool :=
  ((0x61 <=? ch) && (ch <=? 0x7A))
  || ((0x30 <=? ch) && (ch <=? 0x39))
  || (ch =? 0x2D).

(** dnsLabels. *)
Definition dnsLabels (name : gostring) : list gostring :=
  let name := TrimSpace name in
  let name :=
    if HasSuffix name dot then sliceTo (length name - 1) name else name in
  if eqb_str name [] then [] else Split name 0x2E.

(** The label loop of NormalizeZone: the first failure among the labels from
    position [i] on. *)
Fixpoint checkLabels (i : nat) (labels : list gostring) : option error :=
  match labels with
  | [] => None
  | label :: rest =>
    if (length label =? 0)%nat then
      Some (Error "empty label at position %d" [])
    else if (maxLabelLength <? length label)%nat then
      Some (Error "label too long at position %d: %d > %d" [])
    else if negb (forallb isDNSLabelChar (runes label)) then
      Some (Error "invalid character '%c' in label at position %d" [])
    else if HasPrefix label (str "-") || HasSuffix label (str "-") then
      Some (Error "label at position %d cannot start or end with hyphen" [])
    else checkLabels (S i) rest
  end.

Section Zone.

Variable To_LowerCase : Z -> Z.

(** [profile.ToASCII] of the IDNA profile
    [idna.New(idna.MapForLookup(), idna.StrictDomainName(true))]. *)
Variable idna_ToASCII : gostring -> result gostring.

Let ToLower := ToLower To_LowerCase.

(** NormalizeZone. *)
Definition NormalizeZone (input : gostring) : result gostring :=
  let input := TrimSpace input in
  let input := ToLower input in
  match idna_ToASCII input with
  | Err e => Err (Wrap "invalid domain name" e)
  | Ok ascii =>
    let input := ascii in
    let input := if negb (HasSuffix input dot) then input ++ dot else input in
    if (maxDomainLength <? length input)%nat then
      Err (Error "domain name too long: %d > %d" [])
    else
      let labels := dnsLabels input in
      if (length labels =? 0)%nat then
        Err (Error "invalid domain name: no labels" [])
      else
        match checkLabels 0 labels with
        | Some e => Err e
        | None => Ok input
        end
  end.

(** NormalizeOwner. *)
Definition NormalizeOwner (input zone : gostring) : result gostring :=
  let input := TrimSpace input in
  if eqb_str input (str "@") then Ok zone
  else if HasSuffix input dot then
    if negb (HasSuffix (ToLower input) (ToLower zone)) then
      Err (Error "owner '%s' is not within zone '%s'" [input; zone])
    else Ok (ToLower input)
  else
    let fqdn := input ++ dot ++ zone in
    Ok (ToLower fqdn).

(** IsWithinZone. *)
Definition IsWithinZone (owner zone : gostring) : bool :=
  let owner := ToLower owner in
  let zone := ToLower zone in
  let owner := if negb (HasSuffix owner dot) then owner ++ dot else owner in
  let zone := if negb (HasSuffix zone dot) then zone ++ dot else zone in
  HasSuffix owner zone.

(** IsApexOwner. *)
Definition IsApexOwner (owner zone : gostring) : bool :=
  let owner := ToLower owner in
  let zone := ToLower zone in
  let owner := if negb (HasSuffix owner dot) then owner ++ dot else owner in
  let zone := if negb (HasSuffix zone dot) then zone ++ dot else zone in
  eqb_str owner zone.

(** The label loop of dnsWireFormat: every non-empty label as its length
    byte followed by its lower-cased bytes. *)
Fixpoint wireLabels (labels : list gostring) : gostring :=
  match labels with
  | [] => []
  | label :: rest =>
    if eqb_str label [] then wireLabels rest
    else (Z.of_nat (length label) mod 256) :: ToLower label ++ wireLabels rest
  end.

(** dnsWireFormat. *)
Definition dnsWireFormat (name : gostring) : gostring :=
  let name := TrimSpace name in
  let name := if negb (HasSuffix name dot) then name ++ dot else name in
  let labels := Split name 0x2E in
  wireLabels labels ++ [0].

End Zone.

(** ** crypto/sha1 and encoding/hex *)

Module SHA1.

Definition w32 (x : Z) : Z := x mod 2 ^ 32.

(** bits.RotateLeft32 on a 32-bit word. *)
Definition rotl (n : Z) (x : Z) : Z :=
  w32 (Z.lor (Z.shiftl x n) (Z.shiftr x (32 - n))).

(** [^x] on a 32-bit word. *)
Definition not32 (x : Z) : Z := Z.lxor x 0xFFFFFFFF.

Definition K0 : Z := 0x5A827999.
Definition K1 : Z := 0x6ED9EBA1.
Definition K2 : Z := 0x8F1BBCDC.
Definition K3 : Z := 0xCA62C1D6.

Definition init : Z * Z * Z * Z * Z :=
  (0x67452301, 0xEFCDAB89, 0x98BADCFE, 0x10325476, 0xC3D2E1F0).

(** The message followed by [0x80], zero bytes up to 56 modulo 64, and the
    bit length as a big-endian 64-bit integer. *)
Definition bigEndian (n : nat) (x : Z) : gostring :=
  List.map (fun i => Z.shiftr x (8 * Z.of_nat i) mod 256) (rev (seq 0 n)).

Definition padding (len : nat) : gostring :=
  let zeros := ((119 - len mod 64) mod 64)%nat in
  0x80 :: repeat 0 zeros ++ bigEndian 8 (8 * Z.of_nat len).

(** The big-endian 32-bit words of a byte string. *)
Fixpoint words (fuel : nat) (p : gostring) : list Z :=
  match fuel with
  | O => []
  | S n =>
    match p with
    | b0 :: b1 :: b2 :: b3 :: rest =>
      Z.lor (Z.lor (Z.lor (Z.shiftl b0 24) (Z.shiftl b1 16)) (Z.shiftl b2 8)) b3
      :: words n rest
    | _ => []
    end
  end.

(** The message schedule, most recent word first: word [t] is
    [rotl 1 (w[t-3] ^ w[t-8] ^ w[t-14] ^ w[t-16])]. *)
Fixpoint schedule (n : nat) (ws : list Z) : list Z :=
  match n with
  | O => ws
  | S m =>
    let w :=
      rotl 1 (Z.lxor (Z.lxor (Z.lxor (nth 2 ws 0) (nth 7 ws 0)) (nth 13 ws 0))
                     (nth 15 ws 0)) in
    schedule m (w :: ws)
  end.

Definition round (i : nat) (st : Z * Z * Z * Z * Z) (w : Z) : Z * Z * Z * Z * Z :=
  let '(a, b, c, d, e) := st in
  let '(f, k) :=
    if (i <? 20)%nat then (Z.lor (Z.land b c) (Z.land (not32 b) d), K0)
    else if (i <? 40)%nat then (Z.lxor (Z.lxor b c) d, K1)
    else if (i <? 60)%nat then
      (Z.lor (Z.land (Z.lor b c) d) (Z.land b c), K2)
    else (Z.lxor (Z.lxor b c) d, K3) in
  let t := w32 (rotl 5 a + f + e + w + k) in
  (t, a, rotl 30 b, c, d).

Fixpoint rounds (i : nat) (ws : list Z) (st : Z * Z * Z * Z * Z) : Z * Z * Z * Z * Z :=
  match ws with
  | [] => st
  | w :: rest => rounds (S i) rest (round i st w)
  end.

(** One 64-byte chunk of blockGeneric. *)
Definition block (h : Z * Z * Z * Z * Z) (chunk : gostring) : Z * Z * Z * Z * Z :=
  let ws := rev (schedule 64 (rev (words 16 chunk))) in
  let '(h0, h1, h2, h3, h4) := h in
  let '(a, b, c, d, e) := rounds 0 ws h in
  (w32 (h0 + a), w32 (h1 + b), w32 (h2 + c), w32 (h3 + d), w32 (h4 + e)).

Fixpoint blocks (fuel : nat) (h : Z * Z * Z * Z * Z) (p : gostring) : Z * Z * Z * Z * Z :=
  match fuel with
  | O => h
  | S n =>
    if (length p <? 64)%nat then h
    else blocks n (block h (firstn 64 p)) (skipn 64 p)
  end.

(** sha1.Sum: the 20 bytes of the digest. *)
Definition Sum (data : gostring) : gostring :=
  let p := data ++ padding (length data) in
  let '(h0, h1, h2, h3, h4) := blocks (length p) init p in
  bigEndian 4 h0 ++ bigEndian 4 h1 ++ bigEndian 4 h2 ++ bigEndian 4 h3
  ++ bigEndian 4 h4.

End SHA1.

Definition hextable : gostring := str "0123456789abcdef".

(** hex.EncodeToString. *)
Definition hex_EncodeToString (src : gostring) : gostring :=
  flat_map (fun v => [nth (Z.to_nat (Z.shiftr v 4)) hextable 0;
                      nth (Z.to_nat (Z.land v 0x0F)) hextable 0]) src.

(** SHA1WireLabel. *)
Definition SHA1WireLabel (To_LowerCase : Z -> Z) (zone : gostring) : gostring :=
  let wire := dnsWireFormat To_LowerCase zone in
  let hash := SHA1.Sum wire in
  hex_EncodeToString hash.

(** ** github.com/miekg/dns: the message parts the update client builds *)

Module dns.

Definition TypeA : Z := 1.
Definition TypeNS : Z := 2.
Definition TypeCNAME : Z := 5.
Definition TypeSOA : Z := 6.
Definition TypeWKS : Z := 11.
Definition TypePTR : Z := 12.
Definition TypeMX : Z := 15.
Definition TypeTXT : Z := 16.
Definition TypeAAAA : Z := 28.
Definition TypeSRV : Z := 33.
Definition TypeCAA : Z := 257.
Definition TypeANY : Z := 255.
Definition ClassINET : Z := 1.
Definition ClassNONE : Z := 254.
Definition ClassANY : Z := 255.
Definition OpcodeQuery : Z := 0.
Definition OpcodeUpdate : Z := 5.

Record RR_Header := mkHeader {
  Name : gostring;
  Rrtype : Z;
  Class : Z;
  Ttl : Z;
  Rdlength : Z
}.

(** The fields of a record after its header: none ([*dns.RR_Header],
    [*dns.ANY]), the target of a [*dns.PTR], or the fields of any other
    record type in presentation form. *)
Inductive RData :=
| NoData
| PtrData (Ptr : gostring)
| Fields (fs : list gostring).

(** A [dns.RR]. *)
Record RR := mkRR {
  Hdr : RR_Header;
  Data : RData
}.

Record Question := mkQuestion {
  Qname : gostring;
  Qtype : Z;
  Qclass : Z
}.

(** A [dns.Msg]: the header bits the update path sets, the question (the
    zone section of an update) and the authority section (the update
    section).  The random message id is left out. *)
Record Msg := mkMsg {
  Response : bool;
  Opcode : Z;
  Compress : bool;
  Questions : list Question;
  Ns : list RR
}.

(** [new(dns.Msg)]. *)
Definition newMsg : Msg := mkMsg false OpcodeQuery false [] [].

(** Msg.SetUpdate. *)
Definition SetUpdate (u : Msg) (z : gostring) : Msg :=
  mkMsg false OpcodeUpdate false [mkQuestion z TypeSOA ClassINET] (Ns u).

(** Msg.RemoveRRset. *)
Definition RemoveRRset (u : Msg) (rr : list RR) : Msg :=
  mkMsg (Response u) (Opcode u) (Compress u) (Questions u)
        (Ns u ++ List.map (fun r =>
            mkRR (mkHeader (Name (Hdr r)) (Rrtype (Hdr r)) ClassANY 0 0) NoData) rr).

(** Msg.Insert; it panics ([None]) on a message with no question. *)
Definition Insert (u : Msg) (rr : list RR) : option Msg :=
  match Questions u with
  | [] => None
  | q :: _ =>
    Some (mkMsg (Response u) (Opcode u) (Compress u) (Questions u)
            (Ns u ++ List.map (fun r =>
                mkRR (mkHeader (Name (Hdr r)) (Rrtype (Hdr r)) (Qclass q)
                               (Ttl (Hdr r)) (Rdlength (Hdr r))) (Data r)) rr))
  end.

(** dns.IsFqdn: a trailing dot that is not escaped. *)
Definition IsFqdn (s : gostring) : bool :=
  if eqb_str s [] || negb (nth (length s - 1) s 0 =? 0x2E) then false
  else
    let s := sliceTo (length s - 1) s in
    if eqb_str s [] || negb (nth (length s - 1) s 0 =? 0x5C) then true
    else
      let i :=
        match lastIndexFunc (fun r => negb (r =? 0x5C)) true (S (length s)) s
                            (length s)
        with
        | Some i => Z.of_nat i
        | None => -1
        end in
      negb ((Z.of_nat (length s) - i) mod 2 =? 0).

(** dns.Fqdn. *)
Definition Fqdn (s : gostring) : gostring :=
  if IsFqdn s then s else s ++ dot.

End dns.

(** ** pkg/update: the RFC 2136 update client *)

Module update.

Import dns.

(** The message Client.AddRRset hands to [send]. *)
Definition AddRRset_msg (zone : gostring) (rrs : list RR) : option Msg :=
  let update := newMsg in
  let update := SetUpdate update zone in
  let update :=
    match rrs with
    | [] => update
    | rr0 :: _ =>
      let rrHeader := Hdr rr0 in
      RemoveRRset update
        [mkRR (mkHeader (Name rrHeader) (Rrtype rrHeader) ClassANY 0 0) NoData]
    end in
  Insert update rrs.

(** The message Client.DeleteRRset hands to [send]. *)
Definition DeleteRRset_msg (zone owner : gostring) (rrType : Z) : Msg :=
  let update := SetUpdate newMsg zone in
  RemoveRRset update [mkRR (mkHeader (Fqdn owner) rrType ClassANY 0 0) NoData].

(** [fmt.Sprintf("%s.zones.%s", label, catalogZone)]. *)
Definition catalogOwnerName (label catalogZone : gostring) : gostring :=
  label ++ str ".zones." ++ catalogZone.

(** BuildPTRUpdate. *)
Definition BuildPTRUpdate (catalogZone memberZone label : gostring) (ttl : Z)
  : result Msg :=
  let update := SetUpdate newMsg catalogZone in
  let catalogOwner := catalogOwnerName label catalogZone in
  let update :=
    RemoveRRset update
      [mkRR (mkHeader (Fqdn catalogOwner) TypePTR ClassANY 0 0) NoData] in
  let ptr :=
    mkRR (mkHeader (Fqdn catalogOwner) TypePTR 1 ttl 0)
         (PtrData (Fqdn memberZone)) in
  match Insert update [ptr] with
  | Some update => Ok update
  | None => Err (Error "panic: dns: empty question section" [])
  end.

(** BuildPTRDelete. *)
Definition BuildPTRDelete (catalogZone label : gostring) : result Msg :=
  let update := SetUpdate newMsg catalogZone in
  let catalogOwner := catalogOwnerName label catalogZone in
  Ok (RemoveRRset update
        [mkRR (mkHeader (Fqdn catalogOwner) TypePTR ClassANY 0 0) NoData]).

End update.

(** ** RFC 2136, section 3.4.2: what a primary does with the update section

    The zone content is the list of the records of a zone of class IN; the
    message names the zone in its zone section.  Names compare without
    regard to ASCII case.  The prescan of section 3.4.1.3, which comes
    first and can refuse the whole update, is apart. *)

Module rfc2136.

Import dns.

Record Rec := mkRec {
  rname : gostring;
  rtype : Z;
  rttl : Z;
  rdata : RData
}.

Definition eqb_name (a b : gostring) : bool :=
  eqb_str (List.map lowerByte a) (List.map lowerByte b).

Fixpoint eqb_list (xs ys : list gostring) : bool :=
  match xs, ys with
  | [], [] => true
  | x :: xs', y :: ys' => eqb_str x y && eqb_list xs' ys'
  | _, _ => false
  end.

Definition eqb_rdata (a b : RData) : bool :=
  match a, b with
  | NoData, NoData => true
  | PtrData x, PtrData y => eqb_name x y
  | Fields x, Fields y => eqb_list x y
  | _, _ => false
  end.

Definition sameSet (name : gostring) (type : Z) (r : Rec) : bool :=
  eqb_name (rname r) name && (rtype r =? type).

Definition sameRR (name : gostring) (type : Z) (d : RData) (r : Rec) : bool :=
  sameSet name type r && eqb_rdata (rdata r) d.

(** Whether the zone has at [name] a record of a type that [p] holds of. *)
Definition hasRRset (zone : list Rec) (name : gostring) (p : Z -> bool) : bool :=
  existsb (fun r => eqb_name (rname r) name && p (rtype r)) zone.

(** The value of a decimal numeral. *)
Fixpoint decimal (s : gostring) (acc : Z) : option Z :=
  match s with
  | [] => Some acc
  | c :: t =>
    if (0x30 <=? c) && (c <=? 0x39) then decimal t (acc * 10 + (c - 0x30))
    else None
  end.

(** The serial of an SOA record: the third field of its presentation
    form. *)
Definition serialOf (d : RData) : option Z :=
  match d with
  | Fields (_ :: _ :: serial :: _) =>
    if eqb_str serial [] then None else decimal serial 0
  | _ => None
  end.

(** RFC 1982: [i1] is lower than [i2] as serial numbers of 32 bits. *)
Definition serialLt (i1 i2 : Z) : bool :=
  ((i1 <? i2) && (i2 - i1 <? 2 ^ 31)) || ((i2 <? i1) && (2 ^ 31 <? i1 - i2)).

(** Section 3.4.2.2, for an SOA record: it is ignored when the zone has no
    SOA record at its name, or one whose serial it does not raise. *)
Definition soaIgnored (zone : list Rec) (rr : RR) : bool :=
  match find (sameSet (Name (Hdr rr)) TypeSOA) zone with
  | None => true
  | Some zrr =>
    match serialOf (Data rr), serialOf (rdata zrr) with
    | Some new, Some current => (new =? current) || serialLt new current
    | _, _ => true
    end
  end.

(** Two WKS records with the same address and protocol, the first two
    fields of the presentation form. *)
Definition sameWKS (a b : RData) : bool :=
  match a, b with
  | Fields (a1 :: p1 :: _), Fields (a2 :: p2 :: _) => eqb_str a1 a2 && eqb_str p1 p2
  | _, _ => false
  end.

(** Section 3.4.2.2: the zone record of the same name and type whose place
    the added record takes: any for CNAME and SOA, for WKS one with the same
    address and protocol, otherwise one with the same data. *)
Definition takesPlaceOf (rr : RR) (zrr : Rec) : bool :=
  let t := Rrtype (Hdr rr) in
  (t =? TypeCNAME) || (t =? TypeSOA)
  || ((t =? TypeWKS) && sameWKS (Data rr) (rdata zrr))
  || eqb_rdata (rdata zrr) (Data rr).

(** The zone with [new] in the place of its first record that [f] holds
    of; [None] when there is none. *)
Fixpoint replaceFirst (f : Rec -> bool) (new : Rec) (zone : list Rec)
  : option (list Rec) :=
  match zone with
  | [] => None
  | r :: rest =>
    if f r then Some (new :: rest)
    else
      match replaceFirst f new rest with
      | Some rest' => Some (r :: rest')
      | None => None
      end
  end.

(** Section 3.4.2.2: a record of the zone's class is added.  A CNAME is
    ignored beside other data and other data beside a CNAME; an SOA as
    above; otherwise the record takes the place of a zone record, or joins
    the zone. *)
Definition addRR (zone : list Rec) (rr : RR) : list Rec :=
  let h := Hdr rr in
  let new := mkRec (Name h) (Rrtype h) (Ttl h) (Data rr) in
  if (if Rrtype h =? TypeCNAME
      then hasRRset zone (Name h) (fun t => negb (t =? TypeCNAME))
      else hasRRset zone (Name h) (fun t => t =? TypeCNAME))
  then zone
  else if (Rrtype h =? TypeSOA) && soaIgnored zone rr then zone
  else
    match replaceFirst (fun zrr => sameSet (Name h) (Rrtype h) zrr
                                   && takesPlaceOf rr zrr) new zone with
    | Some zone' => zone'
    | None => zone ++ [new]
    end.

(** Section 3.4.2.3: class ANY deletes an RRset, or with type ANY every
    RRset of the name; at the zone apex the SOA and NS RRsets stay. *)
Definition deleteRRsets (zname : gostring) (zone : list Rec) (rr : RR) : list Rec :=
  let h := Hdr rr in
  if Rrtype h =? TypeANY then
    if eqb_name (Name h) zname then
      filter (fun r => negb (eqb_name (rname r) (Name h))
                       || (rtype r =? TypeSOA) || (rtype r =? TypeNS)) zone
    else filter (fun r => negb (eqb_name (rname r) (Name h))) zone
  else if eqb_name (Name h) zname
          && ((Rrtype h =? TypeSOA) || (Rrtype h =? TypeNS)) then zone
  else filter (fun r => negb (sameSet (Name h) (Rrtype h) r)) zone.

(** Section 3.4.2.4: class NONE deletes the records with the name, type and
    data of the update record; at the zone apex an SOA record stays, and so
    does the last NS record. *)
Definition deleteRR (zname : gostring) (zone : list Rec) (rr : RR) : list Rec :=
  let h := Hdr rr in
  let lastNS :=
    forallb (fun r => eqb_rdata (rdata r) (Data rr))
            (filter (sameSet (Name h) TypeNS) zone) in
  if eqb_name (Name h) zname
     && ((Rrtype h =? TypeSOA) || ((Rrtype h =? TypeNS) && lastNS)) then zone
  else filter (fun r => negb (sameRR (Name h) (Rrtype h) (Data rr) r)) zone.

(** One record of the update section, applied to the content of the zone
    [zname]. *)
Definition applyRR (zname : gostring) (zone : list Rec) (rr : RR) : list Rec :=
  let h := Hdr rr in
  if Class h =? ClassANY then deleteRRsets zname zone rr
  else if Class h =? ClassNONE then deleteRR zname zone rr
  else if Class h =? ClassINET then addRR zone rr
  else zone.

(** The update section applied in order to the content of the zone that the
    zone section names; a message whose zone section is not one SOA question
    of class IN changes nothing. *)
Definition applyUpdate (zone : list Rec) (m : Msg) : list Rec :=
  match Questions m with
  | [q] =>
    if (Qtype q =? TypeSOA) && (Qclass q =? ClassINET)
    then fold_left (applyRR (Qname q)) (Ns m) zone
    else zone
  | _ => zone
  end.

End rfc2136.

(** ** internal/zone/file.go: serials *)

(** What the code reads off [time.Now()]. *)
Record Time := mkTime {
  Year : Z;
  Month : Z;
  Day : Z
}.

(** The conversion [uint32(x)]. *)
Definition uint32 (x : Z) : Z := x mod 2 ^ 32.

(** [uint32(now.Year()*1000000 + int(now.Month())*10000 + now.Day()*100)]. *)
Definition todaySerial (now : Time) : Z :=
  uint32 (Year now * 1000000 + Month now * 10000 + Day now * 100).

(** BumpSerial, with the clock reading it takes from [time.Now()]. *)
Definition BumpSerial (now : Time) (currentSerial : Z) : Z :=
  let todaySerial := todaySerial now in
  if todaySerial <=? currentSerial then uint32 (currentSerial + 1)
  else todaySerial.

Record ZoneFileData := mkZoneFileData {
  Zone : gostring;
  TTL : Z;
  NS : gostring;
  Email : gostring;
  Serial : Z;
  Refresh : Z;
  Retry : Z;
  Expire : Z;
  Minimum : Z;
  NSRecords : list gostring;
  Defaults : list gostring
}.

(** DefaultZoneFileData. *)
Definition DefaultZoneFileData (now : Time) (zone : gostring) : ZoneFileData :=
  let serial := todaySerial now in
  let ns := str "ns1." ++ zone in
  let email := str "hostmaster." ++ zone in
  mkZoneFileData zone 3600 ns email serial 3600 600 86400 3600
    [str "@ IN NS " ++ ns]
    [str "@ IN CAA 0 issue " ++ [0x22] ++ str "letsencrypt.org" ++ [0x22]].

(** ** The world the lifecycle code acts on *)

(** The calls that leave the process, in the order they are made. *)
Inductive Event :=
| LockAcquire (path : gostring)
| LockRelease (path : gostring)
| MkdirAll (dir : gostring)
| Rndc (args : list gostring)
| WriteFile (path : gostring)
| Open (path : gostring)
| Sync (path : gostring)
| Rename (oldpath newpath : gostring)
| Remove (path : gostring)
| DnsUpdate (m : dns.Msg).

(** The files on disk, the locks held, the calls made so far and the
    caller's [changes] slice. *)
Record State := mkState {
  files : list gostring;
  locks : list gostring;
  events : list Event;
  changes : list string
}.

(** The failures of [unlink] other than the file being absent; a part of
    the path that is not a directory, or that may not be searched, makes it
    fail for a file that is not there as well. *)
Inductive Fault := Denied | Busy | ReadOnly | IOFailure | NotADirectory.

(** How the environment answers: the file lock, the rndc subprocess (its
    standard output, standard error and error), named removing files on
    [delzone -clean], the DNS server answering an update, the template
    engine, the file system calls, and [err.Error()] for the errors that
    come from these. *)
Record Env := mkEnv {
  flock : gostring -> option error;
  mkdirAll : gostring -> option error;
  rndc_run : list gostring -> gostring * gostring * option error;
  named_cleans : gostring -> list gostring;
  exchange : dns.Msg -> option error;
  template_Execute : ZoneFileData -> result gostring;
  writeFile : gostring -> option error;
  open : gostring -> option error;
  sync : gostring -> option error;
  rename : gostring -> gostring -> option error;
  unlink_fault : gostring -> option Fault;
  error_text : error -> gostring
}.

(** What the code reads of the configuration. *)
Record Config := mkConfig {
  Zones_Dir : gostring;
  Zones_FileExtension : gostring;
  Zones_FileOwner : gostring;
  Zones_FileGroup : gostring;
  Zones_DefaultNotify : bool;
  Zones_DNSSECPolicy : gostring;
  Zones_UpdateMode : gostring;
  Zones_TSIGKeyName : gostring;
  Zones_UpdatePolicyGrant : gostring;
  Locking_Dir : gostring;
  Catalog_Zone : gostring
}.

(** Code that acts on the world. *)
Definition M (A : Type) : Type := State -> A * State.

Definition ret {A} (a : A) : M A := fun s => (a, s).

Definition bind {A B} (m : M A) (k : A -> M B) : M B :=
  fun s => let '(a, s') := m s in k a s'.

Notation "x <- m ;; k" := (bind m (fun x => k))
  (at level 61, m at next level, right associativity).
Notation "m ;;; k" := (bind m (fun _ => k))
  (at level 61, right associativity).

Definition emit (e : Event) : M unit :=
  fun s => (tt, mkState (files s) (locks s) (events s ++ [e]) (changes s)).

(** Appending [c] to the slice that [changes] points to. *)
Definition appendChange (c : string) : M unit :=
  fun s => (tt, mkState (files s) (locks s) (events s) (changes s ++ [c])).

Definition setFiles (f : list gostring -> list gostring) : M unit :=
  fun s => (tt, mkState (f (files s)) (locks s) (events s) (changes s)).

Definition setLocks (f : list gostring -> list gostring) : M unit :=
  fun s => (tt, mkState (files s) (f (locks s)) (events s) (changes s)).

Definition getFiles : M (list gostring) := fun s => (files s, s).

Definition hasFile (path : gostring) (fs : list gostring) : bool :=
  existsb (eqb_str path) fs.

Definition without (path : gostring) (fs : list gostring) : list gostring :=
  filter (fun p => negb (eqb_str path p)) fs.

(** strings.Contains. *)
Definition Contains (s substr : gostring) : bool :=
  existsb (fun i => HasPrefix (sliceFrom i s) substr) (seq 0 (S (length s))).

(** strings.TrimSuffix. *)
Definition TrimSuffix (s suffix : gostring) : gostring :=
  if HasSuffix s suffix then sliceTo (length s - length suffix) s else s.

(** os.IsNotExist. *)
Definition IsNotExist (err : error) : bool :=
  match err with
  | PathError _ _ ENOENT => true
  | _ => false
  end.

Definition errnoOf (f : Fault) : Errno :=
  match f with
  | Denied => EACCES
  | Busy => EBUSY
  | ReadOnly => EROFS
  | IOFailure => EIO
  | NotADirectory => ENOTDIR
  end.

Section Lifecycle.

Variable To_LowerCase : Z -> Z.
Variable idna_ToASCII : gostring -> result gostring.
(** [filepath.Join] of two elements. *)
Variable filepath_Join : gostring -> gostring -> gostring.
Variable now : Time.
Variable cfg : Config.
Variable env : Env.

(** os.Remove: the system may refuse, whether the file is there or not;
    otherwise a file that is there goes, and a missing file is [ENOENT]. *)
Definition os_Remove (path : gostring) : M (option error) :=
  emit (Remove path) ;;;
  fs <- getFiles ;;
  match unlink_fault env path with
  | Some f => ret (Some (PathError "remove" path (errnoOf f)))
  | None =>
    if hasFile path fs then setFiles (without path) ;;; ret None
    else ret (Some (PathError "remove" path ENOENT))
  end.

(** RemoveZoneFile. *)
Definition RemoveZoneFile (path : gostring) : M (option error) :=
  r <- os_Remove path ;;
  match r with
  | Some err =>
    if negb (IsNotExist err) then
      ret (Some (Wrap "failed to remove zone file" err))
    else ret None
  | None => ret None
  end.

(** GenerateZoneFile; the template that it parses is a constant. *)
Definition GenerateZoneFile (data : ZoneFileData) : result gostring :=
  match template_Execute env data with
  | Err e => Err (Wrap "failed to execute zone file template" e)
  | Ok content => Ok content
  end.

(** WriteZoneFile: write [path.tmp], sync it, rename it to [path]. *)
Definition WriteZoneFile (path : gostring) (data : ZoneFileData)
           (owner group : gostring) : M (option error) :=
  match GenerateZoneFile data with
  | Err e => ret (Some e)
  | Ok content =>
    let tmpPath := path ++ str ".tmp" in
    emit (WriteFile tmpPath) ;;;
    match writeFile env tmpPath with
    | Some e => ret (Some (Wrap "failed to write zone file" e))
    | None =>
      setFiles (fun fs => tmpPath :: without tmpPath fs) ;;;
      emit (Open tmpPath) ;;;
      match open env tmpPath with
      | Some e => ret (Some (Wrap "failed to open temp file for sync" e))
      | None =>
        emit (Sync tmpPath) ;;;
        match sync env tmpPath with
        | Some e => ret (Some (Wrap "failed to sync zone file" e))
        | None =>
          emit (Rename tmpPath path) ;;;
          match rename env tmpPath path with
          | Some e => ret (Some (Wrap "failed to rename zone file" e))
          | None =>
            setFiles (fun fs => path :: without path (without tmpPath fs)) ;;;
            ret None
          end
        end
      end
    end
  end.

(** Config.ZoneFilePath and Config.LockFilePath. *)
Definition ZoneFilePath (zone : gostring) : gostring :=
  let zoneName := TrimSuffix zone dot in
  filepath_Join (Zones_Dir cfg) (zoneName ++ dot ++ Zones_FileExtension cfg).

Definition LockFilePath (zone : gostring) : gostring :=
  let zoneName := TrimSuffix zone dot in
  filepath_Join (Locking_Dir cfg) (str "zone--" ++ zoneName ++ str ".lock").

(** Config.EnsureDirs. *)
Definition EnsureDirs : M (option error) :=
  emit (MkdirAll (Zones_Dir cfg)) ;;;
  match mkdirAll env (Zones_Dir cfg) with
  | Some e => ret (Some (Wrap "failed to create directory %s" e))
  | None =>
    emit (MkdirAll (Locking_Dir cfg)) ;;;
    match mkdirAll env (Locking_Dir cfg) with
    | Some e => ret (Some (Wrap "failed to create directory %s" e))
    | None => ret None
    end
  end.

(** Lock.Acquire and Lock.Release on a fresh lock for [path]. *)
Definition Lock_Acquire (path : gostring) : M (option error) :=
  emit (LockAcquire path) ;;;
  match flock env path with
  | Some e => ret (Some e)
  | None => setLocks (fun l => path :: l) ;;; ret None
  end.

(** Lock.Release of a lock that is held, in a deferred call whose result
    the callers drop; unlocking and closing the lock file are taken to
    succeed. *)
Definition Lock_Release (path : gostring) : M unit :=
  emit (LockRelease path) ;;;
  setLocks (without path).

(** RNDCClient.run. *)
Definition rndc (args : list gostring) : M (gostring * gostring * option error) :=
  emit (Rndc args) ;;;
  ret (rndc_run env args).

(** RNDCClient.AddZone. *)
Definition AddZone (zone zoneConfig : gostring) : M (option error) :=
  if eqb_str zoneConfig [] then
    ret (Some (Error "zone config cannot be empty" []))
  else
    r <- rndc [str "addzone"; zone; zoneConfig] ;;
    let '(_, stderr, err) := r in
    match err with
    | Some err =>
      let errMsg := stderr in
      let errMsg := if eqb_str errMsg [] then error_text env err else errMsg in
      if Contains errMsg (str "already exists") then
        ret (Some (Wrap "zone already exists" err))
      else ret (Some (Wrap "failed to add zone" err))
    | None => ret None
    end.

(** RNDCClient.DelZone; with [-clean] named removes the zone's files. *)
Definition DelZone (zone : gostring) (clean : bool) : M (option error) :=
  let args := [str "delzone"] ++ (if clean then [str "-clean"] else []) ++ [zone] in
  r <- rndc args ;;
  let '(_, stderr, err) := r in
  match err with
  | Some err =>
    let errMsg := stderr in
    let errMsg := if eqb_str errMsg [] then error_text env err else errMsg in
    if Contains errMsg (str "not found") || Contains errMsg (str "no such zone")
    then ret (Some (Wrap "zone not found" err))
    else ret (Some (Wrap "failed to delete zone" err))
  | None =>
    (if clean then
       setFiles (fun fs => fold_right without fs (named_cleans env zone))
     else ret tt) ;;;
    ret None
  end.

(** RNDCClient.ZoneStatus, without the [loaded] flag that the lifecycle
    code ignores: [(exists, err)]. *)
Definition ZoneStatus (zone : gostring) : M (bool * option error) :=
  r <- rndc [str "zonestatus"; zone] ;;
  let '(_, stderr, err) := r in
  match err with
  | Some err =>
    let errMsg := stderr in
    let errMsg := if eqb_str errMsg [] then error_text env err else errMsg in
    if Contains errMsg (str "not found") || Contains errMsg (str "no such zone")
    then ret (false, None)
    else ret (false, Some (Wrap "failed to get zone status" err))
  | None => ret (true, None)
  end.

(** Client.Update: sign and exchange the message. *)
Definition Update (m : dns.Msg) : M (option error) :=
  emit (DnsUpdate m) ;;;
  ret (exchange env m).

(** boolToYesNo. *)
Definition boolToYesNo (b : bool) : gostring :=
  if b then str "yes" else str "no".

(** Creator.buildZoneConfig. *)
Definition buildZoneConfig (zoneFilePath : gostring) : gostring :=
  str "type primary;" ++ [0x0A]
  ++ str "file " ++ [0x22] ++ zoneFilePath ++ [0x22] ++ str ";" ++ [0x0A]
  ++ str "notify " ++ boolToYesNo (Zones_DefaultNotify cfg) ++ str ";" ++ [0x0A]
  ++ str "dnssec-policy " ++ Zones_DNSSECPolicy cfg ++ str ";" ++ [0x0A]
  ++ str "inline-signing yes;" ++ [0x0A]
  ++ (if eqb_str (Zones_UpdateMode cfg) (str "allow-update") then
        str "allow-update { key " ++ [0x22] ++ Zones_TSIGKeyName cfg ++ [0x22]
        ++ str "; };" ++ [0x0A]
      else
        str "update-policy { grant " ++ Zones_TSIGKeyName cfg ++ str " "
        ++ Zones_UpdatePolicyGrant cfg ++ str "; };" ++ [0x0A]).

(** Creator.ensureCatalogMembership. *)
Definition ensureCatalogMembership (zone : gostring) : M (option error) :=
  let label := SHA1WireLabel To_LowerCase zone in
  match update.BuildPTRUpdate (Catalog_Zone cfg) zone label 60 with
  | Err err => ret (Some (Wrap "failed to build catalog update" err))
  | Ok updateMsg =>
    r <- Update updateMsg ;;
    match r with
    | Some err => ret (Some (Wrap "failed to send catalog update" err))
    | None => appendChange "catalog_updated" ;;; ret None
    end
  end.

(** Creator.CreateZone once the stub zone file is written (steps 7 to 9):
    register the zone with named and enter it in the catalog, undoing on
    failure. *)
Definition CreateZone_register (zone zoneFilePath : gostring) : M (option error) :=
  let zoneConfig := buildZoneConfig zoneFilePath in
  r <- AddZone zone zoneConfig ;;
  match r with
  | Some err =>
    RemoveZoneFile zoneFilePath ;;;
    ret (Some (Wrap "failed to add zone via RNDC" err))
  | None =>
    appendChange "zone_added" ;;;
    r <- ensureCatalogMembership zone ;;
    match r with
    | Some err =>
      DelZone zone true ;;;
      RemoveZoneFile zoneFilePath ;;;
      ret (Some (Wrap "failed to update catalog zone" err))
    | None => ret None
    end
  end.

(** Creator.CreateZone, after the lock is taken (steps 3 to 9). *)
Definition CreateZone_locked (zone : gostring) : M (option error) :=
  r <- EnsureDirs ;;
  match r with
  | Some err => ret (Some (Wrap "failed to ensure directories" err))
  | None =>
    let zoneFilePath := ZoneFilePath zone in
    st <- ZoneStatus zone ;;
    let '(exists_, err) := st in
    if (match err with None => true | Some _ => false end) && exists_ then
      appendChange "zone_already_exists" ;;;
      ensureCatalogMembership zone
    else
      let zoneData := DefaultZoneFileData now zone in
      r <- WriteZoneFile zoneFilePath zoneData
             (Zones_FileOwner cfg) (Zones_FileGroup cfg) ;;
      match r with
      | Some err => ret (Some (Wrap "failed to write zone file" err))
      | None =>
        appendChange "zone_file_created" ;;;
        CreateZone_register zone zoneFilePath
      end
  end.

(** Creator.CreateZone. *)
Definition CreateZone (zoneInput : gostring) : M (option error) :=
  match NormalizeZone To_LowerCase idna_ToASCII zoneInput with
  | Err err => ret (Some (Wrap "invalid zone name" err))
  | Ok zone =>
    let lockPath := LockFilePath zone in
    r <- Lock_Acquire lockPath ;;
    match r with
    | Some err => ret (Some (Wrap "failed to acquire zone lock" err))
    | None =>
      r <- CreateZone_locked zone ;;
      Lock_Release lockPath ;;;
      ret r
    end
  end.

(** Deleter.removeFromCatalog. *)
Definition removeFromCatalog (zone : gostring) : M (option error) :=
  let label := SHA1WireLabel To_LowerCase zone in
  match update.BuildPTRDelete (Catalog_Zone cfg) label with
  | Err err => ret (Some (Wrap "failed to build catalog delete" err))
  | Ok updateMsg =>
    r <- Update updateMsg ;;
    match r with
    | Some err => ret (Some (Wrap "failed to send catalog delete" err))
    | None => appendChange "catalog_updated" ;;; ret None
    end
  end.

(** Deleter.DeleteZone, after the lock is taken (steps 3 to 5). *)
Definition DeleteZone_locked (zone : gostring) : M (option error) :=
  r <- removeFromCatalog zone ;;
  match r with
  | Some err => ret (Some (Wrap "failed to remove from catalog" err))
  | None =>
    r <- DelZone zone true ;;
    match r with
    | Some err => ret (Some (Wrap "failed to delete zone via RNDC" err))
    | None =>
      appendChange "zone_deleted" ;;;
      let zoneFilePath := ZoneFilePath zone in
      r <- RemoveZoneFile zoneFilePath ;;
      match r with
      | Some _ => appendChange "zone_file_cleanup_failed" ;;; ret None
      | None => appendChange "zone_file_removed" ;;; ret None
      end
    end
  end.

(** Deleter.DeleteZone. *)
Definition DeleteZone (zoneInput : gostring) : M (option error) :=
  match NormalizeZone To_LowerCase idna_ToASCII zoneInput with
  | Err err => ret (Some (Wrap "invalid zone name" err))
  | Ok zone =>
    let lockPath := LockFilePath zone in
    r <- Lock_Acquire lockPath ;;
    match r with
    | Some err => ret (Some (Wrap "failed to acquire zone lock" err))
    | None =>
      r <- DeleteZone_locked zone ;;
      Lock_Release lockPath ;;;
      ret r
    end
  end.

End Lifecycle.

(** ** internal/acme/acme.go *)

(** The loop of containsPrefix: the first [len(prefix)] bytes of [s] against
    [prefix], both lower-cased byte by byte. *)
Fixpoint containsPrefix_loop (s prefix : gostring) : bool :=
  match prefix, s with
  | [], _ => true
  | pc :: prefix', sc :: s' =>
    let sc := if (0x41 <=? sc) && (sc <=? 0x5A) then sc + 32 else sc in
    let pc := if (0x41 <=? pc) && (pc <=? 0x5A) then pc + 32 else pc in
    if negb (sc =? pc) then false else containsPrefix_loop s' prefix'
  | _ :: _, [] => false
  end.

(** containsPrefix. *)
Definition containsPrefix (s prefix : gostring) : bool :=
  if (length s <? length prefix)%nat then false
  else containsPrefix_loop s prefix.

(** What ACMEHandler.Present and ACMEHandler.Cleanup make of the normalized
    owner: the name of the challenge record. *)
Definition challengeOwner (owner zoneFQDN : gostring) : gostring :=
  if (16 <? length owner)%nat
     && negb (containsPrefix owner (str "_acme-challenge."))
  then
    let baseOwner :=
      if (length zoneFQDN <? length owner)%nat
         && eqb_str (sliceFrom (length owner - length zoneFQDN) owner) zoneFQDN
      then
        let baseOwner := sliceTo (length owner - length zoneFQDN) owner in
        if nth (length baseOwner - 1) baseOwner 0 =? 0x2E
        then sliceTo (length baseOwner - 1) baseOwner
        else baseOwner
      else owner in
    str "_acme-challenge." ++ baseOwner ++ dot ++ zoneFQDN
  else owner.

(** The arguments of a call of Manager.Upsert. *)
Record UpsertArgs := mkUpsertArgs {
  arg_zone : gostring;
  arg_owner : gostring;
  arg_rrType : gostring;
  arg_ttl : Z;
  arg_rdata : list gostring
}.

Record UpsertResult := mkUpsertResult {
  Success : bool;
  Owner : gostring;
  Type_ : gostring;
  ResultTTL : Z;
  RData : list gostring
}.

Section ACME.

Variable To_LowerCase : Z -> Z.
Variable idna_ToASCII : gostring -> result gostring.
(** [h.manager.Upsert]. *)
Variable manager_Upsert : UpsertArgs -> result UpsertResult.

(** ACMEHandler.Present up to its call of Manager.Upsert: the arguments it
    passes, or the error it returns before. *)
Definition Present_args (zoneInput fqdn value : gostring) (ttl : Z)
  : result UpsertArgs :=
  match NormalizeZone To_LowerCase idna_ToASCII zoneInput with
  | Err err => Err (Wrap "invalid zone" err)
  | Ok zoneFQDN =>
    match NormalizeOwner To_LowerCase fqdn zoneFQDN with
    | Err err => Err (Wrap "invalid FQDN" err)
    | Ok owner =>
      let owner := challengeOwner owner zoneFQDN in
      let ttl := if ttl =? 0 then 60 else ttl in
      Ok (mkUpsertArgs zoneFQDN owner (str "TXT") ttl [value])
    end
  end.

(** ACMEHandler.Present. *)
Definition Present (zoneInput fqdn value : gostring) (ttl : Z)
  : result UpsertResult :=
  match Present_args zoneInput fqdn value ttl with
  | Err err => Err err
  | Ok a =>
    match manager_Upsert a with
    | Err err => Err (Wrap "failed to create ACME challenge record" err)
    | Ok result => Ok result
    end
  end.

End ACME.


(** ** Notions the claims are stated with *)

(** A label of a canonical name: 1 to 63 bytes of [a-z0-9-], no hyphen at
    either end: what the label loop of NormalizeZone accepts. *)
Definition canonicalLabel (label : gostring) : bool :=
  negb (length label =? 0)%nat
  && (length label <=? maxLabelLength)%nat
  && forallb isDNSLabelChar label
  && negb (HasPrefix label (str "-") || HasSuffix label (str "-")).

(** A canonical zone apex, the form NormalizeZone returns: at most 253
    bytes, a trailing dot, and before it one or more canonical labels
    separated by dots. *)
Definition canonicalZone (z : gostring) : bool :=
  HasSuffix z dot
  && (length z <=? maxDomainLength)%nat
  && negb (eqb_str (sliceTo (length z - 1) z) [])
  && forallb canonicalLabel (Split (sliceTo (length z - 1) z) 0x2E).

(** [z] is a proper suffix of [s]. *)
Definition properSuffix (z s : gostring) : Prop :=
  exists p, p <> [] /\ s = p ++ z.

(** [s] lies strictly below [z] as a DNS name: one or more labels, a dot,
    then [z]. *)
Definition strictlyBelow (z s : gostring) : Prop :=
  exists p, p <> [] /\ s = p ++ dot ++ z.

(** A name in presentation form: printable ASCII with no white space. *)
Definition isNameText (z : gostring) : bool :=
  forallb (fun c => (0x21 <=? c) && (c <=? 0x7E)) z.

(** [z] without its trailing dot. *)
Definition withoutTrailingDot (z : gostring) : gostring := TrimSuffix z dot.

(** The wire format of a name as the specification words it: the non-empty
    labels between the dots, each as its length byte followed by its bytes
    in lower case, then the root byte. *)
Definition wireEncoding (z : gostring) : gostring :=
  flat_map (fun label => Z.of_nat (length label) mod 256 :: List.map lowerByte label)
           (filter (fun label => negb (eqb_str label [])) (Split z 0x2E))
  ++ [0].

(** Lower-case hexadecimal digits. *)
Definition isLowerHex (c : Z) : bool :=
  ((0x30 <=? c) && (c <=? 0x39)) || ((0x61 <=? c) && (c <=? 0x66)).

(** Stand-ins for the parameters, for evaluating the code on ASCII input,
    where neither is consulted beyond ASCII: no case mapping above ASCII, and
    an IDNA profile that hands back what it is given. *)
Definition noCaseAboveASCII : Z -> Z := fun r => r.
Definition idnaIdentity : gostring -> result gostring := fun s => Ok s.

(** *** Names for what the lifecycle code sends and records *)

(** The arguments of [rndc addzone] and of [rndc delzone -clean]. *)
Definition addzoneArgs (zone zoneConfig : gostring) : list gostring :=
  [str "addzone"; zone; zoneConfig].

Definition delzoneArgs (zone : gostring) : list gostring :=
  [str "delzone"; str "-clean"; zone].

(** The text that AddZone, DelZone and ZoneStatus search after a failed
    rndc call: its standard error, or the text of the error when that is
    empty. *)
Definition rndcErrMsg (env : Env) (stderr : gostring) (err : error) : gostring :=
  if eqb_str stderr [] then error_text env err else stderr.

(** The errors AddZone and DelZone make of a failed rndc call. *)
Definition addZoneError (errMsg : gostring) (err : error) : error :=
  if Contains errMsg (str "already exists")
  then Wrap "zone already exists" err
  else Wrap "failed to add zone" err.

Definition delZoneError (errMsg : gostring) (err : error) : error :=
  if Contains errMsg (str "not found") || Contains errMsg (str "no such zone")
  then Wrap "zone not found" err
  else Wrap "failed to delete zone" err.

(** The state after Lock.Acquire succeeded on [lockPath]. *)
Definition lockTaken (lockPath : gostring) (st : State) : State :=
  mkState (files st) (lockPath :: locks st)
          (events st ++ [LockAcquire lockPath]) (changes st).

(** A later state that differs from an earlier one in the calls made, and
    possibly in the files, but not in the locks held or the changes
    recorded. *)
Definition onlyCalls (st st' : State) : Prop :=
  locks st' = locks st /\ changes st' = changes st
  /\ exists es, events st' = events st ++ es.

Section LifecycleNotions.

Variable To_LowerCase : Z -> Z.
Variable cfg : Config.
Variable env : Env.

(** The files left by os.Remove of [path]. *)
Definition unlinked (path : gostring) (fs : list gostring) : list gostring :=
  match unlink_fault env path with
  | Some _ => fs
  | None => without path fs
  end.

(** The catalog messages of a zone: what BuildPTRDelete and BuildPTRUpdate
    return for its label. *)
Definition catalogDelete (zone : gostring) : dns.Msg :=
  dns.RemoveRRset (dns.SetUpdate dns.newMsg (Catalog_Zone cfg))
    [dns.mkRR (dns.mkHeader
                 (dns.Fqdn (update.catalogOwnerName
                              (SHA1WireLabel To_LowerCase zone) (Catalog_Zone cfg)))
                 dns.TypePTR dns.ClassANY 0 0) dns.NoData].

Definition catalogUpsert (zone : gostring) : dns.Msg :=
  let owner :=
    dns.Fqdn (update.catalogOwnerName
                (SHA1WireLabel To_LowerCase zone) (Catalog_Zone cfg)) in
  dns.mkMsg false dns.OpcodeUpdate false
    [dns.mkQuestion (Catalog_Zone cfg) dns.TypeSOA dns.ClassINET]
    [dns.mkRR (dns.mkHeader owner dns.TypePTR dns.ClassANY 0 0) dns.NoData;
     dns.mkRR (dns.mkHeader owner dns.TypePTR dns.ClassINET 60 0)
              (dns.PtrData (dns.Fqdn zone))].

End LifecycleNotions.

(** *** A configuration and environments to run the lifecycle code in *)

(** [filepath.Join] on a clean directory and a file name. *)
Definition joinWithSlash (dir name : gostring) : gostring := dir ++ str "/" ++ name.

Definition exampleConfig : Config :=
  mkConfig (str "/var/lib/bind/zones") (str "db") [] [] true (str "default")
           (str "allow-update") (str "dnsctl-updater") []
           (str "/var/lock/dnsctl") (str "catalog.example.").

Definition emptyState : State := mkState [] [] [] [].

Definition exitStatus1 : error := Error "exit status 1" [].

(** The text of an error that carries no values: its message, then that of
    its cause. *)
Fixpoint messageText (e : error) : gostring :=
  match e with
  | Error msg _ => str msg
  | Wrap msg cause => str msg ++ str ": " ++ messageText cause
  | PathError op path _ => str op ++ str " " ++ path
  end.

Definition firstArg (args : list gostring) (name : string) : bool :=
  match args with
  | a :: _ => eqb_str a (str name)
  | [] => false
  end.

(** An environment in which named does not know the zone and
    [rndc addzone] fails; every other call succeeds, except that unlinking a
    file fails with [unlinkFault] when that is given. *)
Definition addzoneFails (unlinkFault : option Fault) : Env :=
  mkEnv (fun _ => None) (fun _ => None)
        (fun args =>
           if firstArg args "zonestatus" then
             ([], str "rndc: 'zonestatus' failed: not found", Some exitStatus1)
           else if firstArg args "addzone" then
             ([], str "rndc: 'addzone' failed: permission denied", Some exitStatus1)
           else ([], [], None))
        (fun _ => []) (fun _ => None)
        (fun _ => Ok (str "$ORIGIN example.com."))
        (fun _ => None) (fun _ => None) (fun _ => None) (fun _ _ => None)
        (fun _ => unlinkFault) messageText.

(** An environment in which every call succeeds; on [delzone -clean] named
    removes the files [cleaned], and unlinking a file fails with
    [unlinkFault] when that is given. *)
Definition allSucceed (cleaned : list gostring) (unlinkFault : option Fault) : Env :=
  mkEnv (fun _ => None) (fun _ => None) (fun _ => ([], [], None))
        (fun _ => cleaned) (fun _ => None)
        (fun _ => Ok (str "$ORIGIN example.com."))
        (fun _ => None) (fun _ => None) (fun _ => None) (fun _ _ => None)
        (fun _ => unlinkFault) messageText.

(** Byte strings that are ASCII throughout. *)
Definition asciiBytes (a : gostring) : Prop := Forall (fun c => 0 <= c < 0x80) a.

(** * More of the code

    The functions around those above: the rest of package zone, the
    validators and the record builder of package rrset, the policy of
    package config, Manager.Delete, the remaining messages of the update
    client, ACMEHandler.Cleanup, the lock path of package lock and the SSH
    wrapper; with the functions of the Go library that they call. *)

(** ** More of package strings, and strconv *)

Definition hasLower (s : gostring) : bool := existsb isLowerByte s.

(** strings.TrimPrefix. *)
Definition TrimPrefix (s prefix : gostring) : gostring :=
  if HasPrefix s prefix then sliceFrom (length prefix) s else s.

(** strings.Join. *)
Fixpoint Join (elems : list gostring) (sep : gostring) : gostring :=
  match elems with
  | [] => []
  | e :: rest =>
    match rest with
    | [] => e
    | _ :: _ => e ++ sep ++ Join rest sep
    end
  end.

(** The field that strings.Fields is collecting: [None] between fields,
    otherwise its bytes so far, last byte first. *)
Definition closeField (cur : option gostring) : list gostring :=
  match cur with
  | Some f => [rev f]
  | None => []
  end.

Definition growField (cur : option gostring) (bytes : gostring) : option gostring :=
  match cur with
  | Some f => Some (rev bytes ++ f)
  | None => Some (rev bytes)
  end.

(** The ASCII path of strings.Fields: the maximal runs of bytes that are
    not in [asciiSpace]. *)
Fixpoint fieldsASCII (s : gostring) (cur : option gostring) : list gostring :=
  match s with
  | [] => closeField cur
  | c :: t =>
    if asciiSpace c then closeField cur ++ fieldsASCII t None
    else fieldsASCII t (growField cur [c])
  end.

(** strings.FieldsFunc(s, f): the maximal runs of runes that do not satisfy
    [f]. *)
Fixpoint fieldsFunc (fuel : nat) (f : Z -> bool) (s : gostring)
         (cur : option gostring) : list gostring :=
  match fuel with
  | O => closeField cur
  | S n =>
    match s with
    | [] => closeField cur
    | _ :: _ =>
      let '(r, w) := DecodeRuneInString s in
      if f r then closeField cur ++ fieldsFunc n f (sliceFrom w s) None
      else fieldsFunc n f (sliceFrom w s) (growField cur (sliceTo w s))
    end
  end.

(** strings.Fields: byte-wise on an ASCII string, FieldsFunc with
    unicode.IsSpace otherwise. *)
Definition strings_Fields (s : gostring) : list gostring :=
  if isASCII s then fieldsASCII s None
  else fieldsFunc (length s) IsSpace s None.

Definition maxUint64 : Z := 2 ^ 64 - 1.

(** The digit loop of strconv.ParseUint in base 10, from the value [n]. *)
Fixpoint parseUintLoop (s0 : gostring) (cutoff maxVal : Z) (s : gostring) (n : Z)
  : Z * option error :=
  match s with
  | [] => (n, None)
  | c :: t =>
    if (0x30 <=? c) && (c <=? 0x39) then
      let d := c - 0x30 in
      if cutoff <=? n then
        (maxVal, Some (Error "strconv.ParseUint: parsing %q: value out of range" [s0]))
      else
        let n := (n * 10) mod 2 ^ 64 in
        let n1 := (n + d) mod 2 ^ 64 in
        if (n1 <? n) || (maxVal <? n1) then
          (maxVal, Some (Error "strconv.ParseUint: parsing %q: value out of range" [s0]))
        else parseUintLoop s0 cutoff maxVal t n1
    else (0, Some (Error "strconv.ParseUint: parsing %q: invalid syntax" [s0]))
  end.

(** strconv.ParseUint(s, 10, bitSize): the value and the error.  A string
    that is empty or has a byte that is no digit is a syntax error with
    value 0; a value above [2^bitSize - 1] is a range error with that
    maximum for value. *)
Definition ParseUint10 (s : gostring) (bitSize : Z) : Z * option error :=
  if eqb_str s [] then
    (0, Some (Error "strconv.ParseUint: parsing %q: invalid syntax" [s]))
  else
    parseUintLoop s (maxUint64 / 10 + 1) (2 ^ bitSize - 1) s 0.

Definition isErr (e : option error) : bool :=
  match e with Some _ => true | None => false end.

Definition isNil {A} (x : option A) : bool :=
  match x with Some _ => false | None => true end.

(** The conversions [uint16(x)] and [uint8(x)]. *)
Definition uint16 (x : Z) : Z := x mod 2 ^ 16.
Definition uint8 (x : Z) : Z := x mod 2 ^ 8.

(** A lookup in a [map[string]bool]: [false] for a missing key. *)
Fixpoint lookupBool (m : list (gostring * bool)) (key : gostring) : bool :=
  match m with
  | [] => false
  | (k, v) :: rest => if eqb_str k key then v else lookupBool rest key
  end.

(** [for _, x := range xs { if err := check(x); err != nil { return err } }]:
    the first error. *)
Fixpoint firstError {A} (check : A -> option error) (xs : list A) : option error :=
  match xs with
  | [] => None
  | x :: rest =>
    match check x with
    | Some e => Some e
    | None => firstError check rest
    end
  end.

(** ** internal/config: the policy *)

Record PolicyConfig := mkPolicy {
  AllowedRRtypes : list gostring;
  DisallowApexCNAME : bool;
  DisallowNSUpdates : bool;
  MaxTTL : Z;
  MinTTL : Z
}.

(** ** internal/rrset/validate.go: the records BuildRR builds *)

(** The fields after the header, by record type; an address that
    net.ParseIP did not parse is [None]. *)
Inductive Body :=
| BodyA (A : option gostring)
| BodyAAAA (AAAA : option gostring)
| BodyCNAME (Target : gostring)
| BodyTXT (Txt : list gostring)
| BodyMX (Preference : Z) (Mx : gostring)
| BodySRV (Priority Weight Port : Z) (Target : gostring)
| BodyCAA (Flag : Z) (Tag Value : gostring)
| BodyNS (Ns : gostring).

Record TypedRR := mkTypedRR {
  THdr : dns.RR_Header;
  TBody : Body
}.

(** The [validTypes] map of ValidateRecordType. *)
Definition validTypes : list (gostring * bool) :=
  [(str "A", true); (str "AAAA", true); (str "CNAME", true); (str "TXT", true);
   (str "MX", true); (str "SRV", true); (str "CAA", true); (str "NS", true);
   (str "SOA", true); (str "PTR", true)].

(** splitTXT. *)
Definition splitTXT (txt : gostring) : list gostring := [txt].

Section Validation.

(** [unicode.To(unicode.UpperCase, r)], consulted for runes above ASCII. *)
Variable To_UpperCase : Z -> Z.

(** The general case of strings.EqualFold for two runes [sr < tr] with [tr]
    above ASCII: whether the walk along unicode.SimpleFold from [sr] arrives
    at [tr]. *)
Variable foldsTo : Z -> Z -> bool.

Variable policy : PolicyConfig.

(** [net.ParseIP]: the address, or [nil]. *)
Variable net_ParseIP : gostring -> option gostring.

Variable To_LowerCase : Z -> Z.

(** unicode.ToUpper. *)
Definition unicode_ToUpper (r : Z) : Z :=
  if r <=? 0x7F then upperByte r else To_UpperCase r.

(** strings.ToUpper: byte-wise on an ASCII string, rune-wise otherwise. *)
Definition ToUpper (s : gostring) : gostring :=
  if isASCII s then
    if negb (hasLower s) then s else List.map upperByte s
  else Map unicode_ToUpper s.

(** Two runes that strings.EqualFold takes for equal. *)
Definition foldEqual (sr tr : Z) : bool :=
  if tr =? sr then true
  else
    let lo := if tr <? sr then tr else sr in
    let hi := if tr <? sr then sr else tr in
    if hi <? RuneSelf then
      (0x41 <=? lo) && (lo <=? 0x5A) && (hi =? lo + 0x20)
    else foldsTo lo hi.

(** The rune loop of strings.EqualFold, entered at the first byte that is
    not ASCII. *)
Fixpoint equalFoldRunes (fuel : nat) (s t : gostring) : bool :=
  match fuel with
  | O => (length t =? 0)%nat
  | S n =>
    match s with
    | [] => (length t =? 0)%nat
    | _ :: _ =>
      let '(sr, sw) := DecodeRuneInString s in
      match t with
      | [] => false
      | _ :: _ =>
        let '(tr, tw) := DecodeRuneInString t in
        if foldEqual sr tr then
          equalFoldRunes n (sliceFrom sw s) (sliceFrom tw t)
        else false
      end
    end
  end.

(** strings.EqualFold: the byte loop while both strings are ASCII, the rune
    loop from the first byte that is not. *)
Fixpoint EqualFold (s t : gostring) : bool :=
  match s, t with
  | sr :: s', tr :: t' =>
    if (RuneSelf <=? sr) || (RuneSelf <=? tr) then equalFoldRunes (length s) s t
    else if tr =? sr then EqualFold s' t'
    else
      let lo := if tr <? sr then tr else sr in
      let hi := if tr <? sr then sr else tr in
      if (0x41 <=? lo) && (lo <=? 0x5A) && (hi =? lo + 0x20) then EqualFold s' t'
      else false
  | [], [] => true
  | _, _ => false
  end.

(** ValidateRecordType of internal/zone/normalize.go. *)
Definition ValidateRecordType (rrType : gostring) : bool :=
  lookupBool validTypes (ToUpper rrType).

(** Config.IsAllowedRRType. *)
Definition IsAllowedRRType (rrType : gostring) : bool :=
  existsb (fun allowed => EqualFold rrType allowed) (AllowedRRtypes policy).

(** validateA. *)
Definition validateA (rdata : list gostring) : option error :=
  if (length rdata =? 0)%nat then Some (Error "no IP address provided" [])
  else
    firstError (fun ip =>
      if isNil (net_ParseIP ip) || Contains ip (str ":")
      then Some (Error "invalid IPv4 address: %s" [ip]) else None) rdata.

(** validateAAAA. *)
Definition validateAAAA (rdata : list gostring) : option error :=
  if (length rdata =? 0)%nat then Some (Error "no IP address provided" [])
  else
    firstError (fun ip =>
      let parsed := net_ParseIP ip in
      if isNil parsed || negb (Contains ip (str ":"))
      then Some (Error "invalid IPv6 address: %s" [ip]) else None) rdata.

(** validateCNAME. *)
Definition validateCNAME (rdata : list gostring) : option error :=
  match rdata with
  | [] => Some (Error "no target provided" [])
  | rdata0 :: _ =>
    let target := TrimSpace rdata0 in
    if eqb_str target [] then Some (Error "CNAME target cannot be empty" [])
    else None
  end.

(** validateTXT. *)
Definition validateTXT (rdata : list gostring) : option error :=
  if (length rdata =? 0)%nat then Some (Error "no text provided" [])
  else None.

(** validateMX. *)
Definition validateMX (rdata : list gostring) : option error :=
  if (length rdata =? 0)%nat then Some (Error "no MX data provided" [])
  else
    firstError (fun mx =>
      let parts := strings_Fields mx in
      if negb (length parts =? 2)%nat then
        Some (Error "MX record must be: preference host, got: %s" [mx])
      else
        let pref := nth 0 parts [] in
        if isErr (snd (ParseUint10 pref 16)) then
          Some (Error "invalid MX preference: %s" [pref])
        else
          let host := nth 1 parts [] in
          if eqb_str host [] then Some (Error "MX host cannot be empty" [])
          else None) rdata.

(** validateSRV. *)
Definition validateSRV (rdata : list gostring) : option error :=
  if (length rdata =? 0)%nat then Some (Error "no SRV data provided" [])
  else
    firstError (fun srv =>
      let parts := strings_Fields srv in
      if negb (length parts =? 4)%nat then
        Some (Error "SRV record must be: priority weight port target, got: %s" [srv])
      else if isErr (snd (ParseUint10 (nth 0 parts []) 16)) then
        Some (Error "invalid SRV priority: %s" [nth 0 parts []])
      else if isErr (snd (ParseUint10 (nth 1 parts []) 16)) then
        Some (Error "invalid SRV weight: %s" [nth 1 parts []])
      else if isErr (snd (ParseUint10 (nth 2 parts []) 16)) then
        Some (Error "invalid SRV port: %s" [nth 2 parts []])
      else
        let target := nth 3 parts [] in
        if eqb_str target [] then Some (Error "SRV target cannot be empty" [])
        else None) rdata.

(** validateCAA. *)
Definition validateCAA (rdata : list gostring) : option error :=
  if (length rdata =? 0)%nat then Some (Error "no CAA data provided" [])
  else
    firstError (fun caa =>
      let parts := strings_Fields caa in
      if (length parts <? 3)%nat then
        Some (Error "CAA record must be: flags tag value, got: %s" [caa])
      else
        let flags := nth 0 parts [] in
        if negb (eqb_str flags (str "0")) && negb (eqb_str flags (str "1")) then
          Some (Error "CAA flags must be 0 or 1, got: %s" [flags])
        else
          let tag := nth 1 parts [] in
          if negb (eqb_str tag (str "issue")) && negb (eqb_str tag (str "issuewild"))
             && negb (eqb_str tag (str "iodef")) then
            Some (Error "CAA tag must be issue, issuewild, or iodef, got: %s" [tag])
          else None) rdata.

(** validateNS. *)
Definition validateNS (rdata : list gostring) : option error :=
  if (length rdata =? 0)%nat then Some (Error "no nameserver provided" [])
  else
    firstError (fun ns =>
      if eqb_str (TrimSpace ns) [] then Some (Error "NS record cannot be empty" [])
      else None) rdata.

(** Validator.ValidateRDATA. *)
Definition ValidateRDATA (rrType : gostring) (rdata : list gostring) : option error :=
  let rrType := ToUpper rrType in
  if negb (IsAllowedRRType rrType) then
    Some (Error "RR type %s is not allowed" [rrType])
  else if eqb_str rrType (str "A") then validateA rdata
  else if eqb_str rrType (str "AAAA") then validateAAAA rdata
  else if eqb_str rrType (str "CNAME") then validateCNAME rdata
  else if eqb_str rrType (str "TXT") then validateTXT rdata
  else if eqb_str rrType (str "MX") then validateMX rdata
  else if eqb_str rrType (str "SRV") then validateSRV rdata
  else if eqb_str rrType (str "CAA") then validateCAA rdata
  else if eqb_str rrType (str "NS") then validateNS rdata
  else if (length rdata =? 0)%nat then Some (Error "no rdata provided" [])
  else None.

(** Validator.ValidatePolicy. *)
Definition ValidatePolicy (zone owner rrType : gostring) : option error :=
  if DisallowApexCNAME policy && eqb_str (ToUpper rrType) (str "CNAME")
     && IsApexOwner To_LowerCase owner zone then
    Some (Error "CNAME at zone apex is not allowed" [])
  else if DisallowNSUpdates policy && eqb_str (ToUpper rrType) (str "NS") then
    Some (Error "NS record updates are not allowed" [])
  else None.

(** BuildRR. *)
Definition BuildRR (owner rrType : gostring) (ttl : Z) (rdata : gostring)
  : result TypedRR :=
  let owner := dns.Fqdn owner in
  let rrType := ToUpper rrType in
  let hdr (t : Z) := dns.mkHeader owner t 1 ttl 0 in
  if eqb_str rrType (str "A") then
    Ok (mkTypedRR (hdr dns.TypeA) (BodyA (net_ParseIP rdata)))
  else if eqb_str rrType (str "AAAA") then
    Ok (mkTypedRR (hdr dns.TypeAAAA) (BodyAAAA (net_ParseIP rdata)))
  else if eqb_str rrType (str "CNAME") then
    Ok (mkTypedRR (hdr dns.TypeCNAME) (BodyCNAME (dns.Fqdn rdata)))
  else if eqb_str rrType (str "TXT") then
    Ok (mkTypedRR (hdr dns.TypeTXT) (BodyTXT (splitTXT rdata)))
  else if eqb_str rrType (str "MX") then
    let parts := strings_Fields rdata in
    if negb (length parts =? 2)%nat then Err (Error "invalid MX format" [])
    else
      let pref64 := fst (ParseUint10 (nth 0 parts []) 16) in
      let pref := uint16 pref64 in
      Ok (mkTypedRR (hdr dns.TypeMX) (BodyMX pref (dns.Fqdn (nth 1 parts []))))
  else if eqb_str rrType (str "SRV") then
    let parts := strings_Fields rdata in
    if negb (length parts =? 4)%nat then Err (Error "invalid SRV format" [])
    else
      let priority64 := fst (ParseUint10 (nth 0 parts []) 16) in
      let weight64 := fst (ParseUint10 (nth 1 parts []) 16) in
      let port64 := fst (ParseUint10 (nth 2 parts []) 16) in
      Ok (mkTypedRR (hdr dns.TypeSRV)
            (BodySRV (uint16 priority64) (uint16 weight64) (uint16 port64)
                     (dns.Fqdn (nth 3 parts []))))
  else if eqb_str rrType (str "CAA") then
    let parts := strings_Fields rdata in
    if (length parts <? 3)%nat then Err (Error "invalid CAA format" [])
    else
      let flag64 := fst (ParseUint10 (nth 0 parts []) 8) in
      let tag := nth 1 parts [] in
      let value := Join (skipn 2 parts) (str " ") in
      Ok (mkTypedRR (hdr dns.TypeCAA) (BodyCAA (uint8 flag64) tag value))
  else if eqb_str rrType (str "NS") then
    Ok (mkTypedRR (hdr dns.TypeNS) (BodyNS (dns.Fqdn rdata)))
  else Err (Error "unsupported RR type: %s" [rrType]).

End Validation.

(** ** pkg/update: DeleteAllRRs *)

(** Msg.Remove of miekg/dns: every record as it is, with class NONE and
    TTL 0. *)
Definition dns_Remove (u : dns.Msg) (rr : list dns.RR) : dns.Msg :=
  dns.mkMsg (dns.Response u) (dns.Opcode u) (dns.Compress u) (dns.Questions u)
    (dns.Ns u ++ List.map (fun r =>
        dns.mkRR (dns.mkHeader (dns.Name (dns.Hdr r)) (dns.Rrtype (dns.Hdr r))
                               dns.ClassNONE 0 (dns.Rdlength (dns.Hdr r)))
                 (dns.Data r)) rr).

(** The message Client.DeleteAllRRs hands to [send]. *)
Definition DeleteAllRRs_msg (zone owner : gostring) : dns.Msg :=
  let update := dns.SetUpdate dns.newMsg zone in
  dns_Remove update
    [dns.mkRR (dns.mkHeader (dns.Fqdn owner) dns.TypeANY dns.ClassANY 0 0)
              dns.NoData].

(** ** internal/acme/acme.go: Cleanup *)

(** The arguments of a call of Manager.Delete. *)
Record DeleteArgs := mkDeleteArgs {
  del_zone : gostring;
  del_owner : gostring;
  del_rrType : gostring
}.

Section ACMECleanup.

Variable To_LowerCase : Z -> Z.
Variable idna_ToASCII : gostring -> result gostring.
(** [h.manager.Delete], its error. *)
Variable manager_Delete : DeleteArgs -> option error.

(** ACMEHandler.Cleanup up to its call of Manager.Delete: the arguments it
    passes, or the error it returns before. *)
Definition Cleanup_args (zoneInput fqdn value : gostring) : result DeleteArgs :=
  match NormalizeZone To_LowerCase idna_ToASCII zoneInput with
  | Err err => Err (Wrap "invalid zone" err)
  | Ok zoneFQDN =>
    match NormalizeOwner To_LowerCase fqdn zoneFQDN with
    | Err err => Err (Wrap "invalid FQDN" err)
    | Ok owner =>
      let owner := challengeOwner owner zoneFQDN in
      Ok (mkDeleteArgs zoneFQDN owner (str "TXT"))
    end
  end.

(** ACMEHandler.Cleanup. *)
Definition Cleanup (zoneInput fqdn value : gostring) : option error :=
  match Cleanup_args zoneInput fqdn value with
  | Err err => Some err
  | Ok a =>
    match manager_Delete a with
    | Some err => Some (Wrap "failed to remove ACME challenge record" err)
    | None => None
    end
  end.

End ACMECleanup.

(** ** internal/lock: the lock file of a zone *)

(** lock.ZoneLockPath. *)
Definition ZoneLockPath (filepath_Join : gostring -> gostring -> gostring)
           (lockDir zone : gostring) : gostring :=
  let zoneName := zone in
  let zoneName :=
    if (0 <? length zoneName)%nat
       && (nth (length zoneName - 1) zoneName 0 =? 0x2E)
    then sliceTo (length zoneName - 1) zoneName
    else zoneName in
  filepath_Join lockDir (str "zone--" ++ zoneName ++ str ".lock").

(** ** internal/rrset: Manager.Delete *)

Record DeleteResult := mkDeleteResult {
  DeleteSuccess : bool;
  DeleteOwner : gostring;
  DeleteType : gostring
}.

Section Managers.

Variable To_LowerCase : Z -> Z.
Variable idna_ToASCII : gostring -> result gostring.
Variable filepath_Join : gostring -> gostring -> gostring.
Variable cfg : Config.
Variable env : Env.
Variable To_UpperCase : Z -> Z.
Variable foldsTo : Z -> Z -> bool.
Variable policy : PolicyConfig.

(** The maps [dns.StringToType] and [dns.TypeToString] of miekg/dns; a
    missing key reads as 0 and as the empty string. *)
Variable StringToType : gostring -> Z.
Variable TypeToString : Z -> gostring.

(** Client.DeleteRRset. *)
Definition DeleteRRset (zone owner : gostring) (rrType : Z) : M (option error) :=
  Update env (update.DeleteRRset_msg zone owner rrType).

(** Manager.Delete. *)
Definition Manager_Delete (zoneInput ownerInput rrType : gostring)
  : M (result DeleteResult) :=
  match NormalizeZone To_LowerCase idna_ToASCII zoneInput with
  | Err err => ret (Err (Wrap "invalid zone" err))
  | Ok zoneFQDN =>
    match NormalizeOwner To_LowerCase ownerInput zoneFQDN with
    | Err err => ret (Err (Wrap "invalid owner" err))
    | Ok owner =>
      let rrTypeUpper :=
        let typeNum := StringToType rrType in
        if negb (typeNum =? 0) then TypeToString typeNum else rrType in
      if negb (IsAllowedRRType foldsTo policy rrTypeUpper) then
        ret (Err (Error "RR type %s is not allowed" [rrTypeUpper]))
      else
        match ValidatePolicy To_UpperCase policy To_LowerCase
                             zoneFQDN owner rrTypeUpper with
        | Some err => ret (Err (Wrap "policy violation" err))
        | None =>
          let lockPath := LockFilePath filepath_Join cfg zoneFQDN in
          r <- Lock_Acquire env lockPath ;;
          match r with
          | Some err => ret (Err (Wrap "failed to acquire zone lock" err))
          | None =>
            let typeNum := StringToType rrTypeUpper in
            r <- DeleteRRset zoneFQDN owner typeNum ;;
            Lock_Release lockPath ;;;
            match r with
            | Some err => ret (Err (Wrap "failed to send delete update" err))
            | None => ret (Ok (mkDeleteResult true owner rrTypeUpper))
            end
          end
        end
    end
  end.

End Managers.

(** ** internal/ssh: the forced-command wrapper *)

Definition allowedSubcommands : list (gostring * bool) :=
  [(str "doctor", true); (str "version", true); (str "zone", true);
   (str "rrset", true); (str "acme", true)].

Definition allowedFlags : list (gostring * list (gostring * bool)) :=
  [(str "zone",
    [(str "create", true); (str "delete", true); (str "status", true);
     (str "list", true); (str "limit", true)]);
   (str "rrset",
    [(str "upsert", true); (str "delete", true); (str "get", true);
     (str "ttl", true)]);
   (str "acme",
    [(str "present", true); (str "cleanup", true); (str "ttl", true)])].

(** [allowed, ok := allowedFlags[subcommand]]. *)
Fixpoint lookupFlags (m : list (gostring * list (gostring * bool)))
         (key : gostring) : option (list (gostring * bool)) :=
  match m with
  | [] => None
  | (k, v) :: rest => if eqb_str k key then Some v else lookupFlags rest key
  end.

(** ParseCommand. *)
Definition ParseCommand (cmd : gostring) : result (list gostring) :=
  if eqb_str cmd [] then Err (Error "empty command" [])
  else
    let parts := strings_Fields cmd in
    Ok parts.

(** ValidateCommand. *)
Definition ValidateCommand (parts : list gostring) : option error :=
  match parts with
  | [] => Some (Error "empty command" [])
  | subcommand :: _ =>
    if negb (lookupBool allowedSubcommands subcommand) then
      Some (Error "subcommand '%s' is not allowed" [subcommand])
    else None
  end.

(** The body of the flag loop of WrapHandler.Handle for one field. *)
Definition checkFlag (subcommand part : gostring) : option error :=
  if HasPrefix part (str "-") then
    let flagName := TrimPrefix part (str "-") in
    let flagName := TrimPrefix flagName (str "-") in
    match lookupFlags allowedFlags subcommand with
    | Some allowed =>
      if negb (lookupBool allowed flagName) then
        Some (Error "flag '%s' is not allowed for subcommand '%s'"
                    [flagName; subcommand])
      else None
    | None => None
    end
  else None.

(** WrapHandler.Handle, given the values of SSH_ORIGINAL_COMMAND and USER:
    the error, and the messages it hands to [logger.Info].  From a non-empty
    command on, the logger's actor is USER. *)
Definition Handle (originalCmd actor : gostring) : option error * list gostring :=
  if eqb_str originalCmd [] then
    (Some (Error "no SSH_ORIGINAL_COMMAND found" []), [])
  else
    let parts := strings_Fields originalCmd in
    match parts with
    | [] => (Some (Error "empty command" []), [])
    | subcommand :: rest =>
      if negb (lookupBool allowedSubcommands subcommand) then
        (Some (Error "subcommand '%s' is not allowed" [subcommand]), [])
      else
        match firstError (checkFlag subcommand) rest with
        | Some e => (Some e, [])
        | None => (None, [str "SSH wrapped command: " ++ originalCmd])
        end
    end.

(** ** Notions the further properties are stated with *)

(** A string that is empty or starts with a byte that is not white
    space. *)
Definition startsUnspaced (s : gostring) : Prop :=
  match s with
  | [] => True
  | c :: _ => asciiSpace c = false
  end.

(** The wire format of a list of labels: each label after its length byte,
    then the root byte. *)
Definition wireOf (labels : list gostring) : gostring :=
  flat_map (fun label => Z.of_nat (length label) :: label) labels ++ [0].

(** RFC 2136, section 3.4.1.3: the prescan of one record of the update
    section of a zone of class IN, for a name that is in the zone.  The
    types AXFR, MAILB, MAILA and ANY are 252 to 255. *)
Inductive Rcode := NOERROR | FORMERR.

Definition isMetaType (t : Z) (withANY : bool) : bool :=
  (t =? 252) || (t =? 253) || (t =? 254) || (withANY && (t =? 255)).

Definition prescan (rr : dns.RR) : Rcode :=
  let h := dns.Hdr rr in
  let hasData := match dns.Data rr with dns.NoData => false | _ => true end in
  if dns.Class h =? dns.ClassINET then
    if isMetaType (dns.Rrtype h) true then FORMERR else NOERROR
  else if dns.Class h =? dns.ClassANY then
    if negb (dns.Ttl h =? 0) || hasData || isMetaType (dns.Rrtype h) false
    then FORMERR else NOERROR
  else if dns.Class h =? dns.ClassNONE then
    if negb (dns.Ttl h =? 0) || isMetaType (dns.Rrtype h) true
    then FORMERR else NOERROR
  else FORMERR.

(** The record that Msg.Insert makes of [rr] in an update of a zone of
    class IN, for an owner and type. *)
Definition asInserted (o : gostring) (t : Z) (rr : dns.RR) : dns.RR :=
  dns.mkRR (dns.mkHeader o t dns.ClassINET (dns.Ttl (dns.Hdr rr))
                         (dns.Rdlength (dns.Hdr rr))) (dns.Data rr).

(** The eight record types BuildRR knows. *)
Definition buildable (rrType : gostring) : bool :=
  existsb (eqb_str rrType)
          [str "A"; str "AAAA"; str "CNAME"; str "TXT"; str "MX"; str "SRV";
           str "CAA"; str "NS"].

(** A decimal numeral and its value. *)
Definition isDigit (c : Z) : bool := (0x30 <=? c) && (c <=? 0x39).

Definition decimalFrom (n : Z) (s : gostring) : Z :=
  fold_left (fun acc c => acc * 10 + (c - 0x30)) s n.

Definition decimalValue (s : gostring) : Z := decimalFrom 0 s.

(** The state after further calls were made, files changed and changes
    recorded. *)
Definition stateAfter (st : State) (fs : list gostring) (es : list Event)
           (cs : list string) : State :=
  mkState fs (locks st) (events st ++ es) (changes st ++ cs).

(** The arguments of [rndc zonestatus]. *)
Definition zonestatusArgs (zone : gostring) : list gostring :=
  [str "zonestatus"; zone].

(** The files after WriteZoneFile wrote its temporary file, and after it
    renamed it. *)
Definition tmpWritten (path : gostring) (fs : list gostring) : list gostring :=
  (path ++ str ".tmp") :: without (path ++ str ".tmp") fs.

Definition renamed (path : gostring) (fs : list gostring) : list gostring :=
  path :: without path (without (path ++ str ".tmp") (tmpWritten path fs)).

(** Whether [rndc zonestatus] answers without an error, which is when
    ZoneStatus reports that the zone exists. *)
Definition zoneKnown (env : Env) (zone : gostring) : bool :=
  match rndc_run env (zonestatusArgs zone) with
  | (_, _, None) => true
  | (_, _, Some _) => false
  end.

(** The calls on the file lock. *)
Definition isLockEvent (e : Event) : bool :=
  match e with
  | LockAcquire _ | LockRelease _ => true
  | _ => false
  end.

(** The names a flag goes by: one or two dashes before it. *)
Definition flagForms (name : gostring) : list gostring :=
  [str "-" ++ name; str "--" ++ name].

(** *** Stand-ins to run the further code with *)

(** No folding above ASCII, and no address parsed. *)
Definition noFoldAboveASCII : Z -> Z -> bool := fun _ _ => false.
Definition noAddress : gostring -> option gostring := fun _ => None.

(** A type table with upper-case names, as miekg/dns has them. *)
Definition exampleStringToType (s : gostring) : Z :=
  if eqb_str s (str "A") then 1
  else if eqb_str s (str "TXT") then 16
  else 0.

Definition exampleTypeToString (t : Z) : gostring :=
  if t =? 1 then str "A" else if t =? 16 then str "TXT" else [].

(** The policy of DefaultConfig. *)
Definition examplePolicy : PolicyConfig :=
  mkPolicy [str "A"; str "AAAA"; str "CNAME"; str "TXT"; str "MX"; str "SRV";
            str "CAA"] true true 86400 30.

(** An environment in which [rndc zonestatus] fails with [stderr] on its
    standard error and every other call succeeds. *)
Definition statusFails (stderr : gostring) : Env :=
  mkEnv (fun _ => None) (fun _ => None)
        (fun args =>
           if firstArg args "zonestatus" then ([], stderr, Some exitStatus1)
           else ([], [], None))
        (fun _ => []) (fun _ => None)
        (fun _ => Ok (str "$ORIGIN example.com."))
        (fun _ => None) (fun _ => None) (fun _ => None) (fun _ _ => None)
        (fun _ => None) messageText.

(** An environment in which rndc cannot be started: nothing is written to
    its standard error, and the error says that the executable file was not
    found. *)
Definition rndcMissing : Env :=
  mkEnv (fun _ => None) (fun _ => None)
        (fun _ =>
           ([], [], Some (Wrap "failed to start rndc"
                               (Error "executable file not found in $PATH" []))))
        (fun _ => []) (fun _ => None)
        (fun _ => Ok (str "$ORIGIN example.com."))
        (fun _ => None) (fun _ => None) (fun _ => None) (fun _ _ => None)
        (fun _ => None) messageText.

(** * Properties *)

(** ** Byte strings *)

Lemma eqb_str_refl (s : gostring) : eqb_str s s = true.
Proof.
  induction s as [|a s IH]; simpl; [reflexivity|].
  now rewrite Z.eqb_refl.
Qed.

Lemma eqb_str_eq (s t : gostring) : eqb_str s t = true <-> s = t.
Proof.
  split.
  - revert t; induction s as [|a s IH]; intros [|b t]; simpl; try discriminate; auto.
    intros H. apply andb_true_iff in H as [Hab Hst].
    apply Z.eqb_eq in Hab. f_equal; auto.
  - intros ->. apply eqb_str_refl.
Qed.

Lemma eqb_str_neq (s t : gostring) : eqb_str s t = false <-> s <> t.
Proof.
  rewrite <- eqb_str_eq. destruct (eqb_str s t); split; congruence.
Qed.

Lemma HasSuffix_iff (s suffix : gostring) :
  HasSuffix s suffix = true <-> exists p, s = p ++ suffix.
Proof.
  unfold HasSuffix, sliceFrom. split.
  - intros H. apply andb_true_iff in H as [Hlen Heq].
    apply eqb_str_eq in Heq.
    exists (firstn (length s - length suffix) s).
    rewrite <- Heq at 2. symmetry. apply firstn_skipn.
  - intros [p ->]. rewrite length_app.
    apply andb_true_iff. split.
    + apply Nat.leb_le. lia.
    + replace (length p + length suffix - length suffix)%nat with (length p) by lia.
      rewrite skipn_app, Nat.sub_diag, skipn_all. simpl. apply eqb_str_refl.
Qed.

Lemma HasSuffix_app (p suffix : gostring) : HasSuffix (p ++ suffix) suffix = true.
Proof. apply HasSuffix_iff. now exists p. Qed.

Lemma HasSuffix_refl (s : gostring) : HasSuffix s s = true.
Proof. apply HasSuffix_iff. now exists []. Qed.

Lemma HasSuffix_app_r (s t suffix : gostring) :
  HasSuffix t suffix = true -> HasSuffix (s ++ t) suffix = true.
Proof.
  intros H. apply HasSuffix_iff in H as [p ->].
  rewrite app_assoc. apply HasSuffix_app.
Qed.

Lemma HasPrefix_iff (s prefix : gostring) :
  HasPrefix s prefix = true <-> exists t, s = prefix ++ t.
Proof.
  unfold HasPrefix, sliceTo. split.
  - intros H. apply andb_true_iff in H as [Hlen Heq].
    apply eqb_str_eq in Heq.
    exists (skipn (length prefix) s).
    rewrite <- Heq at 1. symmetry. apply firstn_skipn.
  - intros [t ->]. rewrite length_app.
    apply andb_true_iff. split.
    + apply Nat.leb_le. lia.
    + rewrite firstn_app, Nat.sub_diag, firstn_all. simpl.
      rewrite app_nil_r. apply eqb_str_refl.
Qed.

(** ** UTF-8 decoding next to ASCII bytes *)

Lemma first_lead (b : Z) (sz : nat) (lo hi : Z) :
  first b = FLead sz lo hi ->
  (sz, lo, hi) = (2%nat, 0x80, 0xBF) \/ (sz, lo, hi) = (3%nat, 0xA0, 0xBF)
  \/ (sz, lo, hi) = (3%nat, 0x80, 0xBF) \/ (sz, lo, hi) = (3%nat, 0x80, 0x9F)
  \/ (sz, lo, hi) = (4%nat, 0x90, 0xBF) \/ (sz, lo, hi) = (4%nat, 0x80, 0xBF)
  \/ (sz, lo, hi) = (4%nat, 0x80, 0x8F).
Proof.
  unfold first.
  repeat match goal with
         | |- context [if ?c then _ else _] => destruct c
         end; intros H; inversion H; subst; tauto.
Qed.

Lemma first_ascii (b : Z) : b < 0x80 -> first b = FAscii.
Proof.
  intros H. unfold first.
  destruct (Z.ltb_spec b 0x80); [reflexivity | lia].
Qed.

Ltac split_cmp :=
  repeat match goal with
         | |- context [Z.ltb ?x ?y] => destruct (Z.ltb_spec x y); try lia
         | |- context [Z.leb ?x ?y] => destruct (Z.leb_spec x y); try lia
         end.

Ltac lead_cases H :=
  apply first_lead in H;
  destruct H as [H|[H|[H|[H|[H|[H|H]]]]]]; inversion H; subst; clear H.

Ltac ascii_inv :=
  unfold asciiBytes in *;
  repeat match goal with
         | H : Forall _ (_ :: _) |- _ => inversion H; subst; clear H
         end.

(** A rune is decoded from the bytes before the next ASCII byte: ASCII bytes
    after [p] do not change what the head of [p] decodes to. *)
Lemma DecodeRuneInString_app (p a : gostring) :
  p <> [] -> asciiBytes a ->
  DecodeRuneInString (p ++ a) = DecodeRuneInString p.
Proof.
  intros Hp Ha. destruct p as [|s0 t]; [congruence|]. clear Hp.
  unfold DecodeRuneInString. rewrite <- app_comm_cons.
  destruct (first s0) as [| |sz lo hi] eqn:Hf; try reflexivity.
  lead_cases Hf;
    destruct t as [|s1 [|s2 [|s3 t3]]]; simpl; try reflexivity;
    destruct a as [|a0 [|a1 [|a2 a3]]]; simpl; try reflexivity;
    ascii_inv; unfold isCont;
    repeat match goal with
           | |- context [Z.ltb ?x ?y] =>
             destruct (Z.ltb_spec x y); simpl; try reflexivity; try lia
           | |- context [Z.leb ?x ?y] =>
             destruct (Z.leb_spec x y); simpl; try reflexivity; try lia
           end.
Qed.

(** The width of the rune at the head of a non-empty string is between 1
    and the length of the string. *)
Lemma DecodeRuneInString_width (s : gostring) :
  s <> [] ->
  (1 <= snd (DecodeRuneInString s) <= length s)%nat.
Proof.
  intros Hs. destruct s as [|s0 t]; [congruence|]. clear Hs.
  unfold DecodeRuneInString.
  destruct (first s0) as [| |sz lo hi] eqn:Hf; simpl; try lia.
  lead_cases Hf;
    destruct t as [|s1 [|s2 [|s3 t3]]]; simpl; try lia;
    repeat match goal with
           | |- context [if ?c then _ else _] => destruct c; simpl; try lia
           end.
Qed.

Lemma DecodeRuneInString_ascii (c : Z) (t : gostring) :
  c < 0x80 -> DecodeRuneInString (c :: t) = (c, 1%nat).
Proof.
  intros H. unfold DecodeRuneInString. now rewrite first_ascii.
Qed.

Lemma mapRunes_fuel (f : Z -> Z) (n m : nat) (s : gostring) :
  (length s <= n)%nat -> (length s <= m)%nat ->
  mapRunes n f s = mapRunes m f s.
Proof.
  revert m s. induction n as [|n IH]; intros m s Hn Hm.
  - destruct s; [|simpl in Hn; lia]. destruct m; reflexivity.
  - destruct s as [|c t]; [destruct m; reflexivity|].
    destruct m as [|m]; [simpl in Hm; lia|].
    cbn [mapRunes].
    pose proof (DecodeRuneInString_width (c :: t) ltac:(discriminate)) as Hw.
    destruct (DecodeRuneInString (c :: t)) as [r w]. simpl in Hw.
    f_equal. unfold sliceFrom.
    apply IH; rewrite length_skipn; cbn [length] in *; lia.
Qed.

Lemma mapRunes_app_ascii (f : Z -> Z) (a : gostring) :
  asciiBytes a ->
  forall (n : nat) (p : gostring), (length p <= n)%nat ->
  forall m : nat, (length (p ++ a) <= m)%nat ->
  mapRunes m f (p ++ a) = mapRunes n f p ++ mapRunes (length a) f a.
Proof.
  intros Ha. induction n as [|n IH]; intros p Hn m Hm.
  - destruct p; [|simpl in Hn; lia]. simpl in *.
    apply mapRunes_fuel; lia.
  - destruct p as [|c t].
    + simpl in *. apply mapRunes_fuel; lia.
    + destruct m as [|m]; [simpl in Hm; lia|].
      cbn [mapRunes]. rewrite <- app_comm_cons.
      rewrite app_comm_cons.
      rewrite DecodeRuneInString_app by (auto; discriminate).
      pose proof (DecodeRuneInString_width (c :: t) ltac:(discriminate)) as Hw.
      destruct (DecodeRuneInString (c :: t)) as [r w]. simpl in Hw.
      rewrite <- app_assoc. f_equal.
      unfold sliceFrom. rewrite skipn_app.
      replace (w - length (c :: t))%nat with 0%nat by (simpl; lia).
      simpl (skipn 0 a).
      apply IH.
      * rewrite length_skipn. cbn [length] in *. lia.
      * rewrite length_app, length_skipn. rewrite length_app in Hm.
        cbn [length] in *. lia.
Qed.

(** Mapping runes goes through an ASCII tail: the tail is mapped on its
    own. *)
Lemma Map_app_ascii (f : Z -> Z) (p a : gostring) :
  asciiBytes a -> Map f (p ++ a) = Map f p ++ Map f a.
Proof.
  intros Ha. unfold Map. apply mapRunes_app_ascii; auto.
Qed.

(** ** strings.ToLower *)

Lemma lowerByte_ascii (c : Z) : 0 <= c < 0x80 -> 0 <= lowerByte c < 0x80.
Proof.
  unfold lowerByte, isUpperByte. intros H. split_cmp; simpl; lia.
Qed.

Lemma lowerByte_idem (c : Z) : lowerByte (lowerByte c) = lowerByte c.
Proof.
  unfold lowerByte, isUpperByte.
  destruct ((0x41 <=? c) && (c <=? 0x5A)) eqn:H; [|now rewrite H].
  apply andb_true_iff in H as [H1 H2].
  apply Z.leb_le in H1, H2.
  destruct (Z.leb_spec (c + 32) 0x5A); [lia|].
  now rewrite andb_false_r.
Qed.

Lemma map_lowerByte_noUpper (s : gostring) :
  hasUpper s = false -> List.map lowerByte s = s.
Proof.
  unfold hasUpper. induction s as [|c s IH]; simpl; [reflexivity|].
  intros H. apply orb_false_iff in H as [Hc Hs].
  unfold lowerByte at 1. rewrite Hc. f_equal. auto.
Qed.

Lemma asciiBytes_isASCII (a : gostring) : asciiBytes a -> isASCII a = true.
Proof.
  unfold isASCII. induction 1 as [|c a Hc Ha IH]; simpl; [reflexivity|].
  rewrite IH, andb_true_r. apply Z.ltb_lt. unfold RuneSelf. lia.
Qed.

Lemma isASCII_app (s t : gostring) : isASCII (s ++ t) = isASCII s && isASCII t.
Proof. unfold isASCII. apply forallb_app. Qed.

Section ToLowerFacts.

Variable To_LowerCase : Z -> Z.

Lemma ToLower_isASCII (s : gostring) :
  isASCII s = true -> ToLower To_LowerCase s = List.map lowerByte s.
Proof.
  intros H. unfold ToLower. rewrite H.
  destruct (hasUpper s) eqn:Hu; simpl; [reflexivity|].
  symmetry. now apply map_lowerByte_noUpper.
Qed.

Lemma Map_ToLower_ascii (a : gostring) :
  asciiBytes a -> Map (unicode_ToLower To_LowerCase) a = List.map lowerByte a.
Proof.
  unfold Map. induction 1 as [|c a Hc Ha IH]; [reflexivity|].
  cbn [length mapRunes List.map].
  rewrite DecodeRuneInString_ascii by lia.
  unfold sliceFrom. cbn [skipn]. rewrite IH.
  pose proof (lowerByte_ascii c Hc) as Hl.
  unfold unicode_ToLower.
  destruct (Z.leb_spec c 0x7F); [|lia].
  destruct (Z.ltb_spec (lowerByte c) 0); [lia|].
  unfold AppendRune, RuneSelf.
  destruct (Z.leb_spec 0 (lowerByte c)); [|lia].
  destruct (Z.ltb_spec (lowerByte c) 0x80); [|lia].
  reflexivity.
Qed.

(** Lower-casing goes through an ASCII tail, whatever precedes it. *)
Lemma ToLower_app_ascii (p a : gostring) :
  asciiBytes a ->
  ToLower To_LowerCase (p ++ a) = ToLower To_LowerCase p ++ List.map lowerByte a.
Proof.
  intros Ha. pose proof (asciiBytes_isASCII a Ha) as Hi.
  destruct (isASCII p) eqn:Hp.
  - rewrite !ToLower_isASCII by (rewrite ?isASCII_app, ?Hp, ?Hi; reflexivity).
    apply map_app.
  - unfold ToLower. rewrite isASCII_app, Hp. cbn [andb].
    rewrite Map_app_ascii by assumption.
    rewrite (Map_ToLower_ascii a) by assumption. reflexivity.
Qed.

Lemma ToLower_ascii (a : gostring) :
  asciiBytes a -> ToLower To_LowerCase a = List.map lowerByte a.
Proof. intros Ha. apply ToLower_isASCII. now apply asciiBytes_isASCII. Qed.

End ToLowerFacts.

(** ** strings.Split *)

Lemma splitAcc_bytes (sep : Z) (s cur : gostring) (c : Z) :
  In c cur \/ In c s ->
  c = sep \/ exists f, In f (splitAcc sep s cur) /\ In c f.
Proof.
  revert cur. induction s as [|b s IH]; intros cur H; simpl.
  - destruct H as [H|[]]. right. exists (rev cur). split; [now left|].
    now apply in_rev in H.
  - destruct (Z.eqb_spec b sep) as [->|Hb].
    + destruct H as [H|[H|H]].
      * right. exists (rev cur). split; [now left|]. now apply in_rev in H.
      * now left.
      * destruct (IH [] (or_intror H)) as [Hc|[f [Hf Hcf]]]; [now left|].
        right. exists f. split; [now right|assumption].
    + apply IH. destruct H as [H|[H|H]].
      * left. now right.
      * left. now left.
      * now right.
Qed.

Lemma Split_bytes (s : gostring) (sep c : Z) :
  In c s -> c = sep \/ exists f, In f (Split s sep) /\ In c f.
Proof. intros H. apply splitAcc_bytes. now right. Qed.

Lemma splitAcc_fields (sep : Z) (s cur f : gostring) (c : Z) :
  In f (splitAcc sep s cur) -> In c f -> In c cur \/ In c s.
Proof.
  revert cur. induction s as [|b s IH]; intros cur Hf Hc; simpl in Hf.
  - destruct Hf as [<-|[]]. left. now apply in_rev.
  - destruct (Z.eqb_spec b sep) as [->|Hb].
    + destruct Hf as [<-|Hf].
      * left. now apply in_rev.
      * destruct (IH [] Hf Hc) as [[]|H]. right. now right.
    + destruct (IH (b :: cur) Hf Hc) as [[<-|H]|H].
      * right. now left.
      * now left.
      * right. now right.
Qed.

Lemma Split_fields (s f : gostring) (sep c : Z) :
  In f (Split s sep) -> In c f -> In c s.
Proof.
  intros Hf Hc. destruct (splitAcc_fields sep s [] f c Hf Hc) as [[]|H]; exact H.
Qed.

Lemma splitAcc_app_sep (sep : Z) (s cur : gostring) :
  splitAcc sep (s ++ [sep]) cur = splitAcc sep s cur ++ [[]].
Proof.
  revert cur. induction s as [|b s IH]; intros cur; simpl.
  - now rewrite Z.eqb_refl.
  - destruct (b =? sep); [simpl; f_equal|]; apply IH.
Qed.

Lemma Split_app_sep (s : gostring) (sep : Z) :
  Split (s ++ [sep]) sep = Split s sep ++ [[]].
Proof. apply splitAcc_app_sep. Qed.

(** ** Canonical names *)

Lemma isDNSLabelChar_lower (c : Z) :
  isDNSLabelChar c = true -> 0 <= c < 0x80 /\ lowerByte c = c /\ c <> 0x2E.
Proof.
  unfold isDNSLabelChar, lowerByte, isUpperByte. intros H.
  repeat (apply orb_true_iff in H as [H|H]);
    repeat (apply andb_true_iff in H as [? H]);
    repeat match goal with
           | H : (_ <=? _) = true |- _ => apply Z.leb_le in H
           | H : (_ =? _) = true |- _ => apply Z.eqb_eq in H
           end;
    (split; [lia|split; [|lia]]);
    destruct (Z.leb_spec 0x41 c); destruct (Z.leb_spec c 0x5A); simpl; lia.
Qed.

Lemma sliceTo_app_dot (name : gostring) :
  sliceTo (length (name ++ dot) - 1) (name ++ dot) = name.
Proof.
  unfold sliceTo. rewrite length_app. simpl.
  replace (length name + 1 - 1)%nat with (length name) by lia.
  rewrite firstn_app, Nat.sub_diag, firstn_all. simpl. apply app_nil_r.
Qed.

(** A canonical zone is a non-empty name of label characters and dots,
    followed by a dot. *)
Lemma canonicalZone_shape (z : gostring) :
  canonicalZone z = true ->
  exists name, z = name ++ dot /\ name <> []
               /\ Forall (fun c => isDNSLabelChar c = true \/ c = 0x2E) name.
Proof.
  unfold canonicalZone. intros H.
  apply andb_true_iff in H as [H Hlab].
  apply andb_true_iff in H as [H Hne].
  apply andb_true_iff in H as [Hdot _].
  apply HasSuffix_iff in Hdot as [name ->].
  rewrite sliceTo_app_dot in *.
  exists name. split; [reflexivity|]. split.
  - apply negb_true_iff, eqb_str_neq in Hne. exact Hne.
  - apply Forall_forall. intros c Hc.
    destruct (Split_bytes name 0x2E c Hc) as [->|[f [Hf Hcf]]]; [now right|].
    left. rewrite forallb_forall in Hlab. specialize (Hlab f Hf).
    unfold canonicalLabel in Hlab.
    apply andb_true_iff in Hlab as [Hlab _].
    apply andb_true_iff in Hlab as [_ Hchars].
    rewrite forallb_forall in Hchars. auto.
Qed.

Lemma canonicalZone_dot (z : gostring) :
  canonicalZone z = true -> HasSuffix z dot = true.
Proof.
  intros H. destruct (canonicalZone_shape z H) as [name [-> _]].
  apply HasSuffix_app.
Qed.

Lemma canonicalZone_ascii (z : gostring) :
  canonicalZone z = true -> asciiBytes z /\ List.map lowerByte z = z.
Proof.
  intros H. destruct (canonicalZone_shape z H) as [name [-> [_ Hall]]].
  assert (Hb : Forall (fun c => 0 <= c < 0x80 /\ lowerByte c = c) (name ++ dot)).
  { apply Forall_app. split.
    - eapply Forall_impl; [|exact Hall]. intros c [Hc| ->].
      + apply isDNSLabelChar_lower in Hc.
        destruct Hc as (Hr & Hl & _). split; assumption.
      + split; [lia|reflexivity].
    - repeat constructor; lia. }
  split.
  - eapply Forall_impl; [|exact Hb]. intros c [Hc _]. exact Hc.
  - clear -Hb. induction Hb as [|c l [_ Hc] _ IH]; simpl; [reflexivity|].
    now rewrite Hc, IH.
Qed.

Lemma canonicalZone_lower (To_LowerCase : Z -> Z) (z : gostring) :
  canonicalZone z = true -> ToLower To_LowerCase z = z.
Proof.
  intros H. destruct (canonicalZone_ascii z H) as [Ha Hl].
  now rewrite ToLower_ascii.
Qed.

(** ** NormalizeOwner and IsWithinZone *)

Section OwnerFacts.

Variable To_LowerCase : Z -> Z.

Lemma IsWithinZone_suffix (p z : gostring) :
  canonicalZone z = true ->
  IsWithinZone To_LowerCase (p ++ z) z = true.
Proof.
  intros Hz. destruct (canonicalZone_ascii z Hz) as [Ha Hl].
  pose proof (canonicalZone_dot z Hz) as Hd.
  unfold IsWithinZone.
  rewrite (ToLower_app_ascii To_LowerCase p z Ha), Hl.
  rewrite (canonicalZone_lower To_LowerCase z Hz).
  rewrite (HasSuffix_app_r _ z dot Hd), Hd. simpl.
  apply HasSuffix_app.
Qed.

Lemma ToLower_relative (input z : gostring) :
  canonicalZone z = true ->
  ToLower To_LowerCase (input ++ dot ++ z)
  = ToLower To_LowerCase input ++ dot ++ z.
Proof.
  intros Hz. destruct (canonicalZone_ascii z Hz) as [Ha Hl].
  rewrite ToLower_app_ascii.
  - rewrite map_app, Hl. reflexivity.
  - apply Forall_app. split; [|assumption]. repeat constructor; lia.
Qed.

(** What NormalizeOwner does with an input that is not [@], by the form of
    the trimmed input. *)
Lemma NormalizeOwner_absolute_eq (input z : gostring) :
  HasSuffix (TrimSpace input) dot = true ->
  NormalizeOwner To_LowerCase input z
  = if HasSuffix (ToLower To_LowerCase (TrimSpace input)) (ToLower To_LowerCase z)
    then Ok (ToLower To_LowerCase (TrimSpace input))
    else Err (Error "owner '%s' is not within zone '%s'" [TrimSpace input; z]).
Proof.
  intros Hd. unfold NormalizeOwner.
  destruct (eqb_str (TrimSpace input) (str "@")) eqn:Hat.
  - apply eqb_str_eq in Hat. rewrite Hat in Hd. discriminate.
  - rewrite Hd.
    destruct (HasSuffix (ToLower To_LowerCase (TrimSpace input))
                        (ToLower To_LowerCase z)); reflexivity.
Qed.

End OwnerFacts.

(** C9. Apex suffixing: for every owner input and canonical zone apex that
    NormalizeOwner accepts (the [@] form, an absolute input with its
    trailing dot, a relative input), the owner it returns is within the
    zone: IsWithinZone(NormalizeOwner(o, z), z) = true. *)
Theorem NormalizeOwner_within_zone
        (To_LowerCase : Z -> Z) (input z owner : gostring) :
  canonicalZone z = true ->
  NormalizeOwner To_LowerCase input z = Ok owner ->
  IsWithinZone To_LowerCase owner z = true.
Proof.
  intros Hz. unfold NormalizeOwner.
  destruct (eqb_str (TrimSpace input) (str "@")).
  - intros [= <-].
    apply (IsWithinZone_suffix To_LowerCase [] z Hz).
  - destruct (HasSuffix (TrimSpace input) dot).
    + destruct (HasSuffix (ToLower To_LowerCase (TrimSpace input))
                          (ToLower To_LowerCase z)) eqn:Hs; cbn [negb];
        intros [= <-].
      rewrite (canonicalZone_lower To_LowerCase z Hz) in Hs.
      apply HasSuffix_iff in Hs as [p ->].
      now apply IsWithinZone_suffix.
    + intros [= <-].
      rewrite (ToLower_relative To_LowerCase _ z Hz).
      rewrite app_assoc. now apply IsWithinZone_suffix.
Qed.

(** The theorem at the relative owner [www], the absolute owner
    [WwW.ExAmPlE.CoM.] and [@], in the zone [example.com.]. *)
Lemma NormalizeOwner_within_zone_witness :
  canonicalZone (str "example.com.") = true
  /\ NormalizeOwner noCaseAboveASCII (str "www") (str "example.com.")
     = Ok (str "www.example.com.")
  /\ IsWithinZone noCaseAboveASCII (str "www.example.com.") (str "example.com.")
     = true.
Proof.
  split; [reflexivity|]. split; [reflexivity|].
  apply (NormalizeOwner_within_zone noCaseAboveASCII (str "www")
           (str "example.com.") (str "www.example.com.")); reflexivity.
Defined.

(** C1, as stated, fails where the owner is the apex itself: the absolute
    input [example.com.] is accepted in the zone [example.com.], and the
    apex is not a proper suffix of it. *)
Lemma NormalizeOwner_accepts_apex :
  canonicalZone (str "example.com.") = true
  /\ HasSuffix (TrimSpace (str "example.com.")) dot = true
  /\ NormalizeOwner noCaseAboveASCII (str "example.com.") (str "example.com.")
     = Ok (str "example.com.")
  /\ ~ properSuffix (str "example.com.")
       (ToLower noCaseAboveASCII (TrimSpace (str "example.com."))).
Proof.
  split; [reflexivity|]. split; [reflexivity|]. split; [reflexivity|].
  intros [p [Hp H]].
  change (ToLower noCaseAboveASCII (TrimSpace (str "example.com.")))
    with ([] ++ str "example.com.") in H.
  apply app_inv_tail in H. congruence.
Qed.

(** C1, amended. For an owner input that ends with the root marker once
    white space is trimmed, and a canonical zone apex [z]: if the
    lower-cased input is [z] itself or lies strictly below [z],
    NormalizeOwner succeeds and returns the lower-cased input; if [z] is not
    a suffix of the lower-cased input, NormalizeOwner returns an error. *)
Theorem NormalizeOwner_absolute
        (To_LowerCase : Z -> Z) (input z : gostring) :
  canonicalZone z = true ->
  HasSuffix (TrimSpace input) dot = true ->
  let lowered := ToLower To_LowerCase (TrimSpace input) in
  ((lowered = z \/ strictlyBelow z lowered) ->
   NormalizeOwner To_LowerCase input z = Ok lowered)
  /\ ((~ exists p, lowered = p ++ z) ->
      exists err, NormalizeOwner To_LowerCase input z = Err err).
Proof.
  intros Hz Hd lowered.
  rewrite (NormalizeOwner_absolute_eq To_LowerCase input z Hd).
  rewrite (canonicalZone_lower To_LowerCase z Hz). fold lowered.
  split.
  - intros H.
    assert (Hs : HasSuffix lowered z = true).
    { apply HasSuffix_iff. destruct H as [->|[p [_ ->]]].
      - now exists [].
      - exists (p ++ dot). now rewrite <- app_assoc. }
    now rewrite Hs.
  - intros H. destruct (HasSuffix lowered z) eqn:Hs.
    + exfalso. apply H. now apply HasSuffix_iff.
    + eexists. reflexivity.
Qed.

(** The theorem at [WwW.ExAmPlE.CoM.], accepted below [example.com.], and
    at [www.other.com.], rejected. *)
Lemma NormalizeOwner_absolute_witness :
  NormalizeOwner noCaseAboveASCII (str "WwW.ExAmPlE.CoM.") (str "example.com.")
  = Ok (str "www.example.com.")
  /\ exists err,
      NormalizeOwner noCaseAboveASCII (str "www.other.com.") (str "example.com.")
      = Err err.
Proof.
  split.
  - apply (NormalizeOwner_absolute noCaseAboveASCII (str "WwW.ExAmPlE.CoM.")
             (str "example.com.")); [reflexivity|reflexivity|].
    right. exists (str "www"). split; [discriminate|reflexivity].
  - apply (NormalizeOwner_absolute noCaseAboveASCII (str "www.other.com.")
             (str "example.com.")); [reflexivity|reflexivity|].
    intros [p H]. apply (f_equal (@rev Z)) in H. rewrite rev_app_distr in H.
    vm_compute in H. discriminate.
Defined.

(** ** BumpSerial *)

Lemma todaySerial_range (now : Time) : 0 <= todaySerial now < 2 ^ 32.
Proof. unfold todaySerial, uint32. apply Z.mod_pos_bound. lia. Qed.

(** While the date formula fits 32 bits (through the year 4294), today's
    serial is YYYY*10^6 + MM*10^4 + DD*10^2. *)
Lemma todaySerial_formula (now : Time) :
  0 <= Year now * 1000000 + Month now * 10000 + Day now * 100 < 2 ^ 32 ->
  todaySerial now = Year now * 1000000 + Month now * 10000 + Day now * 100.
Proof. intros H. unfold todaySerial, uint32. now apply Z.mod_small. Qed.

(** C8, as stated, fails at the largest serial: on 2026-10-31 the serial
    4294967295 is bumped to 0, which is neither greater than the input nor
    at least today's serial 2026103100. *)
Lemma BumpSerial_wraps :
  0 <= 4294967295 < 2 ^ 32
  /\ todaySerial (mkTime 2026 10 31) = 2026103100
  /\ BumpSerial (mkTime 2026 10 31) 4294967295 = 0
  /\ ~ 4294967295 < BumpSerial (mkTime 2026 10 31) 4294967295
  /\ ~ todaySerial (mkTime 2026 10 31) <= BumpSerial (mkTime 2026 10 31) 4294967295.
Proof.
  split; [lia|]. split; [reflexivity|]. split; [reflexivity|].
  change (BumpSerial (mkTime 2026 10 31) 4294967295) with 0.
  change (todaySerial (mkTime 2026 10 31)) with 2026103100.
  split; lia.
Qed.

(** C8, amended. For every uint32 input [current] below 2^32 - 1, with [t]
    today's serial as the code computes it: BumpSerial(current) is [t] when
    [current < t] and [current + 1] otherwise; the output is strictly greater
    than the input and at least [t]. *)
Theorem BumpSerial_monotone (now : Time) (current : Z) :
  0 <= current < 2 ^ 32 - 1 ->
  let t := todaySerial now in
  BumpSerial now current = (if current <? t then t else current + 1)
  /\ current < BumpSerial now current
  /\ t <= BumpSerial now current.
Proof.
  intros Hc t. pose proof (todaySerial_range now) as Ht. fold t in Ht.
  unfold BumpSerial. fold t.
  destruct (Z.leb_spec t current) as [Hle|Hlt];
    destruct (Z.ltb_spec current t) as [Hlt'|Hle']; try lia.
  unfold uint32. rewrite Z.mod_small by lia. lia.
Qed.

(** The theorem on 2026-10-31: an old serial moves to today's, today's
    serial is incremented. *)
Lemma BumpSerial_monotone_witness :
  (BumpSerial (mkTime 2026 10 31) 2020010100 = 2026103100
   /\ 2020010100 < BumpSerial (mkTime 2026 10 31) 2020010100
   /\ todaySerial (mkTime 2026 10 31) <= BumpSerial (mkTime 2026 10 31) 2020010100)
  /\ BumpSerial (mkTime 2026 10 31) 2026103100 = 2026103101.
Proof.
  split.
  - apply (BumpSerial_monotone (mkTime 2026 10 31) 2020010100). lia.
  - apply (BumpSerial_monotone (mkTime 2026 10 31) 2026103100). lia.
Defined.

(** ** The update messages *)

Import dns.

Lemma plainDot_IsFqdn (s : gostring) (c : Z) :
  c <> 0x5C -> IsFqdn (s ++ [c] ++ dot) = true.
Proof.
  intros Hc. unfold IsFqdn.
  assert (Hlen : (length (s ++ [c] ++ dot) - 1 = length (s ++ [c]))%nat).
  { rewrite !length_app. simpl. lia. }
  rewrite Hlen.
  assert (Hnth : nth (length (s ++ [c])) (s ++ [c] ++ dot) 0 = 0x2E).
  { rewrite app_assoc, app_nth2, Nat.sub_diag by lia. reflexivity. }
  rewrite Hnth.
  destruct (eqb_str (s ++ [c] ++ dot) []) eqn:He.
  { apply eqb_str_eq in He. destruct s; discriminate. }
  cbn [orb]. change (negb (0x2E =? 0x2E)) with false. cbv iota.
  unfold sliceTo. rewrite app_assoc, firstn_app, Nat.sub_diag, firstn_all.
  cbn [firstn]. rewrite app_nil_r.
  destruct (eqb_str (s ++ [c]) []) eqn:He2; [reflexivity|].
  cbn [orb].
  replace (length (s ++ [c]) - 1)%nat with (length s) by (rewrite length_app; simpl; lia).
  rewrite app_nth2, Nat.sub_diag by lia. cbn [nth].
  destruct (Z.eqb_spec c 0x5C); [contradiction|]. reflexivity.
Qed.

(** A canonical name is fully qualified for dns.Fqdn, and so is any name
    that ends with one. *)
Lemma canonicalZone_Fqdn (p z : gostring) :
  canonicalZone z = true -> Fqdn (p ++ z) = p ++ z.
Proof.
  intros Hz. destruct (canonicalZone_shape z Hz) as [name [-> [Hne Hall]]].
  destruct (exists_last Hne) as [name' [c ->]].
  apply Forall_app in Hall as [_ Hc]. inversion Hc as [|? ? Hc' _]; subst.
  assert (c <> 0x5C).
  { destruct Hc' as [Hc'| ->]; [|lia].
    unfold isDNSLabelChar in Hc'. intros ->. discriminate. }
  unfold Fqdn.
  replace (p ++ (name' ++ [c]) ++ dot) with ((p ++ name') ++ [c] ++ dot)
    by (now rewrite <- !app_assoc).
  now rewrite plainDot_IsFqdn.
Qed.

(** ** Replacing an RRset: delete the set, then insert *)

Import rfc2136.

Lemma eqb_name_refl (a : gostring) : eqb_name a a = true.
Proof. unfold eqb_name. apply eqb_str_refl. Qed.

Lemma filter_noop {A} (f : A -> bool) (l : list A) :
  (forall x, In x l -> f x = true) -> filter f l = l.
Proof.
  induction l as [|x l IH]; intros H; simpl; [reflexivity|].
  rewrite (H x (or_introl eq_refl)). f_equal. apply IH.
  intros y Hy. apply H. now right.
Qed.

Lemma filter_idem {A} (f : A -> bool) (l : list A) :
  filter f (filter f l) = filter f l.
Proof.
  apply filter_noop. intros x Hx. now apply filter_In in Hx.
Qed.

Lemma replaceFirst_none (f : Rec -> bool) (new : Rec) (zone : list Rec) :
  (forall r, In r zone -> f r = false) -> replaceFirst f new zone = None.
Proof.
  induction zone as [|r zone IH]; intros H; [reflexivity|].
  cbn [replaceFirst]. rewrite (H r (or_introl eq_refl)).
  rewrite IH; [reflexivity|]. intros x Hx. apply H. now right.
Qed.

Lemma sameSet_own (o : gostring) (t ttl : Z) (d : RData) :
  sameSet o t (mkRec o t ttl d) = true.
Proof. unfold sameSet. cbn [rname rtype]. now rewrite eqb_name_refl, Z.eqb_refl. Qed.

(** A delete-RRset for [(o, t)] that is not for the SOA or NS RRset of the
    zone apex removes the RRset. *)
Lemma applyRR_deleteSet (zname : gostring) (zone : list Rec) (o : gostring) (t : Z) :
  t <> TypeANY ->
  eqb_name o zname && ((t =? TypeSOA) || (t =? TypeNS)) = false ->
  applyRR zname zone (mkRR (mkHeader o t ClassANY 0 0) NoData)
  = filter (fun r => negb (sameSet o t r)) zone.
Proof.
  intros Ht Hapex. unfold applyRR. cbn [Hdr Class].
  change (ClassANY =? ClassANY) with true. cbv iota.
  unfold deleteRRsets. cbn [Hdr Rrtype Name].
  destruct (Z.eqb_spec t TypeANY); [contradiction|]. now rewrite Hapex.
Qed.

(** The insertion of a record [(o, t, ttl, d)] into a zone with no record of
    the RRset [(o, t)], for a type other than CNAME and SOA: the record
    joins the zone, unless the zone has a CNAME at [o]. *)
Lemma applyRR_insert_fresh (zname : gostring) (zone : list Rec) (o : gostring)
      (t ttl : Z) (d : RData) :
  (t =? TypeCNAME) = false -> (t =? TypeSOA) = false ->
  (forall r, In r zone -> sameSet o t r = false) ->
  applyRR zname zone (mkRR (mkHeader o t ClassINET ttl 0) d)
  = if hasRRset zone o (fun t' => t' =? TypeCNAME) then zone
    else zone ++ [mkRec o t ttl d].
Proof.
  intros Hc Hs Hnone. unfold applyRR. cbn [Hdr Class].
  change (ClassINET =? ClassANY) with false.
  change (ClassINET =? ClassNONE) with false.
  change (ClassINET =? ClassINET) with true. cbv iota.
  unfold addRR. cbn [Hdr Rrtype Name Ttl Data]. rewrite Hc, Hs.
  destruct (hasRRset zone o (fun t' => t' =? TypeCNAME)); [reflexivity|].
  cbn [andb]. rewrite replaceFirst_none; [reflexivity|].
  intros r Hr. now rewrite (Hnone r Hr).
Qed.

(** The zone content after a delete-RRset for [(o, t)] and the insertion of
    one record [(o, t, ttl, d)]: the other RRsets, then that record, unless
    a CNAME at [o] keeps it out. *)
Lemma applyRR_replace (zname : gostring) (zone : list Rec) (o : gostring)
      (t ttl : Z) (d : RData) :
  t <> TypeANY ->
  eqb_name o zname && ((t =? TypeSOA) || (t =? TypeNS)) = false ->
  (t =? TypeCNAME) = false -> (t =? TypeSOA) = false ->
  applyRR zname (applyRR zname zone (mkRR (mkHeader o t ClassANY 0 0) NoData))
          (mkRR (mkHeader o t ClassINET ttl 0) d)
  = let rest := filter (fun r => negb (sameSet o t r)) zone in
    if hasRRset rest o (fun t' => t' =? TypeCNAME) then rest
    else rest ++ [mkRec o t ttl d].
Proof.
  intros Ht Hapex Hc Hs. rewrite (applyRR_deleteSet zname zone o t Ht Hapex).
  apply applyRR_insert_fresh; try assumption.
  intros r Hr. apply filter_In in Hr as [_ Hr]. now apply negb_true_iff in Hr.
Qed.

Lemma replace_idempotent (zname : gostring) (zone : list Rec) (o : gostring)
      (t ttl : Z) (d : RData) :
  t <> TypeANY ->
  eqb_name o zname && ((t =? TypeSOA) || (t =? TypeNS)) = false ->
  (t =? TypeCNAME) = false -> (t =? TypeSOA) = false ->
  let del := mkRR (mkHeader o t ClassANY 0 0) NoData in
  let ins := mkRR (mkHeader o t ClassINET ttl 0) d in
  applyRR zname (applyRR zname (applyRR zname (applyRR zname zone del) ins) del) ins
  = applyRR zname (applyRR zname zone del) ins.
Proof.
  intros Ht Hapex Hc Hs del ins. unfold del, ins.
  rewrite (applyRR_replace zname zone o t ttl d Ht Hapex Hc Hs).
  rewrite (applyRR_replace zname _ o t ttl d Ht Hapex Hc Hs). cbv zeta.
  set (rest := filter (fun r => negb (sameSet o t r)) zone).
  assert (Hrest : filter (fun r => negb (sameSet o t r))
                         (if hasRRset rest o (fun t' => t' =? TypeCNAME)
                          then rest else rest ++ [mkRec o t ttl d]) = rest).
  { destruct (hasRRset rest o (fun t' => t' =? TypeCNAME));
      [apply filter_idem|].
    rewrite filter_app. unfold rest at 1. rewrite filter_idem.
    cbn [filter]. rewrite sameSet_own. cbn [negb]. apply app_nil_r. }
  rewrite Hrest. reflexivity.
Qed.

(** C4. For every catalog apex C, member apex Z, label L and TTL t, the
    message BuildPTRUpdate builds is an update of zone C whose update section
    is, in order, the delete of the whole PTR RRset at the one owner
    L.zones.C (class ANY, TTL 0, no data) and the insertion of exactly one
    PTR record at that owner with target Z, class IN and TTL t; applying it
    twice to any catalog content gives the content that applying it once
    gives. *)
Theorem BuildPTRUpdate_idempotent (catalogZone memberZone label : gostring) (ttl : Z) :
  canonicalZone catalogZone = true ->
  canonicalZone memberZone = true ->
  exists m,
    update.BuildPTRUpdate catalogZone memberZone label ttl = Ok m
    /\ Opcode m = OpcodeUpdate
    /\ Questions m = [mkQuestion catalogZone TypeSOA ClassINET]
    /\ Ns m = [mkRR (mkHeader (label ++ str ".zones." ++ catalogZone)
                              TypePTR ClassANY 0 0) NoData;
               mkRR (mkHeader (label ++ str ".zones." ++ catalogZone)
                              TypePTR ClassINET ttl 0)
                    (PtrData memberZone)]
    /\ forall catalog : list Rec,
        applyUpdate (applyUpdate catalog m) m = applyUpdate catalog m.
Proof.
  intros HC HZ. unfold update.BuildPTRUpdate, update.catalogOwnerName.
  rewrite app_assoc, (canonicalZone_Fqdn (label ++ str ".zones.") catalogZone HC).
  pose proof (canonicalZone_Fqdn [] memberZone HZ) as HF. cbn [app] in HF.
  rewrite HF. rewrite <- app_assoc.
  cbn [Insert SetUpdate RemoveRRset newMsg Questions Ns Response Opcode Compress
       List.map app Hdr Name Rrtype Class Ttl Rdlength Data Qclass].
  eexists. split; [reflexivity|]. split; [reflexivity|].
  split; [reflexivity|]. split; [reflexivity|].
  intros catalog. unfold applyUpdate.
  cbn [Questions Qtype Qclass Qname Ns fold_left].
  change ((TypeSOA =? TypeSOA) && (ClassINET =? ClassINET)) with true. cbv iota.
  apply replace_idempotent; try reflexivity; [discriminate|].
  change ((TypePTR =? TypeSOA) || (TypePTR =? TypeNS)) with false.
  apply andb_false_r.
Qed.

(** The theorem for the member [example.com.] of the catalog
    [catalog.example.] under its SHA-1 label. *)
Lemma BuildPTRUpdate_idempotent_witness :
  exists m,
    update.BuildPTRUpdate (str "catalog.example.") (str "example.com.")
      (str "c5e4b4da1e5a620ddaa3635e55c3732a5b49c7f4") 60 = Ok m
    /\ Opcode m = OpcodeUpdate
    /\ Questions m = [mkQuestion (str "catalog.example.") TypeSOA ClassINET]
    /\ Ns m = [mkRR (mkHeader (str "c5e4b4da1e5a620ddaa3635e55c3732a5b49c7f4"
                               ++ str ".zones." ++ str "catalog.example.")
                              TypePTR ClassANY 0 0) NoData;
               mkRR (mkHeader (str "c5e4b4da1e5a620ddaa3635e55c3732a5b49c7f4"
                               ++ str ".zones." ++ str "catalog.example.")
                              TypePTR ClassINET 60 0)
                    (PtrData (str "example.com."))]
    /\ forall catalog : list Rec,
        applyUpdate (applyUpdate catalog m) m = applyUpdate catalog m.
Proof.
  apply (BuildPTRUpdate_idempotent (str "catalog.example.") (str "example.com."));
    reflexivity.
Defined.

(** C6. For every non-empty list of records [rrs] that share one owner and
    type, the message AddRRset builds is an update of the zone whose update
    section is, in order, a delete-RRset entry for that owner and type with
    class ANY and TTL 0, then every record of [rrs] with class IN. *)
Theorem AddRRset_delete_then_insert
        (zone owner : gostring) (type : Z) (rrs : list RR) :
  rrs <> [] ->
  (forall rr, In rr rrs -> Name (Hdr rr) = owner /\ Rrtype (Hdr rr) = type) ->
  exists m,
    update.AddRRset_msg zone rrs = Some m
    /\ Opcode m = OpcodeUpdate
    /\ Questions m = [mkQuestion zone TypeSOA ClassINET]
    /\ Ns m = mkRR (mkHeader owner type ClassANY 0 0) NoData
              :: List.map (fun rr =>
                   mkRR (mkHeader (Name (Hdr rr)) (Rrtype (Hdr rr)) ClassINET
                                  (Ttl (Hdr rr)) (Rdlength (Hdr rr))) (Data rr)) rrs.
Proof.
  intros Hne Hall. destruct rrs as [|rr0 rest]; [congruence|].
  destruct (Hall rr0 (or_introl eq_refl)) as [Ho Ht].
  unfold update.AddRRset_msg.
  cbn [Insert SetUpdate RemoveRRset newMsg Questions Ns Response Opcode Compress
       app Hdr Name Rrtype Class Ttl Rdlength Data Qclass].
  rewrite Ho, Ht.
  eexists. split; [reflexivity|]. split; [reflexivity|].
  split; reflexivity.
Qed.

(** The theorem for two A records of [www.example.com.]. *)
Lemma AddRRset_delete_then_insert_witness :
  exists m,
    update.AddRRset_msg (str "example.com.")
      [mkRR (mkHeader (str "www.example.com.") 1 1 3600 0) (Fields [str "192.0.2.1"]);
       mkRR (mkHeader (str "www.example.com.") 1 1 3600 0) (Fields [str "192.0.2.2"])]
    = Some m
    /\ Opcode m = OpcodeUpdate
    /\ Questions m = [mkQuestion (str "example.com.") TypeSOA ClassINET]
    /\ Ns m = mkRR (mkHeader (str "www.example.com.") 1 ClassANY 0 0) NoData
              :: List.map (fun rr =>
                   mkRR (mkHeader (Name (Hdr rr)) (Rrtype (Hdr rr)) ClassINET
                                  (Ttl (Hdr rr)) (Rdlength (Hdr rr))) (Data rr))
                   [mkRR (mkHeader (str "www.example.com.") 1 1 3600 0)
                         (Fields [str "192.0.2.1"]);
                    mkRR (mkHeader (str "www.example.com.") 1 1 3600 0)
                         (Fields [str "192.0.2.2"])].
Proof.
  apply (AddRRset_delete_then_insert (str "example.com.") (str "www.example.com.") 1).
  - discriminate.
  - intros rr [<-|[<-|[]]]; split; reflexivity.
Defined.

(** ** ACMEHandler.Present *)

Lemma containsPrefix_loop_app (p rest : gostring) :
  containsPrefix_loop (p ++ rest) p = true.
Proof.
  induction p as [|c p IH]; simpl; [now destruct rest|].
  now rewrite Z.eqb_refl.
Qed.

Lemma containsPrefix_app (p rest : gostring) : containsPrefix (p ++ rest) p = true.
Proof.
  unfold containsPrefix. rewrite length_app.
  destruct (Nat.ltb_spec (length p + length rest) (length p)); [lia|].
  apply containsPrefix_loop_app.
Qed.

(** Where the owner is longer than 16 bytes, the challenge owner begins with
    the label [_acme-challenge.]; an owner of 16 bytes or fewer is left as it
    is. *)
Lemma challengeOwner_long (owner zoneFQDN : gostring) :
  (16 < length owner)%nat ->
  containsPrefix (challengeOwner owner zoneFQDN) (str "_acme-challenge.") = true.
Proof.
  intros Hlen. unfold challengeOwner.
  destruct (Nat.ltb_spec 16 (length owner)); [|lia]. cbn [andb].
  destruct (containsPrefix owner (str "_acme-challenge.")) eqn:Hp; cbn [negb].
  - exact Hp.
  - apply containsPrefix_app.
Qed.

Lemma challengeOwner_short (owner zoneFQDN : gostring) :
  (length owner <= 16)%nat -> challengeOwner owner zoneFQDN = owner.
Proof.
  intros Hlen. unfold challengeOwner.
  destruct (Nat.ltb_spec 16 (length owner)); [lia|]. reflexivity.
Qed.

(** What Present passes to Upsert whenever it gets that far: the record type
    TXT, the TTL 60 in place of 0, the zone as normalized, and the challenge
    owner of the normalized owner. *)
Lemma Present_args_shape
      (To_LowerCase : Z -> Z) (idna_ToASCII : gostring -> result gostring)
      (zoneInput fqdn value : gostring) (ttl : Z) (a : UpsertArgs) :
  Present_args To_LowerCase idna_ToASCII zoneInput fqdn value ttl = Ok a ->
  arg_rrType a = str "TXT"
  /\ arg_ttl a = (if ttl =? 0 then 60 else ttl)
  /\ arg_rdata a = [value]
  /\ exists owner,
      NormalizeOwner To_LowerCase fqdn (arg_zone a) = Ok owner
      /\ arg_owner a = challengeOwner owner (arg_zone a).
Proof.
  unfold Present_args.
  destruct (NormalizeZone To_LowerCase idna_ToASCII zoneInput) as [zoneFQDN|e];
    [|discriminate].
  destruct (NormalizeOwner To_LowerCase fqdn zoneFQDN) as [owner|e] eqn:Ho;
    [|discriminate].
  intros [= <-]. cbn [arg_rrType arg_ttl arg_rdata arg_zone arg_owner].
  repeat split. exists owner. now split.
Qed.

(** C2 fails on the code for a short owner: Present for the name [www] of
    the zone [a.com] hands Upsert the owner [www.a.com.], which does not
    begin with [_acme-challenge.]; the normalized owner has 10 bytes, and the
    label is only prepended to owners longer than 16. *)
Lemma Present_short_owner_unprefixed :
  Present_args noCaseAboveASCII idnaIdentity
    (str "a.com") (str "www") (str "token") 0
  = Ok (mkUpsertArgs (str "a.com.") (str "www.a.com.") (str "TXT") 60 [str "token"])
  /\ NormalizeOwner noCaseAboveASCII (str "www") (str "a.com.") = Ok (str "www.a.com.")
  /\ containsPrefix (str "www.a.com.") (str "_acme-challenge.") = false.
Proof.
  split; [vm_compute; reflexivity|].
  split; vm_compute; reflexivity.
Qed.

(** ** The wire format and the member label *)

Lemma isNameText_Forall (z : gostring) :
  isNameText z = true <-> Forall (fun c => 0x21 <= c <= 0x7E) z.
Proof.
  unfold isNameText. rewrite forallb_forall, Forall_forall.
  split; intros H c Hc; specialize (H c Hc).
  - apply andb_true_iff in H as [H1 H2]. apply Z.leb_le in H1, H2. lia.
  - apply andb_true_iff. split; apply Z.leb_le; lia.
Qed.

Lemma isNameText_ascii (z : gostring) : isNameText z = true -> asciiBytes z.
Proof.
  intros H. apply isNameText_Forall in H.
  eapply Forall_impl; [|exact H]. cbv beta. intros c Hc. lia.
Qed.

Lemma nameByte_kept (c : Z) :
  0x21 <= c <= 0x7E -> (RuneSelf <=? c) = false /\ asciiSpace c = false.
Proof.
  intros H. unfold RuneSelf, asciiSpace. split.
  - apply Z.leb_gt. lia.
  - destruct (Z.leb_spec 0x09 c); destruct (Z.leb_spec c 0x0D);
      destruct (Z.eqb_spec c 0x20); simpl; try reflexivity; lia.
Qed.

(** White space is trimmed from neither end of a name in presentation
    form. *)
Lemma TrimSpace_nameText (z : gostring) : isNameText z = true -> TrimSpace z = z.
Proof.
  intros H. apply isNameText_Forall in H.
  destruct z as [|c t]; [reflexivity|].
  assert (Hc : 0x21 <= c <= 0x7E) by (now inversion H).
  cbn [TrimSpace]. destruct (nameByte_kept c Hc) as [-> ->].
  assert (Hrev : Forall (fun c => 0x21 <= c <= 0x7E) (rev (c :: t)))
    by (now apply Forall_rev).
  destruct (rev (c :: t)) as [|c' r] eqn:Hr.
  - apply (f_equal (@length Z)) in Hr. rewrite length_rev in Hr. discriminate.
  - cbn [trimSpaceStop].
    assert (Hc' : 0x21 <= c' <= 0x7E) by (now inversion Hrev).
    destruct (nameByte_kept c' Hc') as [-> ->].
    rewrite <- Hr. apply rev_involutive.
Qed.

Lemma wireLabels_ascii (To_LowerCase : Z -> Z) (labels : list gostring) :
  (forall label, In label labels -> asciiBytes label) ->
  wireLabels To_LowerCase labels
  = flat_map (fun label => Z.of_nat (length label) mod 256 :: List.map lowerByte label)
             (filter (fun label => negb (eqb_str label [])) labels).
Proof.
  induction labels as [|label rest IH]; intros H; [reflexivity|].
  cbn [wireLabels filter].
  rewrite IH by (intros l Hl; apply H; now right).
  destruct (eqb_str label []); cbn [negb]; [reflexivity|].
  cbn [flat_map]. rewrite ToLower_ascii by (apply H; now left).
  reflexivity.
Qed.

Lemma Split_ascii (s label : gostring) :
  asciiBytes s -> In label (Split s 0x2E) -> asciiBytes label.
Proof.
  intros Hs Hl. apply Forall_forall. intros c Hc.
  apply (proj1 (Forall_forall _ _) Hs). eapply Split_fields; eauto.
Qed.

Lemma wireEncoding_dot (z : gostring) : wireEncoding (z ++ dot) = wireEncoding z.
Proof.
  unfold wireEncoding. change dot with [0x2E].
  rewrite Split_app_sep, filter_app. cbn [filter eqb_str negb].
  now rewrite app_nil_r.
Qed.

Lemma wireEncoding_withoutTrailingDot (z : gostring) :
  wireEncoding (withoutTrailingDot z) = wireEncoding z.
Proof.
  unfold withoutTrailingDot, TrimSuffix.
  destruct (HasSuffix z dot) eqn:Hd; [|reflexivity].
  apply HasSuffix_iff in Hd as [s ->].
  unfold sliceTo. rewrite length_app.
  replace (length s + length dot - length dot)%nat with (length s) by lia.
  rewrite firstn_app, Nat.sub_diag, firstn_all. cbn [firstn].
  rewrite app_nil_r. symmetry. apply wireEncoding_dot.
Qed.

(** dnsWireFormat on a name in presentation form is the wire format of the
    specification. *)
Lemma dnsWireFormat_nameText (To_LowerCase : Z -> Z) (z : gostring) :
  isNameText z = true -> dnsWireFormat To_LowerCase z = wireEncoding z.
Proof.
  intros H. unfold dnsWireFormat. rewrite (TrimSpace_nameText z H).
  pose proof (isNameText_ascii z H) as Ha.
  destruct (HasSuffix z dot); cbn [negb].
  - rewrite wireLabels_ascii; [reflexivity|].
    intros label Hl. eapply Split_ascii; eauto.
  - rewrite wireLabels_ascii.
    + fold (wireEncoding (z ++ dot)). apply wireEncoding_dot.
    + intros label Hl. eapply Split_ascii; [|exact Hl].
      apply Forall_app. split; [assumption|]. repeat constructor; lia.
Qed.

Lemma upperByte_dot (c : Z) : (upperByte c =? 0x2E) = (c =? 0x2E).
Proof.
  unfold upperByte, isLowerByte.
  destruct (Z.leb_spec 0x61 c); destruct (Z.leb_spec c 0x7A); cbn [andb];
    try reflexivity.
  destruct (Z.eqb_spec (c - 32) 0x2E); destruct (Z.eqb_spec c 0x2E); try lia;
    reflexivity.
Qed.

Lemma lowerByte_upperByte (c : Z) : lowerByte (upperByte c) = lowerByte c.
Proof.
  unfold lowerByte, upperByte, isLowerByte, isUpperByte.
  destruct (Z.leb_spec 0x61 c); destruct (Z.leb_spec c 0x7A); cbn [andb];
    try reflexivity.
  destruct (Z.leb_spec 0x41 (c - 32)); destruct (Z.leb_spec (c - 32) 0x5A);
    destruct (Z.leb_spec 0x41 c); destruct (Z.leb_spec c 0x5A); cbn [andb]; lia.
Qed.

Lemma splitAcc_upper (s cur : gostring) :
  splitAcc 0x2E (List.map upperByte s) (List.map upperByte cur)
  = List.map (List.map upperByte) (splitAcc 0x2E s cur).
Proof.
  revert cur. induction s as [|c s IH]; intros cur; cbn [List.map splitAcc].
  - now rewrite map_rev.
  - rewrite upperByte_dot. destruct (c =? 0x2E).
    + cbn [List.map]. rewrite map_rev. f_equal. apply (IH []).
    + apply (IH (c :: cur)).
Qed.

(** The wire format does not depend on the ASCII case of the name. *)
Lemma wireEncoding_upper (z : gostring) :
  wireEncoding (ToUpperASCII z) = wireEncoding z.
Proof.
  unfold wireEncoding, ToUpperASCII, Split. f_equal.
  pose proof (splitAcc_upper z []) as E. cbn [List.map] in E. rewrite E. clear E.
  induction (splitAcc 0x2E z []) as [|label rest IH]; [reflexivity|].
  cbn [List.map filter].
  destruct label as [|c label]; cbn [List.map eqb_str negb]; [exact IH|].
  cbn [flat_map]. rewrite IH. f_equal.
  cbn [length List.map]. rewrite length_map, map_map, lowerByte_upperByte.
  f_equal. f_equal. apply map_ext. intros a. apply lowerByte_upperByte.
Qed.

Lemma isNameText_upper (z : gostring) :
  isNameText z = true -> isNameText (ToUpperASCII z) = true.
Proof.
  rewrite !isNameText_Forall. unfold ToUpperASCII. intros H.
  apply Forall_map. eapply Forall_impl; [|exact H]. cbv beta. intros c Hc.
  unfold upperByte, isLowerByte.
  destruct (Z.leb_spec 0x61 c); destruct (Z.leb_spec c 0x7A); cbn [andb]; lia.
Qed.

Lemma firstn_incl (n : nat) (l : gostring) (c : Z) : In c (firstn n l) -> In c l.
Proof.
  revert l. induction n as [|n IH]; intros [|a l]; simpl; try tauto.
  intros [H|H]; [now left|right; now apply IH].
Qed.

Lemma isNameText_withoutTrailingDot (z : gostring) :
  isNameText z = true -> isNameText (withoutTrailingDot z) = true.
Proof.
  rewrite !isNameText_Forall. unfold withoutTrailingDot, TrimSuffix, sliceTo.
  intros H. destruct (HasSuffix z dot); [|assumption].
  apply Forall_forall. intros c Hc. apply (proj1 (Forall_forall _ _) H).
  eapply firstn_incl; eauto.
Qed.

Lemma bigEndian_bytes (n : nat) (x : Z) :
  length (SHA1.bigEndian n x) = n
  /\ Forall (fun b => 0 <= b < 256) (SHA1.bigEndian n x).
Proof.
  unfold SHA1.bigEndian. split.
  - now rewrite length_map, length_rev, length_seq.
  - apply Forall_map, Forall_forall. intros i _. apply Z.mod_pos_bound. lia.
Qed.

(** A SHA-1 digest is 20 bytes. *)
Lemma SHA1_Sum_bytes (data : gostring) :
  length (SHA1.Sum data) = 20%nat
  /\ Forall (fun b => 0 <= b < 256) (SHA1.Sum data).
Proof.
  unfold SHA1.Sum.
  destruct (SHA1.blocks _ SHA1.init _) as [[[[h0 h1] h2] h3] h4].
  split.
  - rewrite !length_app.
    now rewrite !(proj1 (bigEndian_bytes 4 _)).
  - repeat (apply Forall_app; split); apply bigEndian_bytes.
Qed.

Lemma hexdigit_lower (k : nat) :
  (k < 16)%nat -> isLowerHex (nth k hextable 0) = true.
Proof.
  intros H. do 16 (destruct k as [|k]; [reflexivity|]). lia.
Qed.

Lemma hex_EncodeToString_chars (src : gostring) :
  Forall (fun b => 0 <= b < 256) src ->
  length (hex_EncodeToString src) = (2 * length src)%nat
  /\ forallb isLowerHex (hex_EncodeToString src) = true.
Proof.
  unfold hex_EncodeToString.
  induction 1 as [|v src Hv Hsrc [IHl IHc]]; [split; reflexivity|].
  cbn [flat_map app length forallb]. rewrite IHl, IHc. split; [lia|].
  rewrite !hexdigit_lower; [reflexivity| |].
  - change 0x0F with (Z.ones 4). rewrite Z.land_ones by lia.
    pose proof (Z.mod_pos_bound v (2 ^ 4) ltac:(lia)). lia.
  - rewrite Z.shiftr_div_pow2 by lia.
    assert (0 <= v / 2 ^ 4 < 16).
    { split; [apply Z.div_pos; lia|].
      apply Z.div_lt_upper_bound; lia. }
    lia.
Qed.

(** C5. For every zone name [z] in presentation form, SHA1WireLabel(z) is
    the hex encoding of the SHA-1 digest of the wire format of [z] (lower
    case, length-prefixed labels, root terminator): 40 lower-case hex
    digits; it is the same for the upper-cased name and for the name without
    its trailing dot; and SHA1WireLabel("example.com.") is
    c5e4b4da1e5a620ddaa3635e55c3732a5b49c7f4. *)
Theorem SHA1WireLabel_wire_determinism (To_LowerCase : Z -> Z) (z : gostring) :
  isNameText z = true ->
  SHA1WireLabel To_LowerCase z = hex_EncodeToString (SHA1.Sum (wireEncoding z))
  /\ length (SHA1WireLabel To_LowerCase z) = 40%nat
  /\ forallb isLowerHex (SHA1WireLabel To_LowerCase z) = true
  /\ SHA1WireLabel To_LowerCase (ToUpperASCII z) = SHA1WireLabel To_LowerCase z
  /\ SHA1WireLabel To_LowerCase (withoutTrailingDot z) = SHA1WireLabel To_LowerCase z
  /\ SHA1WireLabel To_LowerCase (str "example.com.")
     = str "c5e4b4da1e5a620ddaa3635e55c3732a5b49c7f4".
Proof.
  intros Hz. unfold SHA1WireLabel.
  rewrite (dnsWireFormat_nameText To_LowerCase z Hz).
  rewrite (dnsWireFormat_nameText To_LowerCase _ (isNameText_upper z Hz)).
  rewrite (dnsWireFormat_nameText To_LowerCase _
             (isNameText_withoutTrailingDot z Hz)).
  rewrite wireEncoding_upper, wireEncoding_withoutTrailingDot.
  destruct (SHA1_Sum_bytes (wireEncoding z)) as [Hlen Hbytes].
  destruct (hex_EncodeToString_chars _ Hbytes) as [Hl Hc].
  split; [reflexivity|]. split; [rewrite Hl, Hlen; reflexivity|].
  split; [exact Hc|]. split; [reflexivity|]. split; [reflexivity|].
  rewrite (dnsWireFormat_nameText To_LowerCase (str "example.com.") eq_refl).
  vm_compute. reflexivity.
Qed.

(** The theorem at [Example.COM.]: its label is that of [EXAMPLE.COM.] and
    of [Example.COM]. *)
Lemma SHA1WireLabel_wire_determinism_witness :
  isNameText (str "Example.COM.") = true
  /\ SHA1WireLabel noCaseAboveASCII (str "EXAMPLE.COM.")
     = SHA1WireLabel noCaseAboveASCII (str "Example.COM.")
  /\ SHA1WireLabel noCaseAboveASCII (str "Example.COM")
     = SHA1WireLabel noCaseAboveASCII (str "Example.COM.").
Proof.
  split; [reflexivity|].
  pose proof (SHA1WireLabel_wire_determinism noCaseAboveASCII
                (str "Example.COM.") eq_refl) as H.
  destruct H as (_ & _ & _ & Hupper & Hdot & _).
  change (str "EXAMPLE.COM.") with (ToUpperASCII (str "Example.COM.")).
  change (str "Example.COM") with (withoutTrailingDot (str "Example.COM.")).
  split; assumption.
Defined.

(** crypto/sha1 as embedded, on the test vectors of FIPS 180: the empty
    message, [abc], and the 56-byte message that takes two blocks. *)
Example SHA1_test_vectors :
  hex_EncodeToString (SHA1.Sum (str ""))
  = str "da39a3ee5e6b4b0d3255bfef95601890afd80709"
  /\ hex_EncodeToString (SHA1.Sum (str "abc"))
     = str "a9993e364706816aba3e25717850c26c9cd0d89d"
  /\ hex_EncodeToString
       (SHA1.Sum (str "abcdbcdecdefdefgefghfghighijhijkijkljklmklmnlmnomnopnopq"))
     = str "84983e441c3bd26ebaae4aa1f95129e5e54670f1".
Proof.
  split; [vm_compute; reflexivity|].
  split; vm_compute; reflexivity.
Qed.

(** The labels the repository's tests expect. *)
Example SHA1WireLabel_test_vectors :
  SHA1WireLabel noCaseAboveASCII (str "www.example.com.")
  = str "b49edbb7a3bbde3c34a3c1fb55063b7bd259d3d4"
  /\ SHA1WireLabel noCaseAboveASCII (str "ExAmPlE.CoM.")
     = str "c5e4b4da1e5a620ddaa3635e55c3732a5b49c7f4"
  /\ SHA1WireLabel noCaseAboveASCII (str "example.com")
     = str "c5e4b4da1e5a620ddaa3635e55c3732a5b49c7f4"
  /\ SHA1WireLabel noCaseAboveASCII (str "com.")
     = str "65019c4ed041c959edcf3b9f741060d7e5d42f96".
Proof.
  split; [vm_compute; reflexivity|].
  split; [vm_compute; reflexivity|].
  split; vm_compute; reflexivity.
Qed.

(** ** NormalizeZone returns canonical names *)

Lemma lor_above (a b : Z) : 0x80 <= a -> 0 <= b -> 0x80 <= Z.lor a b.
Proof.
  intros Ha Hb.
  assert (Hl : 7 <= Z.log2 (Z.lor a b)).
  { rewrite Z.log2_lor by lia.
    pose proof (Z.log2_le_mono 0x80 a Ha) as H.
    change (Z.log2 0x80) with 7 in H. lia. }
  assert (Hpos : 0 < Z.lor a b).
  { destruct (Z.lor_nonneg a b) as [_ H].
    assert (0 <= Z.lor a b) by (apply H; lia).
    destruct (Z.eq_dec (Z.lor a b) 0) as [E|]; [|lia].
    rewrite E in Hl. change (Z.log2 0) with 0 in Hl. lia. }
  pose proof (Z.log2_spec _ Hpos) as [Hlow _].
  pose proof (Z.pow_le_mono_r 2 7 (Z.log2 (Z.lor a b)) ltac:(lia) Hl) as Hp.
  change (2 ^ 7) with 0x80 in Hp. lia.
Qed.

Lemma land_mask_bounds (x : Z) (n : Z) :
  0 <= n -> 0 <= Z.land x (Z.ones n) < 2 ^ n.
Proof.
  intros Hn. rewrite Z.land_ones by lia. apply Z.mod_pos_bound.
  apply Z.pow_pos_nonneg; lia.
Qed.

Lemma land_mask_value (x k : Z) (n : Z) :
  0 <= n -> k * 2 ^ n <= x < (k + 1) * 2 ^ n ->
  Z.land x (Z.ones n) = x - k * 2 ^ n.
Proof.
  intros Hn Hx. rewrite Z.land_ones by lia.
  assert (Hp : 0 < 2 ^ n) by (apply Z.pow_pos_nonneg; lia).
  symmetry. apply Z.mod_unique_pos with (q := k); lia.
Qed.

(** A rune that starts with a byte outside ASCII is outside ASCII. *)
Lemma DecodeRuneInString_above (c : Z) (t : gostring) :
  0x80 <= c -> 0x80 <= fst (DecodeRuneInString (c :: t)).
Proof.
  intros Hc. unfold DecodeRuneInString.
  destruct (first c) as [| |sz lo hi] eqn:Hf.
  - unfold first in Hf. destruct (Z.ltb_spec c 0x80); [lia|].
    repeat match type of Hf with
           | (if ?b then _ else _) = _ => destruct b
           end; discriminate Hf.
  - cbn [fst]. unfold RuneError. lia.
  - assert (Hlead : 0xC2 <= c <= 0xF4
                    /\ (sz = 2%nat -> c < 0xE0)
                    /\ (sz = 3%nat -> 0xE0 <= c < 0xF0 /\ (c = 0xE0 -> lo = 0xA0))
                    /\ (sz = 4%nat -> 0xF0 <= c /\ (c = 0xF0 -> lo = 0x90))
                    /\ 0x80 <= lo /\ hi <= 0xBF
                    /\ (sz = 2 \/ sz = 3 \/ sz = 4)%nat).
    { unfold first in Hf.
      repeat match type of Hf with
             | (if ?x <? ?y then _ else _) = _ => destruct (Z.ltb_spec x y)
             | (if ?x =? ?y then _ else _) = _ => destruct (Z.eqb_spec x y)
             end; inversion Hf; subst; repeat split; intros; try lia. }
    destruct Hlead as (Hr & H2 & H3 & H4 & Hlo & Hhi & Hsz).
    destruct (length (c :: t) <? sz)%nat; [cbn [fst]; unfold RuneError; lia|].
    destruct t as [|s1 t1]; [cbn [fst]; unfold RuneError; lia|].
    destruct (Z.ltb_spec s1 lo); [cbn [orb fst]; unfold RuneError; lia|].
    destruct (Z.ltb_spec hi s1); [cbn [orb fst]; unfold RuneError; lia|].
    cbn [orb].
    assert (Hs1 : Z.land s1 0x3F = s1 - 2 * 2 ^ 6)
      by (apply (land_mask_value s1 2 6); lia).
    destruct Hsz as [ -> | [ -> | -> ] ]; cbn [Nat.leb].
    + cbn [fst]. apply lor_above.
      * rewrite Z.shiftl_mul_pow2 by lia.
        change 0x1F with (Z.ones 5).
        rewrite (land_mask_value c 6 5) by (specialize (H2 eq_refl); lia). lia.
      * change 0x3F with (Z.ones 6). apply land_mask_bounds. lia.
    + destruct t1 as [|s2 t2]; [cbn [fst]; unfold RuneError; lia|].
      destruct (isCont s2); cbn [negb]; [|cbn [fst]; unfold RuneError; lia].
      cbn [fst]. apply lor_above.
      2: { change 0x3F with (Z.ones 6). apply land_mask_bounds. lia. }
      destruct (H3 eq_refl) as [H3r H3lo].
      change 0x0F with (Z.ones 4).
      rewrite (land_mask_value c 14 4) by lia.
      rewrite Hs1, !Z.shiftl_mul_pow2 by lia.
      destruct (Z.eq_dec c 0xE0) as [->|Hne].
      * specialize (H3lo eq_refl). subst lo.
        rewrite Z.lor_comm. apply lor_above; lia.
      * apply lor_above; lia.
    + destruct t1 as [|s2 t2]; [cbn [fst]; unfold RuneError; lia|].
      destruct (isCont s2); cbn [negb]; [|cbn [fst]; unfold RuneError; lia].
      destruct t2 as [|s3 t3]; [cbn [fst]; unfold RuneError; lia|].
      destruct (isCont s3); cbn [negb]; [|cbn [fst]; unfold RuneError; lia].
      cbn [fst]. apply lor_above.
      2: { change 0x3F with (Z.ones 6). apply land_mask_bounds. lia. }
      assert (Hb2 : 0 <= Z.shiftl (Z.land s2 0x3F) 6).
      { rewrite Z.shiftl_mul_pow2 by lia.
        change 0x3F with (Z.ones 6).
        pose proof (land_mask_bounds s2 6 ltac:(lia)). lia. }
      apply lor_above; [|exact Hb2].
      destruct (H4 eq_refl) as [H4r H4lo].
      change 0x07 with (Z.ones 3).
      rewrite (land_mask_value c 30 3) by lia.
      rewrite Hs1, !Z.shiftl_mul_pow2 by lia.
      destruct (Z.eq_dec c 0xF0) as [->|Hne].
      * specialize (H4lo eq_refl). subst lo.
        rewrite Z.lor_comm. apply lor_above; lia.
      * apply lor_above; lia.
Qed.

Lemma isDNSLabelChar_below (r : Z) : isDNSLabelChar r = true -> r < 0x80.
Proof. intros H. apply isDNSLabelChar_lower in H. lia. Qed.

(** Label characters are single bytes: a label whose runes are all label
    characters consists of those bytes. *)
Lemma runes_label_bytes (label : gostring) :
  forallb isDNSLabelChar (runes label) = true ->
  forallb isDNSLabelChar label = true.
Proof.
  unfold runes. induction label as [|c t IH]; [reflexivity|].
  cbn [length runesOf].
  destruct (Z.ltb_spec c 0x80) as [Hc|Hc].
  - rewrite DecodeRuneInString_ascii by assumption.
    unfold sliceFrom. cbn [skipn forallb].
    intros H. apply andb_true_iff in H as [H1 H2].
    rewrite H1. cbn [andb]. now apply IH.
  - pose proof (DecodeRuneInString_above c t Hc) as Habove.
    destruct (DecodeRuneInString (c :: t)) as [r w]. cbn [fst] in Habove.
    cbn [forallb]. intros H. apply andb_true_iff in H as [H1 _].
    apply isDNSLabelChar_below in H1. lia.
Qed.

Lemma checkLabels_canonical (i : nat) (labels : list gostring) :
  checkLabels i labels = None -> forallb canonicalLabel labels = true.
Proof.
  revert i. induction labels as [|label rest IH]; intros i; [reflexivity|].
  cbn [checkLabels forallb]. unfold canonicalLabel at 1.
  destruct (length label =? 0)%nat; [discriminate|].
  destruct (Nat.ltb_spec maxLabelLength (length label)); [discriminate|].
  destruct (forallb isDNSLabelChar (runes label)) eqn:Hr; cbn [negb];
    [|discriminate].
  destruct (HasPrefix label (str "-") || HasSuffix label (str "-"));
    [discriminate|].
  intros Hrest. rewrite (IH _ Hrest), (runes_label_bytes label Hr).
  destruct (Nat.leb_spec (length label) maxLabelLength); [reflexivity|lia].
Qed.

(** X1. Every name NormalizeZone returns is a canonical zone apex, provided
    the IDNA profile handed back a name with no white space around it (it
    rejects white space). *)
Lemma NormalizeZone_canonical
      (To_LowerCase : Z -> Z) (idna_ToASCII : gostring -> result gostring)
      (input z : gostring) :
  NormalizeZone To_LowerCase idna_ToASCII input = Ok z ->
  TrimSpace z = z ->
  canonicalZone z = true.
Proof.
  unfold NormalizeZone.
  destruct (idna_ToASCII _) as [ascii|e]; [|discriminate].
  set (name := if negb (HasSuffix ascii dot) then ascii ++ dot else ascii).
  assert (Hdot : HasSuffix name dot = true).
  { unfold name. destruct (HasSuffix ascii dot) eqn:E; cbn [negb];
      [exact E|apply HasSuffix_app]. }
  destruct (Nat.ltb_spec maxDomainLength (length name)) as [|Hlen];
    [discriminate|].
  destruct (length (dnsLabels name) =? 0)%nat eqn:Hn; [discriminate|].
  destruct (checkLabels 0 (dnsLabels name)) as [e|] eqn:Hc; [discriminate|].
  intros [= <-] Htrim.
  apply checkLabels_canonical in Hc.
  unfold dnsLabels in Hc, Hn. rewrite Htrim, Hdot in Hc, Hn.
  unfold canonicalZone. rewrite Hdot. cbn [andb].
  destruct (Nat.leb_spec (length name) maxDomainLength); [|lia]. cbn [andb].
  destruct (eqb_str (sliceTo (length name - 1) name) []); [discriminate Hn|].
  exact Hc.
Qed.

(** The theorem for [" Example.COM "]. *)
Lemma NormalizeZone_canonical_witness :
  NormalizeZone noCaseAboveASCII idnaIdentity (str " Example.COM ")
  = Ok (str "example.com.")
  /\ TrimSpace (str "example.com.") = str "example.com."
  /\ canonicalZone (str "example.com.") = true.
Proof.
  split; [reflexivity|]. split; [reflexivity|].
  apply (NormalizeZone_canonical noCaseAboveASCII idnaIdentity
           (str " Example.COM ") (str "example.com.")); reflexivity.
Defined.

(** Canonical names are names in presentation form. *)
Lemma canonicalZone_nameText (z : gostring) :
  canonicalZone z = true -> isNameText z = true.
Proof.
  intros H. destruct (canonicalZone_shape z H) as [name [-> [_ Hall]]].
  apply isNameText_Forall, Forall_app. split.
  - eapply Forall_impl; [|exact Hall]. cbv beta. intros c [Hc| ->]; [|lia].
    unfold isDNSLabelChar in Hc.
    repeat (apply orb_true_iff in Hc as [Hc|Hc]);
      repeat (apply andb_true_iff in Hc as [? Hc]);
      repeat match goal with
             | H : (_ <=? _) = true |- _ => apply Z.leb_le in H
             | H : (_ =? _) = true |- _ => apply Z.eqb_eq in H
             end; lia.
  - change dot with [0x2E]. apply Forall_cons; [lia|apply Forall_nil].
Qed.

(** ** Removing the zone file *)

Section LifecycleFacts.

Variable To_LowerCase : Z -> Z.
Variable idna_ToASCII : gostring -> result gostring.
Variable filepath_Join : gostring -> gostring -> gostring.
Variable now : Time.
Variable cfg : Config.
Variable env : Env.

Ltac run_monad :=
  unfold bind, ret, emit, appendChange, setFiles, setLocks, getFiles;
  cbn [fst snd files locks events changes].

Lemma hasFile_without (path : gostring) (fs : list gostring) :
  hasFile path (without path fs) = false.
Proof.
  unfold hasFile, without. induction fs as [|p fs IH]; [reflexivity|].
  cbn [filter]. destruct (eqb_str path p) eqn:E; cbn [negb]; [exact IH|].
  cbn [existsb]. now rewrite E, IH.
Qed.

Lemma hasFile_without_other (path q : gostring) (fs : list gostring) :
  hasFile path fs = false -> hasFile path (without q fs) = false.
Proof.
  unfold hasFile, without. induction fs as [|p fs IH]; [reflexivity|].
  cbn [existsb filter]. intros H. apply orb_false_iff in H as [H1 H2].
  destruct (negb (eqb_str q p)); cbn [existsb]; rewrite ?H1; auto.
Qed.

Lemma without_absent (path : gostring) (fs : list gostring) :
  hasFile path fs = false -> without path fs = fs.
Proof.
  unfold hasFile, without. induction fs as [|p fs IH]; [reflexivity|].
  cbn [existsb filter]. intros H. apply orb_false_iff in H as [H1 H2].
  rewrite H1. cbn [negb]. now rewrite IH.
Qed.

(** os.Remove by cases: what it returns and what it leaves. *)
Lemma os_Remove_cases (path : gostring) (st : State) :
  os_Remove env path st
  = (match unlink_fault env path with
     | Some f => Some (PathError "remove" path (errnoOf f))
     | None =>
       if hasFile path (files st) then None
       else Some (PathError "remove" path ENOENT)
     end,
     mkState (unlinked env path (files st)) (locks st)
             (events st ++ [Remove path]) (changes st)).
Proof.
  unfold os_Remove, unlinked. run_monad.
  destruct (unlink_fault env path); [reflexivity|].
  destruct (hasFile path (files st)) eqn:E; [reflexivity|].
  now rewrite (without_absent path (files st) E).
Qed.

(** RemoveZoneFile by cases: an error only when the system refuses to
    unlink. *)
Lemma RemoveZoneFile_cases (path : gostring) (st : State) :
  RemoveZoneFile env path st
  = (match unlink_fault env path with
     | Some f => Some (Wrap "failed to remove zone file"
                            (PathError "remove" path (errnoOf f)))
     | None => None
     end,
     mkState (unlinked env path (files st)) (locks st)
             (events st ++ [Remove path]) (changes st)).
Proof.
  unfold RemoveZoneFile. unfold bind at 1. rewrite os_Remove_cases.
  destruct (unlink_fault env path) as [[]|]; [reflexivity..|].
  destruct (hasFile path (files st)); reflexivity.
Qed.

Lemma unlinked_gone (path : gostring) (fs : list gostring) :
  unlink_fault env path = None -> hasFile path (unlinked env path fs) = false.
Proof.
  intros Hf. unfold unlinked. rewrite Hf. apply hasFile_without.
Qed.

Lemma RemoveZoneFile_files (path : gostring) (st : State) :
  snd (RemoveZoneFile env path st)
  = mkState (unlinked env path (files st)) (locks st)
            (events st ++ [Remove path]) (changes st).
Proof. now rewrite RemoveZoneFile_cases. Qed.

(** *** What each call returns and leaves behind *)

Lemma Lock_Acquire_run (path : gostring) (st : State) :
  Lock_Acquire env path st
  = (flock env path,
     mkState (files st)
             (match flock env path with
              | Some _ => locks st
              | None => path :: locks st
              end)
             (events st ++ [LockAcquire path]) (changes st)).
Proof.
  unfold Lock_Acquire. run_monad. destruct (flock env path); reflexivity.
Qed.

Lemma Lock_Release_run (path : gostring) (st : State) :
  Lock_Release path st
  = (tt, mkState (files st) (without path (locks st))
                 (events st ++ [LockRelease path]) (changes st)).
Proof. reflexivity. Qed.

Lemma Update_run (m : Msg) (st : State) :
  Update env m st
  = (exchange env m,
     mkState (files st) (locks st) (events st ++ [DnsUpdate m]) (changes st)).
Proof. reflexivity. Qed.

Lemma rndc_run_eq (args : list gostring) (st : State) :
  rndc env args st
  = (rndc_run env args,
     mkState (files st) (locks st) (events st ++ [Rndc args]) (changes st)).
Proof. reflexivity. Qed.

Lemma DelZone_clean_run (zone : gostring) (st : State) :
  DelZone env zone true st
  = let '(_, stderr, err) := rndc_run env [str "delzone"; str "-clean"; zone] in
    (match err with
     | Some err => Some (delZoneError (rndcErrMsg env stderr err) err)
     | None => None
     end,
     mkState (match err with
              | Some _ => files st
              | None => fold_right without (files st) (named_cleans env zone)
              end)
             (locks st)
             (events st ++ [Rndc [str "delzone"; str "-clean"; zone]])
             (changes st)).
Proof.
  unfold DelZone, delZoneError, rndcErrMsg. unfold bind at 1.
  rewrite rndc_run_eq. cbn [app].
  destruct (rndc_run env [str "delzone"; str "-clean"; zone]) as [[out stderr] [err|]].
  - cbv zeta.
    destruct (Contains _ (str "not found") || Contains _ (str "no such zone"));
      reflexivity.
  - reflexivity.
Qed.

Lemma BuildPTRDelete_catalogDelete (zone : gostring) :
  update.BuildPTRDelete (Catalog_Zone cfg) (SHA1WireLabel To_LowerCase zone)
  = Ok (catalogDelete To_LowerCase cfg zone).
Proof. reflexivity. Qed.

Lemma removeFromCatalog_run (zone : gostring) (st : State) :
  removeFromCatalog To_LowerCase cfg env zone st
  = (match exchange env (catalogDelete To_LowerCase cfg zone) with
     | Some err => Some (Wrap "failed to send catalog delete" err)
     | None => None
     end,
     mkState (files st) (locks st)
             (events st ++ [DnsUpdate (catalogDelete To_LowerCase cfg zone)])
             (match exchange env (catalogDelete To_LowerCase cfg zone) with
              | Some _ => changes st
              | None => changes st ++ ["catalog_updated"%string]
              end)).
Proof.
  unfold removeFromCatalog. rewrite BuildPTRDelete_catalogDelete.
  unfold bind at 1. rewrite Update_run.
  destruct (exchange env (catalogDelete To_LowerCase cfg zone)); reflexivity.
Qed.

(** *** DeleteZone *)

Lemma DeleteZone_locked_run (zone : gostring) (st : State) :
  DeleteZone_locked To_LowerCase filepath_Join cfg env zone st
  = match exchange env (catalogDelete To_LowerCase cfg zone) with
    | Some e =>
      (Some (Wrap "failed to remove from catalog"
                  (Wrap "failed to send catalog delete" e)),
       mkState (files st) (locks st)
               (events st ++ [DnsUpdate (catalogDelete To_LowerCase cfg zone)])
               (changes st))
    | None =>
      let '(_, stderr, err) := rndc_run env (delzoneArgs zone) in
      match err with
      | Some e =>
        (Some (Wrap "failed to delete zone via RNDC"
                    (delZoneError (rndcErrMsg env stderr e) e)),
         mkState (files st) (locks st)
                 (events st ++ [DnsUpdate (catalogDelete To_LowerCase cfg zone);
                                Rndc (delzoneArgs zone)])
                 (changes st ++ ["catalog_updated"%string]))
      | None =>
        let path := ZoneFilePath filepath_Join cfg zone in
        (None,
         mkState (unlinked env path
                    (fold_right without (files st) (named_cleans env zone)))
                 (locks st)
                 (events st ++ [DnsUpdate (catalogDelete To_LowerCase cfg zone);
                                Rndc (delzoneArgs zone); Remove path])
                 (changes st
                  ++ ["catalog_updated"%string; "zone_deleted"%string;
                      match unlink_fault env path with
                      | Some _ => "zone_file_cleanup_failed"%string
                      | None => "zone_file_removed"%string
                      end]))
      end
    end.
Proof.
  unfold DeleteZone_locked. unfold bind at 1. rewrite removeFromCatalog_run.
  destruct (exchange env (catalogDelete To_LowerCase cfg zone)) as [e|]; [reflexivity|].
  unfold bind at 1. rewrite DelZone_clean_run. unfold delzoneArgs.
  destruct (rndc_run env [str "delzone"; str "-clean"; zone]) as [[out stderr] [e|]].
  - cbn [files locks events changes]. rewrite <- app_assoc. reflexivity.
  - unfold bind at 1. unfold appendChange at 1.
    cbn [files locks events changes].
    unfold bind at 1. rewrite RemoveZoneFile_cases.
    cbn [fst snd files locks events changes].
    destruct (unlink_fault env _);
      run_monad; rewrite <- !app_assoc; reflexivity.
Qed.

Lemma DeleteZone_run (zoneInput : gostring) (st : State) :
  DeleteZone To_LowerCase idna_ToASCII filepath_Join cfg env zoneInput st
  = match NormalizeZone To_LowerCase idna_ToASCII zoneInput with
    | Err err => (Some (Wrap "invalid zone name" err), st)
    | Ok zone =>
      let lockPath := LockFilePath filepath_Join cfg zone in
      match flock env lockPath with
      | Some err =>
        (Some (Wrap "failed to acquire zone lock" err),
         mkState (files st) (locks st) (events st ++ [LockAcquire lockPath])
                 (changes st))
      | None =>
        let locked :=
          mkState (files st) (lockPath :: locks st)
                  (events st ++ [LockAcquire lockPath]) (changes st) in
        let done :=
          DeleteZone_locked To_LowerCase filepath_Join cfg env zone locked in
        (fst done,
         mkState (files (snd done)) (without lockPath (locks (snd done)))
                 (events (snd done) ++ [LockRelease lockPath])
                 (changes (snd done)))
      end
    end.
Proof.
  unfold DeleteZone.
  destruct (NormalizeZone To_LowerCase idna_ToASCII zoneInput) as [zone|err];
    [|reflexivity].
  unfold bind at 1. rewrite Lock_Acquire_run.
  destruct (flock env (LockFilePath filepath_Join cfg zone)) as [err|];
    [reflexivity|].
  unfold bind at 1.
  destruct (DeleteZone_locked To_LowerCase filepath_Join cfg env zone _) as [r st'].
  reflexivity.
Qed.

(** C7. In every execution of DeleteZone that has the zone lock, the
    catalog PTR-delete update is sent first.  If sending it fails,
    DeleteZone returns that error: rndc is not called, no file is removed
    and no change is recorded.  Otherwise [catalog_updated] is recorded and
    [rndc delzone -clean] is called next; if that fails, DeleteZone returns
    its error and removes no file.  Otherwise [zone_deleted] is recorded,
    the zone file is removed with os.Remove, and DeleteZone returns no
    error whatever comes of that: when the system refuses the removal
    [zone_file_cleanup_failed] is recorded and the file stays, otherwise
    [zone_file_removed] is recorded.  Without the lock, or without a valid
    zone name, DeleteZone does none of this. *)
Theorem DeleteZone_catalog_first (zoneInput : gostring) (st : State) :
  let run := DeleteZone To_LowerCase idna_ToASCII filepath_Join cfg env zoneInput st in
  match NormalizeZone To_LowerCase idna_ToASCII zoneInput with
  | Err err => run = (Some (Wrap "invalid zone name" err), st)
  | Ok zone =>
    let lockPath := LockFilePath filepath_Join cfg zone in
    let path := ZoneFilePath filepath_Join cfg zone in
    let catalog := DnsUpdate (catalogDelete To_LowerCase cfg zone) in
    let delzone := Rndc (delzoneArgs zone) in
    let cleaned := fold_right without (files st) (named_cleans env zone) in
    match flock env lockPath with
    | Some err =>
      fst run = Some (Wrap "failed to acquire zone lock" err)
      /\ events (snd run) = events st ++ [LockAcquire lockPath]
      /\ changes (snd run) = changes st
      /\ files (snd run) = files st
    | None =>
      match exchange env (catalogDelete To_LowerCase cfg zone) with
      | Some e =>
        fst run = Some (Wrap "failed to remove from catalog"
                             (Wrap "failed to send catalog delete" e))
        /\ events (snd run)
           = events st ++ [LockAcquire lockPath; catalog; LockRelease lockPath]
        /\ changes (snd run) = changes st
        /\ files (snd run) = files st
      | None =>
        match rndc_run env (delzoneArgs zone) with
        | (_, stderr, Some e) =>
          fst run = Some (Wrap "failed to delete zone via RNDC"
                               (delZoneError (rndcErrMsg env stderr e) e))
          /\ events (snd run)
             = events st
               ++ [LockAcquire lockPath; catalog; delzone; LockRelease lockPath]
          /\ changes (snd run) = changes st ++ ["catalog_updated"%string]
          /\ files (snd run) = files st
        | (_, _, None) =>
          fst run = None
          /\ events (snd run)
             = events st
               ++ [LockAcquire lockPath; catalog; delzone; Remove path;
                   LockRelease lockPath]
          /\ match unlink_fault env path with
             | Some _ =>
               changes (snd run)
               = changes st ++ ["catalog_updated"%string; "zone_deleted"%string;
                                "zone_file_cleanup_failed"%string]
               /\ files (snd run) = cleaned
             | None =>
               changes (snd run)
               = changes st ++ ["catalog_updated"%string; "zone_deleted"%string;
                                "zone_file_removed"%string]
               /\ files (snd run) = without path cleaned
             end
        end
      end
    end
  end.
Proof.
  cbv zeta. rewrite DeleteZone_run.
  destruct (NormalizeZone To_LowerCase idna_ToASCII zoneInput) as [zone|err];
    [|reflexivity].
  cbv zeta.
  destruct (flock env (LockFilePath filepath_Join cfg zone)) as [err|].
  { cbn [fst snd events changes files]. repeat split. }
  rewrite DeleteZone_locked_run.
  destruct (exchange env (catalogDelete To_LowerCase cfg zone)) as [e|].
  { cbn [fst snd events changes files]. rewrite <- !app_assoc. repeat split. }
  destruct (rndc_run env (delzoneArgs zone)) as [[out stderr] [e|]].
  { cbn [fst snd events changes files]. rewrite <- !app_assoc. repeat split. }
  cbv zeta. cbn [fst snd events changes files]. rewrite <- !app_assoc.
  split; [reflexivity|]. split; [reflexivity|].
  unfold unlinked. destruct (unlink_fault env _); split; reflexivity.
Qed.

(** C10, amended. RemoveZoneFile returns an error only when os.Remove fails
    with an error other than not-exist, and then wraps that error.  For a
    file that does not exist it returns nil when os.Remove answers
    not-exist, and the error when the system answers otherwise, as it does
    where a part of the path is not a directory.  So in a DeleteZone that
    gets as far as removing the file, a zone file that is already absent
    (named removed it on [delzone -clean], or it never was there) is recorded
    as [zone_file_removed] in the first case and as
    [zone_file_cleanup_failed] in the second; DeleteZone returns no error in
    either. *)
Theorem RemoveZoneFile_not_exist_is_success (path : gostring) (st : State) :
  (forall err,
      fst (RemoveZoneFile env path st) = Some err
      <-> exists cause,
          fst (os_Remove env path st) = Some cause
          /\ IsNotExist cause = false
          /\ err = Wrap "failed to remove zone file" cause)
  /\ (hasFile path (files st) = false ->
      files (snd (RemoveZoneFile env path st)) = files st
      /\ match unlink_fault env path with
         | None =>
           fst (os_Remove env path st) = Some (PathError "remove" path ENOENT)
           /\ fst (RemoveZoneFile env path st) = None
         | Some f =>
           fst (os_Remove env path st)
           = Some (PathError "remove" path (errnoOf f))
           /\ fst (RemoveZoneFile env path st)
              = Some (Wrap "failed to remove zone file"
                           (PathError "remove" path (errnoOf f)))
         end)
  /\ (forall zoneInput zone,
        NormalizeZone To_LowerCase idna_ToASCII zoneInput = Ok zone ->
        flock env (LockFilePath filepath_Join cfg zone) = None ->
        exchange env (catalogDelete To_LowerCase cfg zone) = None ->
        snd (rndc_run env (delzoneArgs zone)) = None ->
        hasFile (ZoneFilePath filepath_Join cfg zone)
                (fold_right without (files st) (named_cleans env zone)) = false ->
        let run :=
          DeleteZone To_LowerCase idna_ToASCII filepath_Join cfg env zoneInput st in
        fst run = None
        /\ changes (snd run)
           = changes st
             ++ ["catalog_updated"%string; "zone_deleted"%string;
                 match unlink_fault env (ZoneFilePath filepath_Join cfg zone) with
                 | None => "zone_file_removed"%string
                 | Some _ => "zone_file_cleanup_failed"%string
                 end]).
Proof.
  split; [|split].
  - intros err. rewrite RemoveZoneFile_cases, os_Remove_cases. cbn [fst].
    destruct (unlink_fault env path) as [f|].
    + split.
      * intros [= <-]. eexists. split; [reflexivity|].
        split; [now destruct f|reflexivity].
      * intros [cause [[= <-] [_ ->]]]. reflexivity.
    + split; [discriminate|]. intros [cause [H [Hne _]]].
      destruct (hasFile path (files st)); [discriminate H|].
      injection H as <-. discriminate Hne.
  - intros H. rewrite RemoveZoneFile_cases, os_Remove_cases.
    cbn [fst snd files]. unfold unlinked. rewrite H.
    destruct (unlink_fault env path);
      [|rewrite (without_absent path (files st) H)]; repeat split.
  - intros zoneInput zone Hz Hlock Hex Hrndc Habsent run. unfold run.
    rewrite DeleteZone_run, Hz. cbv zeta. rewrite Hlock.
    rewrite DeleteZone_locked_run, Hex.
    destruct (rndc_run env (delzoneArgs zone)) as [[out stderr] err].
    cbn [snd] in Hrndc. subst err. cbv zeta. cbn [fst snd changes].
    split; [reflexivity|].
    destruct (unlink_fault env _); reflexivity.
Qed.

(** *** CreateZone *)

Lemma buildZoneConfig_nonempty (path : gostring) :
  eqb_str (buildZoneConfig cfg path) [] = false.
Proof. reflexivity. Qed.

Lemma AddZone_run (zone path : gostring) (st : State) :
  AddZone env zone (buildZoneConfig cfg path) st
  = let '(_, stderr, err) :=
        rndc_run env (addzoneArgs zone (buildZoneConfig cfg path)) in
    (match err with
     | Some err => Some (addZoneError (rndcErrMsg env stderr err) err)
     | None => None
     end,
     mkState (files st) (locks st)
             (events st ++ [Rndc (addzoneArgs zone (buildZoneConfig cfg path))])
             (changes st)).
Proof.
  unfold AddZone. rewrite buildZoneConfig_nonempty.
  unfold bind at 1. rewrite rndc_run_eq.
  unfold addzoneArgs, addZoneError, rndcErrMsg.
  destruct (rndc_run env _) as [[out stderr] [err|]]; [|reflexivity].
  cbv zeta. destruct (Contains _ (str "already exists")); reflexivity.
Qed.

Lemma BuildPTRUpdate_catalogUpsert (zone : gostring) :
  update.BuildPTRUpdate (Catalog_Zone cfg) zone (SHA1WireLabel To_LowerCase zone) 60
  = Ok (catalogUpsert To_LowerCase cfg zone).
Proof. reflexivity. Qed.

Lemma ensureCatalogMembership_run (zone : gostring) (st : State) :
  ensureCatalogMembership To_LowerCase cfg env zone st
  = (match exchange env (catalogUpsert To_LowerCase cfg zone) with
     | Some err => Some (Wrap "failed to send catalog update" err)
     | None => None
     end,
     mkState (files st) (locks st)
             (events st ++ [DnsUpdate (catalogUpsert To_LowerCase cfg zone)])
             (match exchange env (catalogUpsert To_LowerCase cfg zone) with
              | Some _ => changes st
              | None => changes st ++ ["catalog_updated"%string]
              end)).
Proof.
  unfold ensureCatalogMembership. rewrite BuildPTRUpdate_catalogUpsert.
  unfold bind at 1. rewrite Update_run.
  destruct (exchange env (catalogUpsert To_LowerCase cfg zone)); reflexivity.
Qed.

(** Steps 7 to 9 of CreateZone by cases: AddZone fails, the catalog update
    fails, or both succeed. *)
Lemma CreateZone_register_run (zone path : gostring) (st : State) :
  CreateZone_register To_LowerCase cfg env zone path st
  = let config := buildZoneConfig cfg path in
    let '(_, stderr, err) := rndc_run env (addzoneArgs zone config) in
    match err with
    | Some e =>
      (Some (Wrap "failed to add zone via RNDC"
                  (addZoneError (rndcErrMsg env stderr e) e)),
       mkState (unlinked env path (files st)) (locks st)
               (events st ++ [Rndc (addzoneArgs zone config); Remove path])
               (changes st))
    | None =>
      match exchange env (catalogUpsert To_LowerCase cfg zone) with
      | Some e =>
        (Some (Wrap "failed to update catalog zone"
                    (Wrap "failed to send catalog update" e)),
         mkState
           (unlinked env path
              (match snd (rndc_run env (delzoneArgs zone)) with
               | Some _ => files st
               | None => fold_right without (files st) (named_cleans env zone)
               end))
           (locks st)
           (events st ++ [Rndc (addzoneArgs zone config);
                          DnsUpdate (catalogUpsert To_LowerCase cfg zone);
                          Rndc (delzoneArgs zone); Remove path])
           (changes st ++ ["zone_added"%string]))
      | None =>
        (None,
         mkState (files st) (locks st)
                 (events st ++ [Rndc (addzoneArgs zone config);
                                DnsUpdate (catalogUpsert To_LowerCase cfg zone)])
                 (changes st ++ ["zone_added"%string; "catalog_updated"%string]))
      end
    end.
Proof.
  unfold CreateZone_register. cbv zeta. unfold bind at 1. rewrite AddZone_run.
  destruct (rndc_run env (addzoneArgs zone (buildZoneConfig cfg path)))
    as [[out stderr] [e|]].
  - unfold bind at 1.
    rewrite (surjective_pairing (RemoveZoneFile env path _)).
    rewrite RemoveZoneFile_files. cbn [files locks events changes].
    rewrite <- app_assoc. reflexivity.
  - unfold bind at 1. unfold appendChange at 1. unfold bind at 1.
    rewrite ensureCatalogMembership_run. cbn [files locks events changes].
    destruct (exchange env (catalogUpsert To_LowerCase cfg zone)) as [e|].
    + unfold bind at 1. rewrite DelZone_clean_run. fold (delzoneArgs zone).
      destruct (rndc_run env (delzoneArgs zone)) as [[out' stderr'] err'].
      cbn [snd]. unfold bind at 1.
      rewrite (surjective_pairing (RemoveZoneFile env path _)).
      rewrite RemoveZoneFile_files. cbn [files locks events changes].
      rewrite <- !app_assoc. reflexivity.
    + unfold ret. rewrite <- !app_assoc. reflexivity.
Qed.

(** The steps before the registration make calls and may write files; they
    take no lock and record no change. *)
Lemma EnsureDirs_onlyCalls (st : State) :
  onlyCalls st (snd (EnsureDirs cfg env st)).
Proof.
  unfold EnsureDirs, onlyCalls. run_monad.
  destruct (mkdirAll env (Zones_Dir cfg)); cbn [snd locks changes events].
  - repeat split. eexists; reflexivity.
  - destruct (mkdirAll env (Locking_Dir cfg)); cbn [snd locks changes events];
      repeat split; rewrite <- app_assoc; eexists; reflexivity.
Qed.

Lemma ZoneStatus_onlyCalls (zone : gostring) (st : State) :
  onlyCalls st (snd (ZoneStatus env zone st)).
Proof.
  unfold ZoneStatus, rndc, onlyCalls. run_monad.
  destruct (rndc_run env _) as [[out stderr] [err|]].
  - cbv zeta.
    destruct (Contains _ (str "not found") || Contains _ (str "no such zone"));
      cbn [snd locks changes events]; repeat split; eexists; reflexivity.
  - cbn [snd locks changes events]. repeat split. eexists; reflexivity.
Qed.

Lemma WriteZoneFile_onlyCalls (path : gostring) (data : ZoneFileData)
      (owner group : gostring) (st : State) :
  onlyCalls st (snd (WriteZoneFile env path data owner group st)).
Proof.
  unfold WriteZoneFile, onlyCalls.
  destruct (GenerateZoneFile env data) as [content|e].
  2: { cbn [snd ret]. repeat split. exists []. now rewrite app_nil_r. }
  run_monad.
  destruct (writeFile env _); cbn [snd locks changes events].
  { repeat split. eexists; reflexivity. }
  destruct (open env _); cbn [snd locks changes events].
  { repeat split. rewrite <- !app_assoc. eexists; reflexivity. }
  destruct (sync env _); cbn [snd locks changes events].
  { repeat split. rewrite <- !app_assoc. eexists; reflexivity. }
  destruct (rename env _ _); cbn [snd locks changes events];
    repeat split; rewrite <- !app_assoc; eexists; reflexivity.
Qed.

Lemma onlyCalls_trans (a b c : State) :
  onlyCalls a b -> onlyCalls b c -> onlyCalls a c.
Proof.
  intros (Hl1 & Hc1 & es1 & He1) (Hl2 & Hc2 & es2 & He2).
  repeat split; try congruence.
  exists (es1 ++ es2). rewrite He2, He1. now rewrite app_assoc.
Qed.

Lemma no_new_change (cs : list string) (newChanges : list string) (c : string) :
  cs = cs ++ newChanges -> In c newChanges -> False.
Proof.
  intros H Hin. rewrite <- (app_nil_r cs) in H at 1.
  apply app_inv_head in H. subst. destruct Hin.
Qed.

(** C3, amended. For every execution of CreateZone that returns an error
    after the stub zone file has been written ([zone_file_created] is
    recorded): either AddZone failed, and RemoveZoneFile is called on the
    zone file before the error is returned; or AddZone succeeded and sending
    the catalog update failed, and [rndc delzone -clean] and then
    RemoveZoneFile are called before the catalog error is returned.  The
    results of these calls are discarded; the zone file is gone on return
    unless the system refused to unlink it. *)
Theorem CreateZone_failure_cleanup
        (zoneInput : gostring) (st st' : State) (err : error)
        (newChanges : list string) :
  CreateZone To_LowerCase idna_ToASCII filepath_Join now cfg env zoneInput st
  = (Some err, st') ->
  changes st' = changes st ++ newChanges ->
  In "zone_file_created"%string newChanges ->
  exists zone earlier,
    NormalizeZone To_LowerCase idna_ToASCII zoneInput = Ok zone
    /\ (let path := ZoneFilePath filepath_Join cfg zone in
        let lockPath := LockFilePath filepath_Join cfg zone in
        let addzone := Rndc (addzoneArgs zone (buildZoneConfig cfg path)) in
        let upsert := DnsUpdate (catalogUpsert To_LowerCase cfg zone) in
        ((exists cause,
             err = Wrap "failed to add zone via RNDC" cause
             /\ newChanges = ["zone_file_created"%string]
             /\ events st'
                = events st ++ earlier
                  ++ [addzone; Remove path; LockRelease lockPath])
         \/ (exists cause,
                err = Wrap "failed to update catalog zone"
                           (Wrap "failed to send catalog update" cause)
                /\ exchange env (catalogUpsert To_LowerCase cfg zone) = Some cause
                /\ newChanges = ["zone_file_created"%string; "zone_added"%string]
                /\ events st'
                   = events st ++ earlier
                     ++ [addzone; upsert; Rndc (delzoneArgs zone); Remove path;
                         LockRelease lockPath]))
        /\ (unlink_fault env path = None -> hasFile path (files st') = false)).
Proof.
  unfold CreateZone.
  destruct (NormalizeZone To_LowerCase idna_ToASCII zoneInput) as [zone|e].
  2: { unfold ret. intros [= <- <-] Hch Hin.
       destruct (no_new_change _ _ _ Hch Hin). }
  unfold bind at 1. rewrite Lock_Acquire_run.
  destruct (flock env (LockFilePath filepath_Join cfg zone)) as [e|].
  { unfold ret. intros [= <- <-] Hch Hin. cbn [changes] in Hch.
    destruct (no_new_change _ _ _ Hch Hin). }
  unfold bind at 1.
  set (locked := mkState (files st) _ _ (changes st)).
  destruct (CreateZone_locked To_LowerCase filepath_Join now cfg env zone locked)
    as [r st1] eqn:Hrun.
  unfold bind at 1. rewrite Lock_Release_run. unfold ret.
  intros [= -> <-] Hch Hin. cbn [changes events files] in *.
  unfold CreateZone_locked in Hrun. unfold bind at 1 in Hrun.
  pose proof (EnsureDirs_onlyCalls locked) as F1.
  destruct (EnsureDirs cfg env locked) as [r1 s1]. cbn [snd] in F1.
  destruct r1 as [e1|].
  { unfold ret in Hrun. injection Hrun as _ <-.
    destruct F1 as (_ & F1 & _). rewrite F1 in Hch.
    destruct (no_new_change _ _ _ Hch Hin). }
  unfold bind at 1 in Hrun.
  pose proof (ZoneStatus_onlyCalls zone s1) as F2.
  destruct (ZoneStatus env zone s1) as [[exists_ zerr] s2]. cbn [snd] in F2.
  pose proof (onlyCalls_trans _ _ _ F1 F2) as F12. clear F1 F2.
  destruct ((match zerr with None => true | Some _ => false end) && exists_).
  { unfold bind at 1, appendChange at 1 in Hrun.
    rewrite ensureCatalogMembership_run in Hrun.
    cbn [files locks events changes] in Hrun.
    destruct F12 as (_ & F & _).
    injection Hrun as _ <-. cbn [changes] in Hch. rewrite F in Hch.
    cbn [changes locked] in Hch. exfalso.
    destruct (exchange env _); rewrite <- ?app_assoc in Hch;
      apply app_inv_head in Hch; subst newChanges; cbn in Hin;
      repeat (destruct Hin as [Hin|Hin]; [discriminate Hin|]); exact Hin. }
  unfold bind at 1 in Hrun.
  pose proof (WriteZoneFile_onlyCalls (ZoneFilePath filepath_Join cfg zone)
                (DefaultZoneFileData now zone) (Zones_FileOwner cfg)
                (Zones_FileGroup cfg) s2) as F3.
  destruct (WriteZoneFile env _ _ _ _ s2) as [r3 s3]. cbn [snd] in F3.
  pose proof (onlyCalls_trans _ _ _ F12 F3) as F. clear F12 F3.
  destruct F as (Fl & Fc & es & Fe). cbn [locked locks changes events] in Fl, Fc, Fe.
  destruct r3 as [e3|].
  { unfold ret in Hrun. injection Hrun as _ <-. rewrite Fc in Hch.
    destruct (no_new_change _ _ _ Hch Hin). }
  unfold bind at 1, appendChange at 1 in Hrun.
  rewrite CreateZone_register_run in Hrun. cbv zeta in Hrun.
  cbn [files locks events changes] in Hrun.
  exists zone, (LockAcquire (LockFilePath filepath_Join cfg zone) :: es).
  split; [reflexivity|]. cbv zeta.
  destruct (rndc_run env (addzoneArgs zone _)) as [[out stderr] [e|]].
  - injection Hrun as <- <-. cbn [files locks events changes] in *.
    rewrite Fc in Hch. apply app_inv_head in Hch. subst newChanges.
    split.
    + left. eexists. split; [reflexivity|]. split; [reflexivity|].
      rewrite Fe, <- !app_assoc. reflexivity.
    + apply unlinked_gone.
  - destruct (exchange env (catalogUpsert To_LowerCase cfg zone)) as [e|] eqn:Hex.
    + injection Hrun as <- <-. cbn [files locks events changes] in *.
      rewrite Fc, <- app_assoc in Hch. apply app_inv_head in Hch. subst newChanges.
      split.
      * right. eexists. split; [reflexivity|]. split; [reflexivity|].
        split; [reflexivity|].
        rewrite Fe, <- !app_assoc. reflexivity.
      * apply unlinked_gone.
    + discriminate Hrun.
Qed.

End LifecycleFacts.

(** The theorem for [example.com] where the lock is free, the catalog update
    and [rndc delzone -clean] succeed, named leaves the zone file and the
    system refuses to unlink it: DeleteZone returns no error, the calls come
    in the order catalog update, rndc, os.Remove, the warning is recorded
    and the file is still there. *)
Lemma DeleteZone_catalog_first_witness :
  let path := str "/var/lib/bind/zones/example.com.db" in
  let lockPath := str "/var/lock/dnsctl/zone--example.com.lock" in
  let run :=
    DeleteZone noCaseAboveASCII idnaIdentity joinWithSlash exampleConfig
               (allSucceed [] (Some Denied)) (str "example.com")
               (mkState [path] [] [] []) in
  fst run = None
  /\ events (snd run)
     = [LockAcquire lockPath;
        DnsUpdate (catalogDelete noCaseAboveASCII exampleConfig (str "example.com."));
        Rndc [str "delzone"; str "-clean"; str "example.com."];
        Remove path;
        LockRelease lockPath]
  /\ changes (snd run)
     = ["catalog_updated"%string; "zone_deleted"%string;
        "zone_file_cleanup_failed"%string]
  /\ files (snd run) = [path].
Proof.
  exact (DeleteZone_catalog_first noCaseAboveASCII idnaIdentity joinWithSlash
           exampleConfig (allSucceed [] (Some Denied)) (str "example.com")
           (mkState [str "/var/lib/bind/zones/example.com.db"] [] [] [])).
Defined.

(** C10, as stated, fails where the system answers other than not-exist for
    a file that is not there.  No file exists, and [unlink] answers ENOTDIR,
    as it does when [/var/lib/bind/zones] is a file and not a directory:
    os.Remove returns that error, which is not a not-exist error, so
    RemoveZoneFile returns an error for an absent file, and DeleteZone, with
    the catalog update and [rndc delzone] succeeding, records
    [zone_file_cleanup_failed] and not [zone_file_removed]. *)
Lemma RemoveZoneFile_absent_fails :
  let path := str "/var/lib/bind/zones/example.com.db" in
  let env := allSucceed [] (Some NotADirectory) in
  let run :=
    DeleteZone noCaseAboveASCII idnaIdentity joinWithSlash exampleConfig env
               (str "example.com") emptyState in
  hasFile path (files emptyState) = false
  /\ fst (os_Remove env path emptyState) = Some (PathError "remove" path ENOTDIR)
  /\ IsNotExist (PathError "remove" path ENOTDIR) = false
  /\ fst (RemoveZoneFile env path emptyState)
     = Some (Wrap "failed to remove zone file" (PathError "remove" path ENOTDIR))
  /\ fst run = None
  /\ In (Remove path) (events (snd run))
  /\ changes (snd run)
     = ["catalog_updated"%string; "zone_deleted"%string;
        "zone_file_cleanup_failed"%string].
Proof.
  cbv zeta.
  split; [reflexivity|].
  split; [vm_compute; reflexivity|].
  split; [reflexivity|].
  split; [vm_compute; reflexivity|].
  split; [vm_compute; reflexivity|].
  split; [vm_compute; tauto|].
  vm_compute; reflexivity.
Qed.

(** The theorem for [example.com] where named removes the zone file on
    [delzone -clean] and [unlink] then answers not-exist: DeleteZone returns
    no error and records [zone_file_removed]. *)
Lemma RemoveZoneFile_not_exist_is_success_witness :
  let path := str "/var/lib/bind/zones/example.com.db" in
  let st := mkState [path] [] [] [] in
  let env := allSucceed [path] None in
  let run :=
    DeleteZone noCaseAboveASCII idnaIdentity joinWithSlash exampleConfig env
               (str "example.com") st in
  hasFile path (files st) = true
  /\ fst run = None
  /\ changes (snd run)
     = ["catalog_updated"%string; "zone_deleted"%string;
        "zone_file_removed"%string].
Proof.
  cbv zeta. split; [reflexivity|].
  exact (proj2 (proj2
           (RemoveZoneFile_not_exist_is_success noCaseAboveASCII idnaIdentity
              joinWithSlash exampleConfig
              (allSucceed [str "/var/lib/bind/zones/example.com.db"] None)
              (str "/var/lib/bind/zones/example.com.db")
              (mkState [str "/var/lib/bind/zones/example.com.db"] [] [] [])))
           (str "example.com") (str "example.com.")
           eq_refl eq_refl eq_refl eq_refl eq_refl).
Defined.

(** C3, as stated, fails where the removal itself fails: named does not know
    [example.com.], the stub file is written, [rndc addzone] fails, the
    system refuses to unlink the file; CreateZone calls os.Remove, discards
    its error and returns the AddZone error, and the zone file it created is
    still there. *)
Lemma CreateZone_leaves_file :
  let run :=
    CreateZone noCaseAboveASCII idnaIdentity joinWithSlash (mkTime 2026 10 31)
               exampleConfig (addzoneFails (Some Denied)) (str "example.com")
               emptyState in
  fst run = Some (Wrap "failed to add zone via RNDC"
                       (Wrap "failed to add zone" exitStatus1))
  /\ changes (snd run) = ["zone_file_created"%string]
  /\ In (Remove (str "/var/lib/bind/zones/example.com.db")) (events (snd run))
  /\ hasFile (str "/var/lib/bind/zones/example.com.db") (files emptyState) = false
  /\ hasFile (str "/var/lib/bind/zones/example.com.db") (files (snd run)) = true.
Proof.
  cbv zeta.
  split; [vm_compute; reflexivity|].
  split; [vm_compute; reflexivity|].
  split; [vm_compute; tauto|].
  split; vm_compute; reflexivity.
Qed.

(** The theorem where [rndc addzone] fails and the file can be unlinked: the
    zone file written by CreateZone is gone when the error is returned. *)
Lemma CreateZone_failure_cleanup_witness :
  let run :=
    CreateZone noCaseAboveASCII idnaIdentity joinWithSlash (mkTime 2026 10 31)
               exampleConfig (addzoneFails None) (str "example.com")
               emptyState in
  fst run = Some (Wrap "failed to add zone via RNDC"
                       (Wrap "failed to add zone" exitStatus1))
  /\ In "zone_file_created"%string (changes (snd run))
  /\ hasFile (str "/var/lib/bind/zones/example.com.db") (files (snd run)) = false.
Proof.
  cbv zeta.
  split; [vm_compute; reflexivity|].
  split; [vm_compute; tauto|].
  set (run := CreateZone noCaseAboveASCII idnaIdentity joinWithSlash
                         (mkTime 2026 10 31) exampleConfig (addzoneFails None)
                         (str "example.com") emptyState).
  assert (Hrun : run = (Some (Wrap "failed to add zone via RNDC"
                                   (Wrap "failed to add zone" exitStatus1)),
                        snd run))
    by (vm_compute; reflexivity).
  assert (Hch : changes (snd run) = changes emptyState ++ changes (snd run))
    by reflexivity.
  assert (Hin : In "zone_file_created"%string (changes (snd run)))
    by (vm_compute; tauto).
  destruct (CreateZone_failure_cleanup noCaseAboveASCII idnaIdentity joinWithSlash
              (mkTime 2026 10 31) exampleConfig (addzoneFails None)
              (str "example.com") emptyState (snd run) _ _ Hrun Hch Hin)
    as (zone & earlier & Hz & _ & Hgone).
  assert (Hzone : zone = str "example.com.").
  { vm_compute in Hz. injection Hz as <-. reflexivity. }
  subst zone. exact (Hgone eq_refl).
Defined.

(** * Further properties *)

(** ** NormalizeZone and NormalizeOwner on their own results *)

Lemma runes_ascii (l : gostring) : asciiBytes l -> runes l = l.
Proof.
  unfold runes. induction 1 as [|c l Hc Hl IH]; [reflexivity|].
  cbn [length runesOf]. rewrite DecodeRuneInString_ascii by lia.
  unfold sliceFrom. cbn [skipn]. now rewrite IH.
Qed.

Lemma canonicalLabel_ascii (label : gostring) :
  canonicalLabel label = true -> asciiBytes label.
Proof.
  unfold canonicalLabel. intros H.
  apply andb_true_iff in H as [H _]. apply andb_true_iff in H as [_ H].
  apply Forall_forall. intros c Hc. rewrite forallb_forall in H.
  specialize (H c Hc). apply isDNSLabelChar_lower in H. lia.
Qed.

Lemma canonical_checkLabels (i : nat) (labels : list gostring) :
  forallb canonicalLabel labels = true -> checkLabels i labels = None.
Proof.
  revert i. induction labels as [|label rest IH]; intros i; [reflexivity|].
  cbn [forallb checkLabels]. intros H. apply andb_true_iff in H as [Hl Hrest].
  pose proof (canonicalLabel_ascii label Hl) as Ha.
  unfold canonicalLabel in Hl.
  apply andb_true_iff in Hl as [Hl Hhyph].
  apply andb_true_iff in Hl as [Hl Hchars].
  apply andb_true_iff in Hl as [Hne Hlen].
  apply negb_true_iff in Hne. rewrite Hne.
  apply Nat.leb_le in Hlen.
  destruct (Nat.ltb_spec maxLabelLength (length label)); [lia|].
  rewrite (runes_ascii label Ha), Hchars. cbn [negb].
  apply negb_true_iff in Hhyph. rewrite Hhyph.
  now apply IH.
Qed.

Lemma splitAcc_nonempty (sep : Z) (s cur : gostring) : splitAcc sep s cur <> [].
Proof.
  revert cur. induction s as [|c s IH]; intros cur; simpl; [discriminate|].
  destruct (c =? sep); [discriminate|apply IH].
Qed.

(** X2. NormalizeZone returns a canonical zone apex as it is, when the IDNA
    profile maps it to itself. *)
Theorem NormalizeZone_fixpoint
        (To_LowerCase : Z -> Z) (idna_ToASCII : gostring -> result gostring)
        (z : gostring) :
  canonicalZone z = true ->
  idna_ToASCII z = Ok z ->
  NormalizeZone To_LowerCase idna_ToASCII z = Ok z.
Proof.
  intros Hz Hidna.
  pose proof (TrimSpace_nameText z (canonicalZone_nameText z Hz)) as Htrim.
  pose proof (canonicalZone_dot z Hz) as Hdot.
  unfold NormalizeZone.
  rewrite Htrim, (canonicalZone_lower To_LowerCase z Hz), Hidna, Hdot.
  cbn [negb].
  unfold canonicalZone in Hz.
  apply andb_true_iff in Hz as [Hz Hlab].
  apply andb_true_iff in Hz as [Hz Hne].
  apply andb_true_iff in Hz as [_ Hlen].
  apply Nat.leb_le in Hlen.
  destruct (Nat.ltb_spec maxDomainLength (length z)); [lia|].
  unfold dnsLabels. rewrite Htrim, Hdot.
  apply negb_true_iff in Hne. rewrite Hne.
  destruct (Split (sliceTo (length z - 1) z) 46) as [|l ls] eqn:Hs.
  { exfalso. exact (splitAcc_nonempty _ _ _ Hs). }
  cbn [length Nat.eqb].
  now rewrite (canonical_checkLabels 0 (l :: ls) Hlab).
Qed.

(** The theorem for [example.com.]. *)
Lemma NormalizeZone_fixpoint_witness :
  NormalizeZone noCaseAboveASCII idnaIdentity (str "example.com.")
  = Ok (str "example.com.").
Proof.
  apply NormalizeZone_fixpoint; reflexivity.
Defined.


(** ** TrimSpace on ASCII strings *)

Lemma TrimSpace_dot_end (s : gostring) :
  asciiBytes s -> startsUnspaced s -> TrimSpace (s ++ dot) = s ++ dot.
Proof.
  intros Ha Hh. destruct s as [|c t]; [reflexivity|].
  inversion Ha as [|? ? Hc Ht]; subst. cbn [startsUnspaced] in Hh.
  cbn [app TrimSpace]. rewrite Hh.
  unfold RuneSelf. destruct (Z.leb_spec 0x80 c); [lia|].
  change (c :: t ++ dot) with ((c :: t) ++ dot).
  rewrite rev_app_distr. change (rev dot) with [0x2E]. cbn [app trimSpaceStop].
  change (RuneSelf <=? 0x2E) with false. change (asciiSpace 0x2E) with false.
  cbv iota.
  change (rev (0x2E :: rev (c :: t))) with (rev (rev (c :: t)) ++ [0x2E]).
  rewrite rev_involutive. reflexivity.
Qed.

Lemma trimSpaceStop_last (r : gostring) (c : Z) :
  asciiBytes r -> 0 <= c < 0x80 -> asciiSpace c = false ->
  exists m, trimSpaceStop (r ++ [c]) = c :: m /\ asciiBytes m.
Proof.
  intros Hr Hc Hs. induction Hr as [|b r Hb Hr IH].
  - exists []. cbn [app trimSpaceStop]. rewrite Hs.
    unfold RuneSelf. destruct (Z.leb_spec 0x80 c); [lia|].
    split; [reflexivity|constructor].
  - cbn [app trimSpaceStop].
    unfold RuneSelf. destruct (Z.leb_spec 0x80 b); [lia|].
    destruct (asciiSpace b); [exact IH|].
    exists (rev r ++ [b]). split.
    + change (b :: r ++ [c]) with ((b :: r) ++ [c]).
      rewrite rev_app_distr. reflexivity.
    + apply Forall_app. split; [|repeat constructor; lia].
      apply Forall_rev. exact Hr.
Qed.

(** On an ASCII string TrimSpace leaves an ASCII string that is empty or
    starts with a byte that is not white space. *)
Lemma TrimSpace_ascii (s : gostring) :
  asciiBytes s -> asciiBytes (TrimSpace s) /\ startsUnspaced (TrimSpace s).
Proof.
  induction 1 as [|c s Hc Hs IH]; [split; [constructor|exact I]|].
  cbn [TrimSpace]. unfold RuneSelf. destruct (Z.leb_spec 0x80 c); [lia|].
  destruct (asciiSpace c) eqn:Hsp; [exact IH|].
  cbn [rev].
  destruct (trimSpaceStop_last (rev s) c (Forall_rev Hs) Hc Hsp) as [m [-> Hm]].
  split; [constructor; assumption|exact Hsp].
Qed.

Lemma lowerByte_space (c : Z) : asciiSpace (lowerByte c) = asciiSpace c.
Proof.
  unfold lowerByte, isUpperByte, asciiSpace.
  destruct (Z.leb_spec 0x41 c); destruct (Z.leb_spec c 0x5A); cbn [andb];
    try reflexivity.
  repeat match goal with
         | |- context [?a <=? ?b] => destruct (Z.leb_spec a b)
         | |- context [?a =? ?b] => destruct (Z.eqb_spec a b)
         end; cbn; try reflexivity; lia.
Qed.

Lemma map_lowerByte_ascii (s : gostring) :
  asciiBytes s -> asciiBytes (List.map lowerByte s).
Proof.
  induction 1 as [|c s Hc Hs IH]; [constructor|].
  cbn [List.map]. constructor; [now apply lowerByte_ascii|exact IH].
Qed.

Lemma map_lowerByte_idem (s : gostring) :
  List.map lowerByte (List.map lowerByte s) = List.map lowerByte s.
Proof.
  induction s as [|c s IH]; [reflexivity|].
  cbn [List.map]. now rewrite lowerByte_idem, IH.
Qed.

Lemma map_lowerByte_unspaced (s : gostring) :
  startsUnspaced s -> startsUnspaced (List.map lowerByte s).
Proof.
  destruct s as [|c s]; [intros; exact I|]. cbn [List.map startsUnspaced].
  now rewrite lowerByte_space.
Qed.

Section OwnerIdempotence.

Variable To_LowerCase : Z -> Z.

(** A lower-case ASCII name that ends with a dot, starts with no white
    space and has the zone for a suffix is what NormalizeOwner returns for
    it. *)
Lemma NormalizeOwner_fixed (s z : gostring) :
  canonicalZone z = true ->
  asciiBytes s -> List.map lowerByte s = s -> startsUnspaced s ->
  HasSuffix (s ++ dot) z = true ->
  NormalizeOwner To_LowerCase (s ++ dot) z = Ok (s ++ dot).
Proof.
  intros Hz Ha Hl Hh Hsuf.
  assert (Hlow : ToLower To_LowerCase (s ++ dot) = s ++ dot).
  { rewrite ToLower_ascii.
    - now rewrite map_app, Hl.
    - apply Forall_app. split; [exact Ha|repeat constructor; lia]. }
  rewrite NormalizeOwner_absolute_eq;
    rewrite (TrimSpace_dot_end s Ha Hh); [|apply HasSuffix_app].
  now rewrite Hlow, (canonicalZone_lower To_LowerCase z Hz), Hsuf.
Qed.

(** What NormalizeOwner returns for ASCII input and a canonical zone: a
    lower-case ASCII name that ends with a dot, starts with no white space
    and has the zone for a suffix. *)
Lemma NormalizeOwner_shape (input z owner : gostring) :
  asciiBytes input ->
  canonicalZone z = true ->
  NormalizeOwner To_LowerCase input z = Ok owner ->
  exists s, owner = s ++ dot /\ asciiBytes s /\ List.map lowerByte s = s
            /\ startsUnspaced s /\ HasSuffix (s ++ dot) z = true.
Proof.
  intros Hin Hz.
  destruct (TrimSpace_ascii input Hin) as [Ha Hh].
  destruct (canonicalZone_shape z Hz) as [name [Ez [Hname Hall]]].
  destruct (canonicalZone_ascii z Hz) as [Hza Hzl].
  assert (Hna : asciiBytes name /\ List.map lowerByte name = name).
  { rewrite Ez in Hza, Hzl. apply Forall_app in Hza as [Hna _].
    split; [exact Hna|]. rewrite map_app in Hzl.
    now apply app_inv_tail in Hzl. }
  destruct Hna as [Hna Hnl].
  intros Hrun. unfold NormalizeOwner in Hrun.
  destruct (eqb_str (TrimSpace input) (str "@")) eqn:Hat.
  - injection Hrun as <-. exists name. split; [exact Ez|].
    split; [exact Hna|]. split; [exact Hnl|]. split.
    + destruct name as [|c name']; [exact I|].
      pose proof (Forall_inv Hall) as Hc. cbv beta in Hc.
      cbn [startsUnspaced].
      destruct Hc as [Hc|Hc]; [|rewrite Hc; reflexivity].
      unfold isDNSLabelChar in Hc. unfold asciiSpace.
      repeat (apply orb_true_iff in Hc as [Hc|Hc]);
        repeat (apply andb_true_iff in Hc as [? Hc]);
        repeat match goal with
               | H : (_ <=? _) = true |- _ => apply Z.leb_le in H
               | H : (_ =? _) = true |- _ => apply Z.eqb_eq in H
               end;
        repeat match goal with
               | |- context [?a <=? ?b] => destruct (Z.leb_spec a b)
               | |- context [?a =? ?b] => destruct (Z.eqb_spec a b)
               end; cbn; try reflexivity; lia.
    + rewrite <- Ez. apply HasSuffix_refl.
  - destruct (HasSuffix (TrimSpace input) dot) eqn:Hd.
    + rewrite (canonicalZone_lower To_LowerCase z Hz) in Hrun.
      rewrite (ToLower_ascii To_LowerCase _ Ha) in Hrun.
      destruct (HasSuffix (List.map lowerByte (TrimSpace input)) z) eqn:Hsuf;
        cbn [negb] in Hrun; [|discriminate].
      injection Hrun as <-.
      apply HasSuffix_iff in Hd as [p Ep]. rewrite Ep in *.
      rewrite map_app in *. change (List.map lowerByte dot) with dot in *.
      apply Forall_app in Ha as [Hpa _].
      exists (List.map lowerByte p). split; [reflexivity|].
      split; [now apply map_lowerByte_ascii|].
      split; [apply map_lowerByte_idem|].
      split; [|exact Hsuf].
      apply map_lowerByte_unspaced. destruct p; [exact I|exact Hh].
    + rewrite (ToLower_relative To_LowerCase _ z Hz) in Hrun.
      rewrite (ToLower_ascii To_LowerCase _ Ha) in Hrun.
      exists (List.map lowerByte (TrimSpace input) ++ dot ++ name).
      split; [injection Hrun as <-; rewrite Ez, <- !app_assoc; reflexivity|].
      split.
      { apply Forall_app. split; [now apply map_lowerByte_ascii|].
        apply Forall_app. split; [repeat constructor; lia|exact Hna]. }
      split; [rewrite !map_app, map_lowerByte_idem, Hnl; reflexivity|].
      split.
      { destruct (TrimSpace input) as [|c t]; [reflexivity|].
        cbn [List.map app startsUnspaced]. now rewrite lowerByte_space. }
      rewrite Ez, <- !app_assoc.
      replace (List.map lowerByte (TrimSpace input) ++ dot ++ name ++ dot)
        with ((List.map lowerByte (TrimSpace input) ++ dot) ++ (name ++ dot))
        by (now rewrite <- !app_assoc).
      apply HasSuffix_app.
Qed.

(** X3. NormalizeOwner is idempotent on ASCII input: the owner it returns
    for a canonical zone, it returns again when it is given that owner. *)
Theorem NormalizeOwner_idempotent (input z owner : gostring) :
  asciiBytes input ->
  canonicalZone z = true ->
  NormalizeOwner To_LowerCase input z = Ok owner ->
  NormalizeOwner To_LowerCase owner z = Ok owner.
Proof.
  intros Hin Hz Hrun.
  destruct (NormalizeOwner_shape input z owner Hin Hz Hrun)
    as (s & -> & Ha & Hl & Hh & Hsuf).
  now apply NormalizeOwner_fixed.
Qed.

End OwnerIdempotence.

(** The theorem for the owner [WWW] in [example.com.]. *)
Lemma NormalizeOwner_idempotent_witness :
  NormalizeOwner noCaseAboveASCII (str "WWW") (str "example.com.")
  = Ok (str "www.example.com.")
  /\ NormalizeOwner noCaseAboveASCII (str "www.example.com.") (str "example.com.")
     = Ok (str "www.example.com.").
Proof.
  split; [reflexivity|].
  apply (NormalizeOwner_idempotent noCaseAboveASCII (str "WWW")).
  - apply isNameText_ascii. reflexivity.
  - reflexivity.
  - reflexivity.
Defined.

(** ** The wire format of canonical zones *)


(** Joining the fields of a split with the separator gives the string
    back. *)
Lemma Join_splitAcc (sep : Z) (s cur : gostring) :
  Join (splitAcc sep s cur) [sep] = rev cur ++ s.
Proof.
  revert cur. induction s as [|c s IH]; intros cur; cbn [splitAcc].
  - cbn [Join]. now rewrite app_nil_r.
  - destruct (Z.eqb_spec c sep) as [->|Hc].
    + cbn [Join]. specialize (IH []).
      destruct (splitAcc sep s []) as [|f fs] eqn:E.
      * exfalso. exact (splitAcc_nonempty _ _ _ E).
      * rewrite IH. reflexivity.
    + rewrite IH. cbn [rev]. now rewrite <- app_assoc.
Qed.

Lemma Join_Split (s : gostring) (sep : Z) : Join (Split s sep) [sep] = s.
Proof. apply (Join_splitAcc sep s []). Qed.

Lemma app_inv_length {A} (a b c d : list A) :
  length a = length b -> a ++ c = b ++ d -> a = b /\ c = d.
Proof.
  revert b. induction a as [|x a IH]; intros [|y b] Hl H;
    try discriminate Hl.
  - split; [reflexivity|exact H].
  - cbn [app] in H. injection H as -> H. injection Hl as Hl.
    destruct (IH b Hl H) as [-> ->]. split; reflexivity.
Qed.

Lemma wireOf_cons (l : gostring) (ls : list gostring) :
  wireOf (l :: ls) = Z.of_nat (length l) :: l ++ wireOf ls.
Proof. unfold wireOf. cbn [flat_map app]. now rewrite <- app_assoc. Qed.

(** Lists of non-empty labels with the same wire format are equal. *)
Lemma wireOf_inj (ls1 ls2 : list gostring) :
  Forall (fun l => l <> []) ls1 -> Forall (fun l => l <> []) ls2 ->
  wireOf ls1 = wireOf ls2 -> ls1 = ls2.
Proof.
  intros H1. revert ls2.
  induction H1 as [|l1 r1 Hl1 Hr1 IH]; intros ls2 H2 E.
  - destruct H2 as [|l2 r2 Hl2 _]; [reflexivity|].
    rewrite wireOf_cons in E. unfold wireOf in E. cbn [flat_map app] in E.
    injection E as E _. destruct l2; [congruence|discriminate E].
  - destruct H2 as [|l2 r2 Hl2 Hr2].
    + rewrite wireOf_cons in E. unfold wireOf in E. cbn [flat_map app] in E.
      injection E as E _. destruct l1; [congruence|discriminate E].
    + rewrite !wireOf_cons in E. injection E as El E.
      apply Nat2Z.inj in El.
      destruct (app_inv_length _ _ _ _ El E) as [-> E'].
      f_equal. now apply IH.
Qed.

Lemma wireOf_length (ls : list gostring) :
  ls <> [] -> length (wireOf ls) = (length (Join ls [0x2E%Z]) + 2)%nat.
Proof.
  induction ls as [|l ls IH]; [congruence|]. intros _.
  rewrite wireOf_cons. cbn [length Join]. rewrite length_app.
  destruct ls as [|l' ls'].
  - unfold wireOf. cbn [flat_map app length]. lia.
  - rewrite IH by discriminate. rewrite !length_app. cbn [length]. lia.
Qed.

Lemma canonicalLabel_facts (l : gostring) :
  canonicalLabel l = true ->
  l <> [] /\ (length l <= 63)%nat /\ List.map lowerByte l = l.
Proof.
  unfold canonicalLabel. intros H.
  apply andb_true_iff in H as [H _].
  apply andb_true_iff in H as [H Hchars].
  apply andb_true_iff in H as [Hne Hlen].
  split; [intros ->; discriminate Hne|].
  split; [apply Nat.leb_le in Hlen; exact Hlen|].
  rewrite forallb_forall in Hchars.
  clear -Hchars. induction l as [|c l IH]; [reflexivity|].
  cbn [List.map]. rewrite IH by (intros x Hx; apply Hchars; now right).
  destruct (isDNSLabelChar_lower c (Hchars c (or_introl eq_refl))) as (_ & -> & _).
  reflexivity.
Qed.

(** The wire format of a canonical zone is the wire format of its labels,
    which are those between the dots. *)
Lemma dnsWireFormat_canonical (To_LowerCase : Z -> Z) (z : gostring) :
  canonicalZone z = true ->
  exists name,
    z = name ++ dot
    /\ Forall (fun l => l <> []) (Split name 0x2E)
    /\ dnsWireFormat To_LowerCase z = wireOf (Split name 0x2E).
Proof.
  intros Hz.
  rewrite (dnsWireFormat_nameText To_LowerCase z (canonicalZone_nameText z Hz)).
  pose proof Hz as Hz'. unfold canonicalZone in Hz'.
  apply andb_true_iff in Hz' as [Hz' Hlab].
  apply andb_true_iff in Hz' as [Hz' _].
  apply andb_true_iff in Hz' as [Hdot _].
  apply HasSuffix_iff in Hdot as [name ->].
  rewrite sliceTo_app_dot in Hlab.
  exists name. split; [reflexivity|].
  rewrite wireEncoding_dot. unfold wireEncoding, wireOf.
  induction (Split name 0x2E) as [|l ls IH]; [split; [constructor|reflexivity]|].
  cbn [forallb] in Hlab. apply andb_true_iff in Hlab as [Hl Hls].
  destruct (IH Hls) as [Hne Henc].
  destruct (canonicalLabel_facts l Hl) as (Hnl & Hlen & Hlow).
  split; [constructor; assumption|].
  cbn [filter flat_map].
  destruct (eqb_str l []) eqn:El; [apply eqb_str_eq in El; congruence|].
  cbn [negb flat_map]. rewrite <- !app_assoc.
  apply app_inv_tail in Henc. rewrite Henc, Hlow.
  rewrite Z.mod_small by lia. reflexivity.
Qed.

Section WireFacts.

Variable To_LowerCase : Z -> Z.

(** X4. Two canonical zones with the same wire format are the same name:
    the labels of distinct member zones are hashes of distinct bytes. *)
Theorem dnsWireFormat_injective (z1 z2 : gostring) :
  canonicalZone z1 = true -> canonicalZone z2 = true ->
  dnsWireFormat To_LowerCase z1 = dnsWireFormat To_LowerCase z2 ->
  z1 = z2.
Proof.
  intros H1 H2 E.
  destruct (dnsWireFormat_canonical To_LowerCase z1 H1) as (n1 & -> & Hne1 & E1).
  destruct (dnsWireFormat_canonical To_LowerCase z2 H2) as (n2 & -> & Hne2 & E2).
  rewrite E1, E2 in E. apply wireOf_inj in E; try assumption.
  f_equal. rewrite <- (Join_Split n1 0x2E), <- (Join_Split n2 0x2E).
  now rewrite E.
Qed.

(** X5. The wire format of a canonical zone is one byte longer than the
    name, so at most 254 bytes, and ends with the root byte 0. *)
Theorem dnsWireFormat_length (z : gostring) :
  canonicalZone z = true ->
  length (dnsWireFormat To_LowerCase z) = S (length z)
  /\ (length (dnsWireFormat To_LowerCase z) <= 254)%nat
  /\ HasSuffix (dnsWireFormat To_LowerCase z) [0] = true.
Proof.
  intros Hz.
  destruct (dnsWireFormat_canonical To_LowerCase z Hz) as (name & -> & Hne & E).
  assert (Hlen : length (dnsWireFormat To_LowerCase (name ++ dot))
                 = S (length (name ++ dot))).
  { rewrite E, wireOf_length by apply splitAcc_nonempty.
    rewrite Join_Split, length_app. change (length dot) with 1%nat. lia. }
  split; [exact Hlen|]. split.
  - rewrite Hlen. unfold canonicalZone in Hz.
    apply andb_true_iff in Hz as [Hz _]. apply andb_true_iff in Hz as [Hz _].
    apply andb_true_iff in Hz as [_ Hz]. apply Nat.leb_le in Hz.
    unfold maxDomainLength in Hz. lia.
  - rewrite E. unfold wireOf. apply HasSuffix_app.
Qed.

End WireFacts.

(** The theorem for [example.com.] written twice. *)
Lemma dnsWireFormat_injective_witness :
  dnsWireFormat noCaseAboveASCII (str "example.com.")
  = dnsWireFormat noCaseAboveASCII (str "example.com.")
  /\ str "example.com." = str "example.com.".
Proof.
  split; [reflexivity|].
  apply (dnsWireFormat_injective noCaseAboveASCII); reflexivity.
Defined.

(** The theorem for [example.com.]: 13 bytes of wire format. *)
Lemma dnsWireFormat_length_witness :
  length (dnsWireFormat noCaseAboveASCII (str "example.com.")) = 13%nat
  /\ (length (dnsWireFormat noCaseAboveASCII (str "example.com.")) <= 254)%nat
  /\ HasSuffix (dnsWireFormat noCaseAboveASCII (str "example.com.")) [0] = true.
Proof.
  apply (dnsWireFormat_length noCaseAboveASCII (str "example.com.")). reflexivity.
Defined.

(** ** What the update messages do to a zone *)

Lemma eqb_name_sym (a b : gostring) : eqb_name a b = eqb_name b a.
Proof.
  unfold eqb_name.
  destruct (eqb_str (List.map lowerByte a) (List.map lowerByte b)) eqn:E.
  - apply eqb_str_eq in E. rewrite E. symmetry. apply eqb_str_refl.
  - symmetry. apply eqb_str_neq. apply eqb_str_neq in E. congruence.
Qed.

Lemma eqb_name_trans (a b c : gostring) :
  eqb_name a b = true -> eqb_name b c = true -> eqb_name a c = true.
Proof.
  unfold eqb_name. intros H1 H2.
  apply eqb_str_eq in H1, H2. rewrite H1, H2. apply eqb_str_refl.
Qed.

Lemma eqb_list_eq (xs ys : list gostring) : eqb_list xs ys = true <-> xs = ys.
Proof.
  revert ys. induction xs as [|x xs IH]; intros [|y ys]; cbn [eqb_list];
    split; try reflexivity; try discriminate.
  - intros H. apply andb_true_iff in H as [H1 H2].
    apply eqb_str_eq in H1. apply IH in H2. congruence.
  - intros [= -> ->]. rewrite eqb_str_refl. cbn [andb]. now apply IH.
Qed.

Lemma eqb_rdata_refl (d : RData) : eqb_rdata d d = true.
Proof.
  destruct d; cbn [eqb_rdata]; [reflexivity|apply eqb_name_refl|].
  now apply eqb_list_eq.
Qed.

Lemma eqb_rdata_sym (a b : RData) : eqb_rdata a b = eqb_rdata b a.
Proof.
  destruct a, b; cbn [eqb_rdata]; try reflexivity; [apply eqb_name_sym|].
  destruct (eqb_list fs fs0) eqn:E.
  - apply eqb_list_eq in E. subst. symmetry. now apply eqb_list_eq.
  - destruct (eqb_list fs0 fs) eqn:E'; [|reflexivity].
    apply eqb_list_eq in E'. subst.
    assert (eqb_list fs fs = true) by now apply eqb_list_eq. congruence.
Qed.

Lemma eqb_rdata_trans (a b c : RData) :
  eqb_rdata a b = true -> eqb_rdata b c = true -> eqb_rdata a c = true.
Proof.
  destruct a, b, c; cbn [eqb_rdata]; try discriminate; try reflexivity.
  - apply eqb_name_trans.
  - intros H1 H2. apply eqb_list_eq in H1, H2. subst. now apply eqb_list_eq.
Qed.

(** Where [replaceFirst] puts the new record. *)
Lemma replaceFirst_Some (f : Rec -> bool) (new : Rec) (zone zone' : list Rec) :
  replaceFirst f new zone = Some zone' ->
  exists before r after,
    zone = before ++ r :: after /\ f r = true /\ zone' = before ++ new :: after.
Proof.
  revert zone'. induction zone as [|x zone IH]; intros zone' H; [discriminate H|].
  cbn [replaceFirst] in H. destruct (f x) eqn:Ef.
  - injection H as <-. exists [], x, zone. repeat split. exact Ef.
  - destruct (replaceFirst f new zone) as [rest'|]; [|discriminate H].
    injection H as <-.
    destruct (IH rest' eq_refl) as (before & r & after & -> & Hr & ->).
    exists (x :: before), r, after. repeat split. exact Hr.
Qed.

Lemma replaceFirst_app (f : Rec -> bool) (new : Rec) (a b : list Rec) :
  (forall r, In r a -> f r = false) ->
  replaceFirst f new (a ++ b) = option_map (app a) (replaceFirst f new b).
Proof.
  induction a as [|x a IH]; intros H; cbn [app replaceFirst].
  - destruct (replaceFirst f new b); reflexivity.
  - rewrite (H x (or_introl eq_refl)), IH by (intros r Hr; apply H; now right).
    destruct (replaceFirst f new b); reflexivity.
Qed.

Lemma replaceFirst_ext (f g : Rec -> bool) (new : Rec) (zone : list Rec) :
  (forall r, In r zone -> f r = g r) ->
  replaceFirst f new zone = replaceFirst g new zone.
Proof.
  induction zone as [|x zone IH]; intros H; [reflexivity|].
  cbn [replaceFirst]. rewrite (H x (or_introl eq_refl)).
  rewrite IH by (intros r Hr; apply H; now right). reflexivity.
Qed.

Lemma hasRRset_app (a b : list Rec) (name : gostring) (p : Z -> bool) :
  hasRRset (a ++ b) name p = hasRRset a name p || hasRRset b name p.
Proof. unfold hasRRset. apply existsb_app. Qed.

Lemma hasRRset_filter (f : Rec -> bool) (zone : list Rec) (name : gostring)
      (p : Z -> bool) :
  hasRRset zone name p = false -> hasRRset (filter f zone) name p = false.
Proof.
  unfold hasRRset. induction zone as [|r zone IH]; [reflexivity|].
  cbn [existsb filter]. intros H. apply orb_false_iff in H as [H1 H2].
  destruct (f r); cbn [existsb]; rewrite ?H1; auto.
Qed.

Lemma filter_none {A} (f : A -> bool) (l : list A) :
  (forall x, In x l -> f x = false) -> filter f l = [].
Proof.
  induction l as [|x l IH]; intros H; [reflexivity|]. cbn [filter].
  rewrite (H x (or_introl eq_refl)). apply IH. intros y Hy. apply H. now right.
Qed.

(** Adding a record changes no record of another name or type. *)
Lemma addRR_outside (zone : list Rec) (rr : RR) :
  let o := Name (Hdr rr) in
  let t := Rrtype (Hdr rr) in
  filter (fun r => negb (sameSet o t r)) (addRR zone rr)
  = filter (fun r => negb (sameSet o t r)) zone.
Proof.
  cbv zeta. unfold addRR.
  destruct (if Rrtype (Hdr rr) =? TypeCNAME then _ else _); [reflexivity|].
  destruct ((Rrtype (Hdr rr) =? TypeSOA) && soaIgnored zone rr); [reflexivity|].
  destruct (replaceFirst _ _ zone) as [zone'|] eqn:E.
  - apply replaceFirst_Some in E as (before & r & after & -> & Hr & ->).
    apply andb_true_iff in Hr as [Hr _].
    rewrite !filter_app. cbn [filter]. rewrite Hr, sameSet_own. reflexivity.
  - rewrite filter_app. cbn [filter]. rewrite sameSet_own. apply app_nil_r.
Qed.

Lemma inserts_outside (zname o : gostring) (t : Z) (ins : list RR)
      (zone : list Rec) :
  filter (fun r => negb (sameSet o t r))
         (fold_left (applyRR zname) (List.map (asInserted o t) ins) zone)
  = filter (fun r => negb (sameSet o t r)) zone.
Proof.
  revert zone. induction ins as [|rr ins IH]; intros zone; [reflexivity|].
  cbn [List.map fold_left]. rewrite IH.
  unfold applyRR, asInserted. cbn [Hdr Class].
  change (ClassINET =? ClassANY) with false.
  change (ClassINET =? ClassNONE) with false.
  change (ClassINET =? ClassINET) with true. cbv iota.
  apply (addRR_outside zone
           (mkRR (mkHeader o t ClassINET (Ttl (Hdr rr)) (Rdlength (Hdr rr)))
                 (Data rr))).
Qed.

(** One insertion into a zone that is [others], with no record of the RRset
    [(o, t)] and no CNAME at [o], followed by [set], records of the RRset,
    for a type that is not CNAME, SOA or WKS: the record takes the place of
    the first record of [set] with its data, or joins [set]. *)
Lemma insert_into_set (zname o : gostring) (t : Z) (rr : RR)
      (others set : list Rec) :
  (t =? TypeCNAME) || (t =? TypeSOA) || (t =? TypeWKS) = false ->
  (forall r, In r others -> sameSet o t r = false) ->
  hasRRset others o (fun t' => t' =? TypeCNAME) = false ->
  Forall (fun r => rname r = o /\ rtype r = t) set ->
  applyRR zname (others ++ set) (asInserted o t rr)
  = others
    ++ match replaceFirst (fun zrr => eqb_rdata (rdata zrr) (Data rr))
                          (mkRec o t (Ttl (Hdr rr)) (Data rr)) set with
       | Some set' => set'
       | None => set ++ [mkRec o t (Ttl (Hdr rr)) (Data rr)]
       end.
Proof.
  intros Ht Hothers Hcname Hset.
  apply orb_false_iff in Ht as [Ht Hw]. apply orb_false_iff in Ht as [Hc Hs].
  rewrite Forall_forall in Hset.
  unfold applyRR, asInserted. cbn [Hdr Class].
  change (ClassINET =? ClassANY) with false.
  change (ClassINET =? ClassNONE) with false.
  change (ClassINET =? ClassINET) with true. cbv iota.
  unfold addRR. cbn [Hdr Rrtype Name Ttl Data]. rewrite Hc, Hs.
  rewrite hasRRset_app, Hcname. cbn [orb andb].
  assert (Hno : hasRRset set o (fun t' => t' =? TypeCNAME) = false).
  { unfold hasRRset. apply not_true_is_false. intros H.
    apply existsb_exists in H as (r & Hr & H).
    apply andb_true_iff in H as [_ H]. destruct (Hset r Hr) as [_ Hrt].
    rewrite Hrt, Hc in H. discriminate H. }
  rewrite Hno.
  rewrite replaceFirst_app
    by (intros r Hr; now rewrite (Hothers r Hr)).
  rewrite (replaceFirst_ext _ (fun zrr => eqb_rdata (rdata zrr) (Data rr)) _ set).
  - destruct (replaceFirst _ _ set); cbn [option_map];
      [reflexivity|now rewrite app_assoc].
  - intros r Hr. destruct (Hset r Hr) as [Hn Hrt].
    unfold sameSet, takesPlaceOf. cbn [Hdr Rrtype Data].
    rewrite Hn, Hrt, eqb_name_refl, Z.eqb_refl, Hc, Hs, Hw. reflexivity.
Qed.

(** The insertions of [ins], in order, into such a zone: what [set] becomes
    is made of records of [set] and of [ins], and holds the data of every
    record of [set] and of [ins]. *)
Lemma inserts_into_set (zname o : gostring) (t : Z) (ins : list RR)
      (others set : list Rec) :
  (t =? TypeCNAME) || (t =? TypeSOA) || (t =? TypeWKS) = false ->
  (forall r, In r others -> sameSet o t r = false) ->
  hasRRset others o (fun t' => t' =? TypeCNAME) = false ->
  Forall (fun r => rname r = o /\ rtype r = t) set ->
  exists set',
    fold_left (applyRR zname) (List.map (asInserted o t) ins) (others ++ set)
    = others ++ set'
    /\ (forall r, In r set' ->
          In r set
          \/ exists rr, In rr ins /\ r = mkRec o t (Ttl (Hdr rr)) (Data rr))
    /\ (forall d, (exists r, In r set /\ eqb_rdata (rdata r) d = true)
                  \/ (exists rr, In rr ins /\ eqb_rdata (Data rr) d = true) ->
          exists r, In r set' /\ eqb_rdata (rdata r) d = true).
Proof.
  intros Ht Hothers Hcname. revert set.
  induction ins as [|rr ins IH]; intros set Hset; cbn [List.map fold_left].
  - exists set. split; [reflexivity|]. split; [now left|].
    intros d [H|[rr [[] _]]]. exact H.
  - rewrite (insert_into_set zname o t rr others set Ht Hothers Hcname Hset).
    set (new := mkRec o t (Ttl (Hdr rr)) (Data rr)).
    set (set1 := match replaceFirst _ new set with
                 | Some set' => set'
                 | None => set ++ [new]
                 end).
    assert (H1 : (forall r, In r set1 -> In r set \/ r = new)
                 /\ (forall d, (exists r, In r set /\ eqb_rdata (rdata r) d = true)
                               \/ eqb_rdata (Data rr) d = true ->
                      exists r, In r set1 /\ eqb_rdata (rdata r) d = true)).
    { unfold set1.
      destruct (replaceFirst _ new set) as [set'|] eqn:E.
      - apply replaceFirst_Some in E as (before & r0 & after & -> & Hr0 & ->).
        split.
        + intros r Hr. apply in_app_or in Hr as [Hr|[<-|Hr]];
            [left; apply in_or_app; now left|now right
            |left; apply in_or_app; right; now right].
        + intros d [[r [Hr Hd]]|Hd].
          * apply in_app_or in Hr as [Hr|[<-|Hr]].
            -- exists r. split; [apply in_or_app; now left|exact Hd].
            -- exists new. split; [apply in_or_app; right; now left|].
               cbn [new rdata]. rewrite eqb_rdata_sym in Hr0.
               eapply eqb_rdata_trans; eassumption.
            -- exists r. split; [apply in_or_app; right; now right|exact Hd].
          * exists new. split; [apply in_or_app; right; now left|exact Hd].
      - split.
        + intros r Hr. apply in_app_or in Hr as [Hr|[<-|[]]];
            [now left|now right].
        + intros d [[r [Hr Hd]]|Hd].
          * exists r. split; [apply in_or_app; now left|exact Hd].
          * exists new. split; [apply in_or_app; right; now left|exact Hd]. }
    destruct H1 as [Hfrom Hdata].
    assert (Hset1 : Forall (fun r => rname r = o /\ rtype r = t) set1).
    { apply Forall_forall. intros r Hr. destruct (Hfrom r Hr) as [Hin| ->].
      - rewrite Forall_forall in Hset. now apply Hset.
      - split; reflexivity. }
    destruct (IH set1 Hset1) as (set' & Hfold & Hfrom' & Hdata').
    exists set'. split; [exact Hfold|]. split.
    + intros r Hr. destruct (Hfrom' r Hr) as [Hin|[rr' [Hrr' ->]]].
      * destruct (Hfrom r Hin) as [Hin'| ->]; [now left|].
        right. exists rr. split; [now left|reflexivity].
      * right. exists rr'. split; [now right|reflexivity].
    + intros d [H|[rr' [[<-|Hrr'] Hd]]].
      * apply Hdata'. left. apply Hdata. now left.
      * apply Hdata'. left. apply Hdata. now right.
      * apply Hdata'. right. exists rr'. now split.
Qed.

(** The message of AddRRset for records of one owner and type. *)
Lemma AddRRset_msg_shape (zone owner : gostring) (type : Z) (rrs : list RR) (m : Msg) :
  rrs <> [] ->
  (forall rr, In rr rrs -> Name (Hdr rr) = owner /\ Rrtype (Hdr rr) = type) ->
  update.AddRRset_msg zone rrs = Some m ->
  Questions m = [mkQuestion zone TypeSOA ClassINET]
  /\ Ns m = mkRR (mkHeader owner type ClassANY 0 0) NoData
            :: List.map (asInserted owner type) rrs.
Proof.
  intros Hne Hall. destruct rrs as [|rr0 rest]; [congruence|].
  destruct (Hall rr0 (or_introl eq_refl)) as [Ho Ht].
  unfold update.AddRRset_msg.
  cbn [Insert SetUpdate RemoveRRset newMsg Questions Ns Response Opcode Compress
       app Hdr Name Rrtype Class Ttl Rdlength Data Qclass].
  rewrite Ho, Ht. intros [= <-]. cbn [Ns Questions]. split; [reflexivity|].
  f_equal.
  exact (map_ext_in
           (fun r => mkRR (mkHeader (Name (Hdr r)) (Rrtype (Hdr r)) ClassINET
                                    (Ttl (Hdr r)) (Rdlength (Hdr r))) (Data r))
           (asInserted owner type) (rr0 :: rest)
           (fun rr Hrr =>
              match Hall rr Hrr with
              | conj Hn Hty =>
                eq_trans
                  (f_equal (fun n => mkRR (mkHeader n (Rrtype (Hdr rr)) ClassINET
                                             (Ttl (Hdr rr)) (Rdlength (Hdr rr)))
                                          (Data rr)) Hn)
                  (f_equal (fun ty => mkRR (mkHeader owner ty ClassINET
                                              (Ttl (Hdr rr)) (Rdlength (Hdr rr)))
                                           (Data rr)) Hty)
              end)).
Qed.

(** What the message of AddRRset does to the content of the zone it
    names. *)
Lemma AddRRset_applied (zone owner : gostring) (type : Z) (rrs : list RR)
      (m : Msg) (content : list Rec) :
  rrs <> [] ->
  (forall rr, In rr rrs -> Name (Hdr rr) = owner /\ Rrtype (Hdr rr) = type) ->
  update.AddRRset_msg zone rrs = Some m ->
  applyUpdate content m
  = fold_left (applyRR zone) (List.map (asInserted owner type) rrs)
              (applyRR zone content (mkRR (mkHeader owner type ClassANY 0 0) NoData)).
Proof.
  intros Hne Hall Hm.
  destruct (AddRRset_msg_shape zone owner type rrs m Hne Hall Hm) as [Hq Hns].
  unfold applyUpdate. rewrite Hq, Hns. cbn [Qtype Qclass Qname fold_left].
  reflexivity.
Qed.

(** What the message of DeleteRRset does to the content of the zone it
    names. *)
Lemma DeleteRRset_applied (zone owner : gostring) (type : Z) (content : list Rec) :
  type <> TypeANY ->
  eqb_name owner zone && ((type =? TypeSOA) || (type =? TypeNS)) = false ->
  IsFqdn owner = true ->
  applyUpdate content (update.DeleteRRset_msg zone owner type)
  = filter (fun r => negb (sameSet owner type r)) content.
Proof.
  intros Ht Hapex Hfq.
  unfold applyUpdate, update.DeleteRRset_msg, Fqdn. rewrite Hfq.
  cbn [Questions Ns RemoveRRset SetUpdate newMsg app List.map fold_left
       Hdr Name Rrtype Qtype Qclass Qname].
  change ((TypeSOA =? TypeSOA) && (ClassINET =? ClassINET)) with true. cbv iota.
  now apply applyRR_deleteSet.
Qed.

(** X6. Let the records of a non-empty list have one owner and one type, a
    type that is not a meta type (AXFR, MAILB, MAILA, ANY) and not CNAME,
    SOA or WKS, and not NS at the apex of the zone; and let the zone have no
    CNAME at the owner.  Then every record of the message AddRRset builds
    passes the prescan of RFC 2136 for a name in the zone (section
    3.4.1.3), and by the rules of its section 3.4.2
    the message leaves the records of every other owner or type of the zone
    as they were; the RRset of the owner and type then holds records made
    from the list only, and the data of every record of the list. *)
Theorem AddRRset_replaces_RRset
        (zone owner : gostring) (type : Z) (rrs : list RR) (m : Msg)
        (content : list Rec) :
  rrs <> [] ->
  (forall rr, In rr rrs -> Name (Hdr rr) = owner /\ Rrtype (Hdr rr) = type) ->
  isMetaType type true = false ->
  (type =? TypeCNAME) || (type =? TypeSOA) || (type =? TypeWKS) = false ->
  eqb_name owner zone && (type =? TypeNS) = false ->
  hasRRset content owner (fun t => t =? TypeCNAME) = false ->
  update.AddRRset_msg zone rrs = Some m ->
  let updated := applyUpdate content m in
  Forall (fun rr => prescan rr = NOERROR) (Ns m)
  /\ filter (fun r => negb (sameSet owner type r)) updated
     = filter (fun r => negb (sameSet owner type r)) content
  /\ (forall r, In r updated -> sameSet owner type r = true ->
        exists rr, In rr rrs /\ r = mkRec owner type (Ttl (Hdr rr)) (Data rr))
  /\ (forall rr, In rr rrs ->
        exists r, In r updated /\ sameSet owner type r = true
                  /\ eqb_rdata (rdata r) (Data rr) = true).
Proof.
  intros Hne Hall Hmeta Htype Hns Hcname Hm updated. unfold updated.
  assert (Hany : type <> TypeANY).
  { intros ->. discriminate Hmeta. }
  assert (Hsoa : (type =? TypeSOA) = false).
  { apply orb_false_iff in Htype as [Htype _].
    now apply orb_false_iff in Htype as [_ Htype]. }
  assert (Hapex : eqb_name owner zone && ((type =? TypeSOA) || (type =? TypeNS))
                  = false).
  { now rewrite Hsoa. }
  split.
  { destruct (AddRRset_msg_shape zone owner type rrs m Hne Hall Hm) as [_ ->].
    constructor.
    - unfold prescan. cbn [Hdr Class Ttl Data Rrtype].
      change (ClassANY =? ClassINET) with false.
      change (ClassANY =? ClassANY) with true. cbv iota.
      change (negb (0 =? 0)) with false. cbn [orb].
      unfold isMetaType in Hmeta |- *. cbn [andb] in Hmeta |- *.
      rewrite orb_false_r. apply orb_false_iff in Hmeta as [Hmeta _].
      now rewrite Hmeta.
    - apply Forall_forall. intros rr Hrr. apply in_map_iff in Hrr as (rr0 & <- & _).
      unfold prescan, asInserted. cbn [Hdr Class Rrtype].
      change (ClassINET =? ClassINET) with true. cbv iota. now rewrite Hmeta. }
  rewrite (AddRRset_applied zone owner type rrs m content Hne Hall Hm).
  rewrite (applyRR_deleteSet zone content owner type Hany Hapex).
  set (others := filter (fun r => negb (sameSet owner type r)) content).
  assert (Hothers : forall r, In r others -> sameSet owner type r = false).
  { intros r Hr. apply filter_In in Hr as [_ Hr]. now apply negb_true_iff in Hr. }
  split.
  { rewrite inserts_outside. apply filter_idem. }
  destruct (inserts_into_set zone owner type rrs others [] Htype Hothers
              (hasRRset_filter _ content owner _ Hcname)
              (Forall_nil _)) as (set' & Hfold & Hfrom & Hdata).
  rewrite app_nil_r in Hfold. rewrite Hfold.
  assert (Hset' : forall r, In r set' -> sameSet owner type r = true).
  { intros r Hr. destruct (Hfrom r Hr) as [[]|[rr [_ ->]]]. apply sameSet_own. }
  split.
  - intros r Hr Hs. apply in_app_or in Hr as [Hr|Hr].
    + rewrite (Hothers r Hr) in Hs. discriminate Hs.
    + destruct (Hfrom r Hr) as [[]|H]. exact H.
  - intros rr Hrr.
    destruct (Hdata (Data rr)) as (r & Hr & Hd).
    { right. exists rr. split; [exact Hrr|apply eqb_rdata_refl]. }
    exists r. split; [apply in_or_app; now right|].
    split; [now apply Hset'|exact Hd].
Qed.

(** The theorem for two A records of [www.example.com.], in a zone that has
    another A record there and an MX record at the apex. *)
Lemma AddRRset_replaces_RRset_witness :
  let rrs :=
    [mkRR (mkHeader (str "www.example.com.") 1 1 3600 0) (Fields [str "192.0.2.1"]);
     mkRR (mkHeader (str "www.example.com.") 1 1 3600 0) (Fields [str "192.0.2.2"])] in
  let content :=
    [mkRec (str "www.example.com.") 1 300 (Fields [str "192.0.2.9"]);
     mkRec (str "example.com.") 15 300 (Fields [str "10"; str "mail.example.com."])] in
  exists m,
    update.AddRRset_msg (str "example.com.") rrs = Some m
    /\ applyUpdate content m
       = [mkRec (str "example.com.") 15 300 (Fields [str "10"; str "mail.example.com."]);
          mkRec (str "www.example.com.") 1 3600 (Fields [str "192.0.2.1"]);
          mkRec (str "www.example.com.") 1 3600 (Fields [str "192.0.2.2"])]
    /\ Forall (fun rr => prescan rr = NOERROR) (Ns m)
    /\ filter (fun r => negb (sameSet (str "www.example.com.") 1 r))
              (applyUpdate content m)
       = filter (fun r => negb (sameSet (str "www.example.com.") 1 r)) content.
Proof.
  cbv zeta. eexists. split; [reflexivity|]. split; [reflexivity|].
  refine ((fun H => conj (proj1 H) (proj1 (proj2 H))) _).
  apply (AddRRset_replaces_RRset (str "example.com.") (str "www.example.com.") 1
           [mkRR (mkHeader (str "www.example.com.") 1 1 3600 0) (Fields [str "192.0.2.1"]);
            mkRR (mkHeader (str "www.example.com.") 1 1 3600 0) (Fields [str "192.0.2.2"])]).
  - discriminate.
  - intros rr [<-|[<-|[]]]; split; reflexivity.
  - reflexivity.
  - reflexivity.
  - reflexivity.
  - reflexivity.
  - reflexivity.
Defined.

(** The exceptions of RFC 2136 that the theorem leaves out: an A record
    added beside a CNAME is ignored, and the NS RRset of the apex is not
    deleted, so that the old NS record stays beside the new one. *)
Example AddRRset_exceptions :
  (exists m,
      update.AddRRset_msg (str "example.com.")
        [mkRR (mkHeader (str "www.example.com.") 1 1 3600 0)
              (Fields [str "192.0.2.1"])] = Some m
      /\ applyUpdate [mkRec (str "www.example.com.") 5 300
                            (Fields [str "host.example.com."])] m
         = [mkRec (str "www.example.com.") 5 300 (Fields [str "host.example.com."])])
  /\ (exists m,
         update.AddRRset_msg (str "example.com.")
           [mkRR (mkHeader (str "example.com.") 2 1 3600 0)
                 (Fields [str "ns2.example.com."])] = Some m
         /\ applyUpdate [mkRec (str "example.com.") 2 300
                               (Fields [str "ns1.example.com."])] m
            = [mkRec (str "example.com.") 2 300 (Fields [str "ns1.example.com."]);
               mkRec (str "example.com.") 2 3600 (Fields [str "ns2.example.com."])]).
Proof.
  split; eexists; split; reflexivity.
Qed.

(** X7. For a fully qualified owner and a type other than ANY, and not SOA
    or NS at the apex of the zone: by the rules of RFC 2136, section 3.4.2,
    the message of DeleteRRset, applied after the message AddRRset built for
    that owner and type, leaves the zone content that it leaves when applied
    alone, and that content has no record of the owner and type. *)
Theorem DeleteRRset_undoes_AddRRset
        (zone owner : gostring) (type : Z) (rrs : list RR) (m : Msg)
        (content : list Rec) :
  rrs <> [] ->
  (forall rr, In rr rrs -> Name (Hdr rr) = owner /\ Rrtype (Hdr rr) = type) ->
  type <> TypeANY ->
  eqb_name owner zone && ((type =? TypeSOA) || (type =? TypeNS)) = false ->
  IsFqdn owner = true ->
  update.AddRRset_msg zone rrs = Some m ->
  applyUpdate (applyUpdate content m) (update.DeleteRRset_msg zone owner type)
  = applyUpdate content (update.DeleteRRset_msg zone owner type)
  /\ forall r, In r (applyUpdate content (update.DeleteRRset_msg zone owner type)) ->
       sameSet owner type r = false.
Proof.
  intros Hne Hall Ht Hapex Hfq Hm.
  rewrite !(DeleteRRset_applied zone owner type _ Ht Hapex Hfq). split.
  - rewrite (AddRRset_applied zone owner type rrs m content Hne Hall Hm).
    rewrite inserts_outside.
    rewrite (applyRR_deleteSet zone content owner type Ht Hapex).
    apply filter_idem.
  - intros r Hr. apply filter_In in Hr as [_ Hr]. now apply negb_true_iff in Hr.
Qed.

(** The theorem for the same records and zone. *)
Lemma DeleteRRset_undoes_AddRRset_witness :
  let rrs :=
    [mkRR (mkHeader (str "www.example.com.") 1 1 3600 0) (Fields [str "192.0.2.1"]);
     mkRR (mkHeader (str "www.example.com.") 1 1 3600 0) (Fields [str "192.0.2.2"])] in
  let content :=
    [mkRec (str "www.example.com.") 1 300 (Fields [str "192.0.2.9"]);
     mkRec (str "example.com.") 15 300 (Fields [str "10"; str "mail.example.com."])] in
  let delete :=
    update.DeleteRRset_msg (str "example.com.") (str "www.example.com.") 1 in
  exists m,
    update.AddRRset_msg (str "example.com.") rrs = Some m
    /\ applyUpdate (applyUpdate content m) delete = applyUpdate content delete
    /\ applyUpdate content delete
       = [mkRec (str "example.com.") 15 300 (Fields [str "10"; str "mail.example.com."])].
Proof.
  cbv zeta. eexists. split; [reflexivity|]. split; [|reflexivity].
  eapply proj1.
  apply (DeleteRRset_undoes_AddRRset (str "example.com.") (str "www.example.com.") 1
           [mkRR (mkHeader (str "www.example.com.") 1 1 3600 0) (Fields [str "192.0.2.1"]);
            mkRR (mkHeader (str "www.example.com.") 1 1 3600 0) (Fields [str "192.0.2.2"])]).
  - discriminate.
  - intros rr [<-|[<-|[]]]; split; reflexivity.
  - discriminate.
  - reflexivity.
  - reflexivity.
  - reflexivity.
Defined.

(** X8. The update section of the message DeleteAllRRs builds is one
    record of type ANY with class NONE and TTL 0, since Msg.Remove overwrites
    the class ANY that the code sets.  The prescan of RFC 2136 answers
    FORMERR for it, and applied to a zone content with no record of type ANY
    it deletes nothing. *)
Theorem DeleteAllRRs_malformed (zone owner : gostring) :
  Ns (DeleteAllRRs_msg zone owner)
  = [mkRR (mkHeader (Fqdn owner) TypeANY ClassNONE 0 0) NoData]
  /\ Forall (fun rr => prescan rr = FORMERR) (Ns (DeleteAllRRs_msg zone owner))
  /\ forall content,
      (forall r, In r content -> rtype r <> TypeANY) ->
      applyUpdate content (DeleteAllRRs_msg zone owner) = content.
Proof.
  split; [reflexivity|]. split; [repeat constructor|].
  intros content Hnone. unfold applyUpdate.
  change (Questions (DeleteAllRRs_msg zone owner))
    with [mkQuestion zone TypeSOA ClassINET].
  change (Ns (DeleteAllRRs_msg zone owner))
    with [mkRR (mkHeader (Fqdn owner) TypeANY ClassNONE 0 0) NoData].
  cbn [Qtype Qclass Qname fold_left].
  change ((TypeSOA =? TypeSOA) && (ClassINET =? ClassINET)) with true. cbv iota.
  unfold applyRR. cbn [Hdr Class].
  change (ClassNONE =? ClassANY) with false.
  change (ClassNONE =? ClassNONE) with true. cbv iota.
  unfold deleteRR. cbn [Hdr Rrtype Name Data].
  change (TypeANY =? TypeSOA) with false. change (TypeANY =? TypeNS) with false.
  cbn [orb andb]. rewrite andb_false_r.
  apply filter_noop. intros r Hr. unfold sameRR, sameSet.
  destruct (Z.eqb_spec (rtype r) TypeANY) as [E|_];
    [destruct (Hnone r Hr E)|].
  now rewrite andb_false_r.
Qed.

(** ** Validating and building records *)

(** The library functions on values of which the results in Go are
    known. *)
Example library_samples :
  strings_Fields (str " a  b c ") = [str "a"; str "b"; str "c"]
  /\ strings_Fields [0x61; 0xC2; 0xA0; 0x62; 0x20; 0x63]
     = [str "a"; str "b"; str "c"]
  /\ strings_Fields (str "   ") = []
  /\ ParseUint10 (str "65535") 16 = (65535, None)
  /\ ParseUint10 (str "65536") 16
     = (65535, Some (Error "strconv.ParseUint: parsing %q: value out of range"
                           [str "65536"]))
  /\ ParseUint10 (str "12a") 16
     = (0, Some (Error "strconv.ParseUint: parsing %q: invalid syntax"
                       [str "12a"]))
  /\ ParseUint10 [] 16
     = (0, Some (Error "strconv.ParseUint: parsing %q: invalid syntax" [[]]))
  /\ EqualFold noFoldAboveASCII (str "cname") (str "CNAME") = true
  /\ EqualFold noFoldAboveASCII (str "a[") (str "A{") = false
  /\ EqualFold noFoldAboveASCII (str "cnam") (str "CNAME") = false
  /\ ToUpper noCaseAboveASCII (str "Txt-9") = str "TXT-9"
  /\ Join [str "a"; str "b"; str "c"] (str ", ") = str "a, b, c".
Proof.
  repeat split; vm_compute; reflexivity.
Qed.

Lemma upperByte_ascii (c : Z) : 0 <= c < 0x80 -> 0 <= upperByte c < 0x80.
Proof.
  unfold upperByte, isLowerByte. intros H.
  destruct (Z.leb_spec 0x61 c); destruct (Z.leb_spec c 0x7A); simpl; lia.
Qed.

Section ValidateFacts.

Variable To_UpperCase : Z -> Z.
Variable foldsTo : Z -> Z -> bool.
Variable policy : PolicyConfig.
Variable net_ParseIP : gostring -> option gostring.

(** X9. ValidateRDATA returns an error for an empty list of values,
    whatever the record type. *)
Theorem ValidateRDATA_rejects_empty (rrType : gostring) :
  isErr (ValidateRDATA To_UpperCase foldsTo policy net_ParseIP rrType []) = true.
Proof.
  unfold ValidateRDATA.
  destruct (IsAllowedRRType foldsTo policy (ToUpper To_UpperCase rrType)); cbn [negb];
    [|reflexivity].
  repeat match goal with
         | |- context [if eqb_str ?a ?b then _ else _] =>
           destruct (eqb_str a b); [reflexivity|]
         end.
  reflexivity.
Qed.

Lemma firstError_None {A} (check : A -> option error) (xs : list A) :
  firstError check xs = None -> forall x, In x xs -> check x = None.
Proof.
  induction xs as [|y ys IH]; cbn [firstError]; intros H x Hx; [destruct Hx|].
  destruct (check y) eqn:E; [discriminate|].
  destruct Hx as [<-|Hx]; [exact E|now apply IH].
Qed.

(** X10. For a type BuildRR knows (A, AAAA, CNAME, TXT, MX, SRV, CAA or
    NS, in any case), BuildRR returns a record for every value of a list
    that ValidateRDATA accepted. *)
Theorem ValidateRDATA_then_BuildRR
        (owner rrType : gostring) (ttl : Z) (rdata : list gostring) :
  ValidateRDATA To_UpperCase foldsTo policy net_ParseIP rrType rdata = None ->
  buildable (ToUpper To_UpperCase rrType) = true ->
  forall rd, In rd rdata -> isOk (BuildRR To_UpperCase net_ParseIP owner rrType ttl rd) = true.
Proof.
  unfold ValidateRDATA, BuildRR, buildable. cbn [existsb].
  destruct (IsAllowedRRType foldsTo policy (ToUpper To_UpperCase rrType)); cbn [negb];
    [|discriminate].
  set (u := ToUpper To_UpperCase rrType).
  destruct (eqb_str u (str "A")); [reflexivity|].
  destruct (eqb_str u (str "AAAA")); [reflexivity|].
  destruct (eqb_str u (str "CNAME")); [reflexivity|].
  destruct (eqb_str u (str "TXT")); [reflexivity|].
  destruct (eqb_str u (str "MX")).
  { unfold validateMX. destruct (length rdata =? 0)%nat; [discriminate|].
    intros H _ rd Hrd. apply firstError_None with (x := rd) in H; [|exact Hrd].
    cbv beta zeta in H.
    destruct (length (strings_Fields rd) =? 2)%nat; cbn [negb] in *;
      [reflexivity|discriminate]. }
  destruct (eqb_str u (str "SRV")).
  { unfold validateSRV. destruct (length rdata =? 0)%nat; [discriminate|].
    intros H _ rd Hrd. apply firstError_None with (x := rd) in H; [|exact Hrd].
    cbv beta zeta in H.
    destruct (length (strings_Fields rd) =? 4)%nat; cbn [negb] in *;
      [reflexivity|discriminate]. }
  destruct (eqb_str u (str "CAA")).
  { unfold validateCAA. destruct (length rdata =? 0)%nat; [discriminate|].
    intros H _ rd Hrd. apply firstError_None with (x := rd) in H; [|exact Hrd].
    cbv beta zeta in H.
    destruct (length (strings_Fields rd) <? 3)%nat; [discriminate|reflexivity]. }
  destruct (eqb_str u (str "NS")); [reflexivity|].
  cbn [orb]. discriminate.
Qed.

(** X11. For a type that the policy allows and that is none of the eight
    types BuildRR knows, ValidateRDATA accepts every non-empty list of
    values, and BuildRR returns the error "unsupported RR type" for every
    value. *)
Theorem allowed_type_not_buildable
        (owner rrType : gostring) (ttl : Z) (rdata : list gostring) :
  IsAllowedRRType foldsTo policy (ToUpper To_UpperCase rrType) = true ->
  buildable (ToUpper To_UpperCase rrType) = false ->
  rdata <> [] ->
  ValidateRDATA To_UpperCase foldsTo policy net_ParseIP rrType rdata = None
  /\ forall rd, BuildRR To_UpperCase net_ParseIP owner rrType ttl rd
                = Err (Error "unsupported RR type: %s" [ToUpper To_UpperCase rrType]).
Proof.
  intros Hal Hb Hne. unfold ValidateRDATA, BuildRR, buildable in *.
  cbn [existsb] in Hb. rewrite Hal. cbn [negb].
  set (u := ToUpper To_UpperCase rrType) in *.
  repeat match type of Hb with
         | (eqb_str ?a ?b || _) = false =>
           apply orb_false_iff in Hb as [? Hb]
         end.
  repeat match goal with
         | H : eqb_str u _ = false |- _ => rewrite H; clear H
         end.
  split; [|reflexivity].
  destruct rdata; [congruence|reflexivity].
Qed.

(** X12. Every type that BuildRR returns a record for is a type that
    ValidateRecordType accepts. *)
Theorem BuildRR_types_valid (owner rrType : gostring) (ttl : Z) (rd : gostring) :
  isOk (BuildRR To_UpperCase net_ParseIP owner rrType ttl rd) = true ->
  ValidateRecordType To_UpperCase rrType = true.
Proof.
  unfold BuildRR, ValidateRecordType.
  set (u := ToUpper To_UpperCase rrType).
  repeat match goal with
         | |- context [if eqb_str u ?b then _ else _] =>
           let E := fresh "E" in
           destruct (eqb_str u b) eqn:E;
             [apply eqb_str_eq in E; rewrite E; reflexivity|]
         end.
  discriminate.
Qed.

End ValidateFacts.

(** The theorem for an MX record under the policy of DefaultConfig. *)
Lemma ValidateRDATA_then_BuildRR_witness :
  ValidateRDATA noCaseAboveASCII noFoldAboveASCII examplePolicy noAddress
                (str "mx") [str "10 mail.example.com."] = None
  /\ isOk (BuildRR noCaseAboveASCII noAddress (str "example.com.") (str "mx") 300
                   (str "10 mail.example.com.")) = true.
Proof.
  split; [reflexivity|].
  apply (ValidateRDATA_then_BuildRR noCaseAboveASCII noFoldAboveASCII examplePolicy
           noAddress (str "example.com.") (str "mx") 300
           [str "10 mail.example.com."]).
  - reflexivity.
  - reflexivity.
  - left. reflexivity.
Defined.

(** The theorem for a policy that allows PTR. *)
Lemma allowed_type_not_buildable_witness :
  let policy := mkPolicy [str "A"; str "PTR"] true true 86400 30 in
  ValidateRDATA noCaseAboveASCII noFoldAboveASCII policy noAddress
                (str "ptr") [str "host.example.com."] = None
  /\ forall rd,
      BuildRR noCaseAboveASCII noAddress (str "1.2.0.192.in-addr.arpa.") (str "ptr")
              300 rd
      = Err (Error "unsupported RR type: %s" [str "PTR"]).
Proof.
  cbv zeta.
  apply (allowed_type_not_buildable noCaseAboveASCII noFoldAboveASCII
           (mkPolicy [str "A"; str "PTR"] true true 86400 30) noAddress
           (str "1.2.0.192.in-addr.arpa.") (str "ptr") 300
           [str "host.example.com."]).
  - reflexivity.
  - reflexivity.
  - discriminate.
Defined.

(** The theorem for an MX record. *)
Lemma BuildRR_types_valid_witness :
  isOk (BuildRR noCaseAboveASCII noAddress (str "example.com.") (str "mx") 300
                (str "10 mail.example.com.")) = true
  /\ ValidateRecordType noCaseAboveASCII (str "mx") = true.
Proof.
  split; [reflexivity|].
  apply (BuildRR_types_valid noCaseAboveASCII noAddress (str "example.com.")
           (str "mx") 300 (str "10 mail.example.com.")).
  reflexivity.
Defined.

(** ** The numbers BuildRR parses *)

(** The digit loop of ParseUint, for a bit size of at most 16: without an
    error its value is the value of the numeral. *)
Lemma parseUintLoop_sound (s0 s : gostring) (maxVal n v : Z) :
  0 <= n <= maxVal -> maxVal <= 65535 ->
  parseUintLoop s0 (maxUint64 / 10 + 1) maxVal s n = (v, None) ->
  forallb isDigit s = true /\ v = decimalFrom n s /\ 0 <= v <= maxVal.
Proof.
  revert n. induction s as [|c s IH]; intros n Hn Hmax; cbn [parseUintLoop].
  - intros [= <-]. cbn. repeat split; lia.
  - fold (isDigit c). destruct (isDigit c) eqn:Hc; [|discriminate].
    pose proof Hc as Hc'. unfold isDigit in Hc'.
    apply andb_true_iff in Hc' as [H1 H2]. apply Z.leb_le in H1, H2.
    change (maxUint64 / 10 + 1) with 1844674407370955162.
    destruct (Z.leb_spec 1844674407370955162 n); [lia|].
    rewrite (Z.mod_small (n * 10)) by (change (2 ^ 64) with 18446744073709551616; lia).
    rewrite (Z.mod_small (n * 10 + (c - 48)))
      by (change (2 ^ 64) with 18446744073709551616; lia).
    destruct (Z.ltb_spec (n * 10 + (c - 48)) (n * 10)); [lia|].
    destruct (Z.ltb_spec maxVal (n * 10 + (c - 48))); cbn [orb]; [discriminate|].
    intros Hrun. apply IH in Hrun; [|lia|lia].
    destruct Hrun as (Hs & Hv & Hr). cbn [forallb decimalFrom fold_left].
    rewrite Hc, Hs. repeat split; try lia. exact Hv.
Qed.

Lemma ParseUint10_sound (s : gostring) (bitSize v : Z) :
  0 <= bitSize <= 16 ->
  ParseUint10 s bitSize = (v, None) ->
  s <> [] /\ forallb isDigit s = true /\ v = decimalValue s
  /\ 0 <= v <= 2 ^ bitSize - 1.
Proof.
  intros Hb. unfold ParseUint10.
  destruct (eqb_str s []) eqn:E; [discriminate|].
  apply eqb_str_neq in E. intros Hrun.
  assert (Hp : 1 <= 2 ^ bitSize <= 2 ^ 16).
  { split; [|apply Z.pow_le_mono_r; lia].
    assert (0 < 2 ^ bitSize) by (apply Z.pow_pos_nonneg; lia). lia. }
  change (2 ^ 16) with 65536 in Hp.
  apply parseUintLoop_sound in Hrun; [|lia|lia].
  destruct Hrun as (Hs & Hv & Hr). repeat split; try assumption; lia.
Qed.

Section BuiltValues.

Variable To_UpperCase : Z -> Z.
Variable foldsTo : Z -> Z -> bool.
Variable policy : PolicyConfig.
Variable net_ParseIP : gostring -> option gostring.

(** X13. An MX value of a list that ValidateRDATA accepted has exactly two
    fields, the first a non-empty decimal numeral of value at most 65535;
    BuildRR returns the MX record with that value for preference and the
    second field, fully qualified, for host. *)
Theorem validated_MX_built
        (owner rrType : gostring) (ttl : Z) (rdata : list gostring) (rd : gostring) :
  ToUpper To_UpperCase rrType = str "MX" ->
  ValidateRDATA To_UpperCase foldsTo policy net_ParseIP rrType rdata = None ->
  In rd rdata ->
  exists pref host,
    strings_Fields rd = [pref; host]
    /\ pref <> [] /\ forallb isDigit pref = true
    /\ 0 <= decimalValue pref <= 65535
    /\ BuildRR To_UpperCase net_ParseIP owner rrType ttl rd
       = Ok (mkTypedRR (dns.mkHeader (dns.Fqdn owner) TypeMX 1 ttl 0)
                       (BodyMX (decimalValue pref) (dns.Fqdn host))).
Proof.
  intros Hu. unfold ValidateRDATA, BuildRR. rewrite Hu.
  destruct (IsAllowedRRType foldsTo policy (str "MX")); cbn [negb];
    [|discriminate].
  change (eqb_str (str "MX") (str "A")) with false.
  change (eqb_str (str "MX") (str "AAAA")) with false.
  change (eqb_str (str "MX") (str "CNAME")) with false.
  change (eqb_str (str "MX") (str "TXT")) with false.
  change (eqb_str (str "MX") (str "MX")) with true.
  cbv iota. unfold validateMX.
  destruct (length rdata =? 0)%nat; [discriminate|].
  intros H Hrd. apply firstError_None with (x := rd) in H; [|exact Hrd].
  cbv beta zeta in H.
  destruct (strings_Fields rd) as [|pref [|host [|x rest]]]; try discriminate H.
  cbn [length Nat.eqb negb nth] in H |- *.
  destruct (ParseUint10 pref 16) as [v e] eqn:Ep. cbn [snd fst] in H |- *.
  destruct e; [discriminate H|]. cbn [isErr] in H.
  apply ParseUint10_sound in Ep; [|lia].
  destruct Ep as (Hne & Hd & Hv & Hr). change (2 ^ 16 - 1) with 65535 in Hr.
  exists pref, host. split; [reflexivity|]. split; [exact Hne|].
  split; [exact Hd|]. split; [lia|].
  unfold uint16. rewrite Z.mod_small by (change (2 ^ 16) with 65536; lia).
  now rewrite Hv.
Qed.

(** X14. A CAA value of a list that ValidateRDATA accepted has at least
    three fields, the first [0] or [1] and the second [issue], [issuewild] or
    [iodef]; BuildRR returns the CAA record with that flag and tag, and for
    value the remaining fields joined by single spaces. *)
Theorem validated_CAA_built
        (owner rrType : gostring) (ttl : Z) (rdata : list gostring) (rd : gostring) :
  ToUpper To_UpperCase rrType = str "CAA" ->
  ValidateRDATA To_UpperCase foldsTo policy net_ParseIP rrType rdata = None ->
  In rd rdata ->
  exists flags tag rest,
    strings_Fields rd = flags :: tag :: rest /\ rest <> []
    /\ (flags = str "0" \/ flags = str "1")
    /\ (tag = str "issue" \/ tag = str "issuewild" \/ tag = str "iodef")
    /\ BuildRR To_UpperCase net_ParseIP owner rrType ttl rd
       = Ok (mkTypedRR (dns.mkHeader (dns.Fqdn owner) TypeCAA 1 ttl 0)
                       (BodyCAA (decimalValue flags) tag (Join rest (str " ")))).
Proof.
  intros Hu. unfold ValidateRDATA, BuildRR. rewrite Hu.
  destruct (IsAllowedRRType foldsTo policy (str "CAA")); cbn [negb];
    [|discriminate].
  change (eqb_str (str "CAA") (str "A")) with false.
  change (eqb_str (str "CAA") (str "AAAA")) with false.
  change (eqb_str (str "CAA") (str "CNAME")) with false.
  change (eqb_str (str "CAA") (str "TXT")) with false.
  change (eqb_str (str "CAA") (str "MX")) with false.
  change (eqb_str (str "CAA") (str "SRV")) with false.
  change (eqb_str (str "CAA") (str "CAA")) with true.
  cbv iota. unfold validateCAA.
  destruct (length rdata =? 0)%nat; [discriminate|].
  intros H Hrd. apply firstError_None with (x := rd) in H; [|exact Hrd].
  cbv beta zeta in H.
  destruct (strings_Fields rd) as [|flags [|tag [|v rest]]]; try discriminate H.
  cbn [length Nat.ltb Nat.leb nth skipn] in H |- *.
  destruct (eqb_str flags (str "0")) eqn:E0; cbn [negb andb] in H.
  - apply eqb_str_eq in E0. subst flags.
    exists (str "0"), tag, (v :: rest). split; [reflexivity|].
    split; [discriminate|]. split; [now left|].
    destruct (eqb_str tag (str "issue")) eqn:T1;
      [apply eqb_str_eq in T1; split; [now left|reflexivity]|].
    destruct (eqb_str tag (str "issuewild")) eqn:T2;
      [apply eqb_str_eq in T2; split; [right; now left|reflexivity]|].
    destruct (eqb_str tag (str "iodef")) eqn:T3;
      [apply eqb_str_eq in T3; split; [right; now right|reflexivity]|].
    discriminate H.
  - destruct (eqb_str flags (str "1")) eqn:E1; cbn [negb] in H; [|discriminate H].
    apply eqb_str_eq in E1. subst flags.
    exists (str "1"), tag, (v :: rest). split; [reflexivity|].
    split; [discriminate|]. split; [now right|].
    destruct (eqb_str tag (str "issue")) eqn:T1;
      [apply eqb_str_eq in T1; split; [now left|reflexivity]|].
    destruct (eqb_str tag (str "issuewild")) eqn:T2;
      [apply eqb_str_eq in T2; split; [right; now left|reflexivity]|].
    destruct (eqb_str tag (str "iodef")) eqn:T3;
      [apply eqb_str_eq in T3; split; [right; now right|reflexivity]|].
    discriminate H.
Qed.

End BuiltValues.

(** The theorem for [10 mail.example.com.]. *)
Lemma validated_MX_built_witness :
  exists pref host,
    strings_Fields (str "10  mail.example.com") = [pref; host]
    /\ pref <> [] /\ forallb isDigit pref = true
    /\ 0 <= decimalValue pref <= 65535
    /\ BuildRR noCaseAboveASCII noAddress (str "example.com") (str "mx") 300
               (str "10  mail.example.com")
       = Ok (mkTypedRR (mkHeader (str "example.com.") TypeMX 1 300 0)
                       (BodyMX (decimalValue pref) (Fqdn host))).
Proof.
  apply (validated_MX_built noCaseAboveASCII noFoldAboveASCII examplePolicy noAddress
           (str "example.com") (str "mx") 300 [str "10  mail.example.com"]).
  - reflexivity.
  - reflexivity.
  - left. reflexivity.
Defined.

(** The theorem for a CAA value of four fields. *)
Lemma validated_CAA_built_witness :
  exists flags tag rest,
    strings_Fields (str "0 issue letsencrypt.org ; policy") = flags :: tag :: rest
    /\ rest <> []
    /\ (flags = str "0" \/ flags = str "1")
    /\ (tag = str "issue" \/ tag = str "issuewild" \/ tag = str "iodef")
    /\ BuildRR noCaseAboveASCII noAddress (str "example.com.") (str "caa") 300
               (str "0 issue letsencrypt.org ; policy")
       = Ok (mkTypedRR (mkHeader (str "example.com.") TypeCAA 1 300 0)
                       (BodyCAA (decimalValue flags) tag (Join rest (str " ")))).
Proof.
  apply (validated_CAA_built noCaseAboveASCII noFoldAboveASCII examplePolicy noAddress
           (str "example.com.") (str "caa") 300
           [str "0 issue letsencrypt.org ; policy"]).
  - reflexivity.
  - reflexivity.
  - left. reflexivity.
Defined.

(** ** The policy *)

Section PolicyFacts.

Variable To_UpperCase : Z -> Z.
Variable To_LowerCase : Z -> Z.
Variable policy : PolicyConfig.

(** On lower-case ASCII names that end with a dot, IsApexOwner is
    equality. *)
Lemma IsApexOwner_eqb (s z : gostring) :
  canonicalZone z = true ->
  asciiBytes s -> List.map lowerByte s = s ->
  IsApexOwner To_LowerCase (s ++ dot) z = eqb_str (s ++ dot) z.
Proof.
  intros Hz Ha Hl. unfold IsApexOwner.
  rewrite (canonicalZone_lower To_LowerCase z Hz), (canonicalZone_dot z Hz).
  rewrite ToLower_ascii
    by (apply Forall_app; split; [exact Ha|repeat constructor; lia]).
  rewrite map_app, Hl. change (List.map lowerByte dot) with dot.
  now rewrite HasSuffix_app.
Qed.

(** X15. With DisallowApexCNAME set, ValidatePolicy on an owner that
    NormalizeOwner returned for ASCII input and a canonical zone, and the
    type CNAME in any case, returns the error "CNAME at zone apex is not
    allowed" when the owner is the zone, and no error otherwise. *)
Theorem ValidatePolicy_apex_CNAME (input z owner rrType : gostring) :
  asciiBytes input ->
  canonicalZone z = true ->
  NormalizeOwner To_LowerCase input z = Ok owner ->
  DisallowApexCNAME policy = true ->
  ToUpper To_UpperCase rrType = str "CNAME" ->
  ValidatePolicy To_UpperCase policy To_LowerCase z owner rrType
  = if eqb_str owner z
    then Some (Error "CNAME at zone apex is not allowed" [])
    else None.
Proof.
  intros Hin Hz Hrun Hpol Hu.
  destruct (NormalizeOwner_shape To_LowerCase input z owner Hin Hz Hrun)
    as (s & -> & Ha & Hl & _ & _).
  unfold ValidatePolicy. rewrite Hpol, Hu, (IsApexOwner_eqb s z Hz Ha Hl).
  change (eqb_str (str "CNAME") (str "CNAME")) with true.
  change (eqb_str (str "CNAME") (str "NS")) with false.
  cbn [andb]. rewrite andb_false_r.
  destruct (eqb_str (s ++ dot) z); reflexivity.
Qed.

End PolicyFacts.

(** The theorem for the owner [@] and for the owner [www] of [example.com.]. *)
Lemma ValidatePolicy_apex_CNAME_witness :
  ValidatePolicy noCaseAboveASCII examplePolicy noCaseAboveASCII
                 (str "example.com.") (str "example.com.") (str "cname")
  = Some (Error "CNAME at zone apex is not allowed" [])
  /\ ValidatePolicy noCaseAboveASCII examplePolicy noCaseAboveASCII
                    (str "example.com.") (str "www.example.com.") (str "cname")
     = None.
Proof.
  split.
  - apply (ValidatePolicy_apex_CNAME noCaseAboveASCII noCaseAboveASCII examplePolicy
             (str "@") (str "example.com.") (str "example.com.") (str "cname"));
      try reflexivity.
    apply isNameText_ascii. reflexivity.
  - apply (ValidatePolicy_apex_CNAME noCaseAboveASCII noCaseAboveASCII examplePolicy
             (str "www") (str "example.com.") (str "www.example.com.") (str "cname"));
      try reflexivity.
    apply isNameText_ascii. reflexivity.
Defined.

(** ** strings.EqualFold on ASCII strings *)

Lemma foldByte_lower (sr tr : Z) :
  0 <= sr < 0x80 -> 0 <= tr < 0x80 ->
  ((tr =? sr)
   || (let lo := if tr <? sr then tr else sr in
       let hi := if tr <? sr then sr else tr in
       (0x41 <=? lo) && (lo <=? 0x5A) && (hi =? lo + 0x20)))
  = (lowerByte sr =? lowerByte tr).
Proof.
  intros Hs Ht. unfold lowerByte, isUpperByte. cbv zeta.
  destruct (Z.ltb_spec tr sr);
    destruct (Z.leb_spec 0x41 sr); destruct (Z.leb_spec sr 0x5A);
    destruct (Z.leb_spec 0x41 tr); destruct (Z.leb_spec tr 0x5A);
    cbn [andb];
    repeat match goal with
           | |- context [?a =? ?b] => destruct (Z.eqb_spec a b)
           end; cbn [andb orb]; try reflexivity; exfalso; lia.
Qed.

Lemma EqualFold_ascii (foldsTo : Z -> Z -> bool) (s t : gostring) :
  asciiBytes s -> asciiBytes t ->
  EqualFold foldsTo s t = eqb_str (List.map lowerByte s) (List.map lowerByte t).
Proof.
  intros Hs. revert t. induction Hs as [|sr s Hsr Hs IH]; intros t Ht.
  - destruct t; reflexivity.
  - destruct Ht as [|tr t Htr Ht]; [reflexivity|].
    cbn [EqualFold List.map eqb_str].
    unfold RuneSelf.
    destruct (Z.leb_spec 0x80 sr); [lia|].
    destruct (Z.leb_spec 0x80 tr); [lia|]. cbn [orb].
    rewrite <- (foldByte_lower sr tr Hsr Htr). cbv zeta.
    rewrite <- (IH t Ht).
    destruct (tr =? sr); cbn [orb andb]; [reflexivity|].
    destruct ((0x41 <=? (if tr <? sr then tr else sr))
              && ((if tr <? sr then tr else sr) <=? 0x5A)
              && ((if tr <? sr then sr else tr)
                  =? (if tr <? sr then tr else sr) + 0x20)); reflexivity.
Qed.

(** X16. When the allowed type names are ASCII, IsAllowedRRType answers
    the same for an ASCII type name, for its upper-case form and for its
    lower-case form. *)
Theorem IsAllowedRRType_ignores_case
        (foldsTo : Z -> Z -> bool) (policy : PolicyConfig) (rrType : gostring) :
  asciiBytes rrType ->
  Forall asciiBytes (AllowedRRtypes policy) ->
  IsAllowedRRType foldsTo policy (List.map upperByte rrType)
  = IsAllowedRRType foldsTo policy rrType
  /\ IsAllowedRRType foldsTo policy (List.map lowerByte rrType)
     = IsAllowedRRType foldsTo policy rrType.
Proof.
  intros Ha Hall. unfold IsAllowedRRType.
  induction Hall as [|a l Haa Hl IH]; [split; reflexivity|].
  cbn [existsb]. destruct IH as [IH1 IH2]. rewrite IH1, IH2.
  rewrite !EqualFold_ascii; try assumption.
  - rewrite !map_map.
    rewrite (map_ext (fun x => lowerByte (upperByte x)) lowerByte)
      by apply lowerByte_upperByte.
    rewrite (map_ext (fun x => lowerByte (lowerByte x)) lowerByte)
      by apply lowerByte_idem.
    split; reflexivity.
  - now apply map_lowerByte_ascii.
  - clear -Ha. induction Ha as [|c s Hc Hs IH]; [constructor|].
    cbn [List.map]. constructor; [now apply upperByte_ascii|exact IH].
Qed.

(** The theorem for [Txt] under the policy of DefaultConfig. *)
Lemma IsAllowedRRType_ignores_case_witness :
  IsAllowedRRType noFoldAboveASCII examplePolicy (str "TXT")
  = IsAllowedRRType noFoldAboveASCII examplePolicy (str "Txt")
  /\ IsAllowedRRType noFoldAboveASCII examplePolicy (str "txt")
     = IsAllowedRRType noFoldAboveASCII examplePolicy (str "Txt").
Proof.
  apply (IsAllowedRRType_ignores_case noFoldAboveASCII examplePolicy (str "Txt")).
  - apply isNameText_ascii. reflexivity.
  - repeat (apply Forall_cons; [apply isNameText_ascii; reflexivity|]).
    apply Forall_nil.
Defined.

(** ** The name of the challenge record *)

Lemma asciiBytes_firstn (k : nat) (s : gostring) :
  asciiBytes s -> asciiBytes (firstn k s).
Proof.
  intros H. revert k. induction H as [|c s Hc Hs IH]; intros [|k];
    cbn [firstn]; try constructor; try assumption. apply IH.
Qed.

Lemma lower_firstn (k : nat) (s : gostring) :
  List.map lowerByte s = s -> List.map lowerByte (firstn k s) = firstn k s.
Proof. intros H. now rewrite <- firstn_map, H. Qed.

(** The base name that the challenge owner is built from is a prefix of the
    owner. *)
Lemma challengeOwner_cases (owner zoneFQDN : gostring) :
  challengeOwner owner zoneFQDN = owner
  \/ exists k, challengeOwner owner zoneFQDN
               = str "_acme-challenge." ++ firstn k owner ++ dot ++ zoneFQDN.
Proof.
  unfold challengeOwner.
  destruct ((16 <? length owner)%nat
            && negb (containsPrefix owner (str "_acme-challenge.")));
    [right|now left].
  destruct ((length zoneFQDN <? length owner)%nat
            && eqb_str (sliceFrom (length owner - length zoneFQDN) owner) zoneFQDN).
  - unfold sliceTo.
    destruct (nth _ _ 0 =? 0x2E).
    + rewrite firstn_firstn. eexists. reflexivity.
    + eexists. reflexivity.
  - exists (length owner). now rewrite firstn_all.
Qed.

Lemma challengeOwner_idem (owner zoneFQDN : gostring) :
  challengeOwner (challengeOwner owner zoneFQDN) zoneFQDN
  = challengeOwner owner zoneFQDN.
Proof.
  destruct (challengeOwner_cases owner zoneFQDN) as [E|[k E]].
  - now rewrite E.
  - rewrite E. unfold challengeOwner at 1.
    rewrite containsPrefix_app. cbn [negb]. now rewrite andb_false_r.
Qed.

(** The challenge owner for the apex of a zone of more than 16 bytes: no
    label of a canonical zone starts with the underscore of the prefix, and
    no base name is cut off a name that is not longer than the zone. *)
Lemma challengeOwner_apex (z : gostring) :
  canonicalZone z = true ->
  (16 < length z)%nat ->
  challengeOwner z z = str "_acme-challenge." ++ z ++ dot ++ z.
Proof.
  intros Hz Hlen.
  unfold challengeOwner.
  destruct (Nat.ltb_spec 16 (length z)); [|lia]. cbn [andb].
  assert (Hp : containsPrefix z (str "_acme-challenge.") = false).
  { unfold containsPrefix.
    change (length (str "_acme-challenge.")) with 16%nat.
    destruct (Nat.ltb_spec (length z) 16); [reflexivity|].
    destruct (canonicalZone_shape z Hz) as [name [Ez [Hname Hall]]].
    destruct name as [|c name']; [congruence|].
    pose proof (Forall_inv Hall) as Hc. cbv beta in Hc.
    rewrite Ez. cbn [app]. change (str "_acme-challenge.")
      with (0x5F :: str "acme-challenge.").
    cbn [containsPrefix_loop].
    assert (Hne : (if (0x41 <=? c) && (c <=? 0x5A) then c + 32 else c) <> 0x5F).
    { destruct Hc as [Hc| ->]; [|cbn; lia].
      pose proof (isDNSLabelChar_lower c Hc) as (Hr & Hl & _).
      unfold lowerByte, isUpperByte in Hl. rewrite Hl.
      intros ->. discriminate Hc. }
    change ((0x41 <=? 0x5F) && (0x5F <=? 0x5A)) with false. cbv iota.
    destruct (Z.eqb_spec (if (0x41 <=? c) && (c <=? 0x5A) then c + 32 else c) 0x5F);
      [contradiction|reflexivity]. }
  rewrite Hp. cbn [negb].
  destruct (Nat.ltb_spec (length z) (length z)); [lia|]. reflexivity.
Qed.

Section ChallengeFacts.

Variable To_LowerCase : Z -> Z.
Variable idna_ToASCII : gostring -> result gostring.

(** X17. For ASCII input and a canonical zone, the name that Present and
    Cleanup compute for the challenge record from the owner NormalizeOwner
    returned is a fixed point of both steps: NormalizeOwner returns it as it
    is, and computing the challenge name from it gives it again, with no
    second prefix. *)
Theorem challengeOwner_stable (fqdn z owner : gostring) :
  asciiBytes fqdn ->
  canonicalZone z = true ->
  NormalizeOwner To_LowerCase fqdn z = Ok owner ->
  NormalizeOwner To_LowerCase (challengeOwner owner z) z
  = Ok (challengeOwner owner z)
  /\ challengeOwner (challengeOwner owner z) z = challengeOwner owner z.
Proof.
  intros Hin Hz Hrun. split; [|apply challengeOwner_idem].
  destruct (challengeOwner_cases owner z) as [E|[k E]].
  - rewrite E.
    destruct (NormalizeOwner_shape To_LowerCase fqdn z owner Hin Hz Hrun)
      as (s & -> & Ha & Hl & Hh & Hsuf).
    now apply NormalizeOwner_fixed.
  - rewrite E.
    destruct (NormalizeOwner_shape To_LowerCase fqdn z owner Hin Hz Hrun)
      as (s & Eo & Ha & Hl & _ & _).
    destruct (canonicalZone_shape z Hz) as [name [Ez [Hname Hall]]].
    destruct (canonicalZone_ascii z Hz) as [Hza Hzl].
    assert (Hoa : asciiBytes owner /\ List.map lowerByte owner = owner).
    { rewrite Eo. split.
      - apply Forall_app. split; [exact Ha|repeat constructor; lia].
      - now rewrite map_app, Hl. }
    destruct Hoa as [Hoa Hol].
    assert (Hna : asciiBytes name /\ List.map lowerByte name = name).
    { rewrite Ez in Hza, Hzl. apply Forall_app in Hza as [Hna _].
      split; [exact Hna|]. rewrite map_app in Hzl.
      now apply app_inv_tail in Hzl. }
    destruct Hna as [Hna Hnl].
    replace (str "_acme-challenge." ++ firstn k owner ++ dot ++ z)
      with ((str "_acme-challenge." ++ firstn k owner ++ dot ++ name) ++ dot)
      by (rewrite Ez, <- !app_assoc; reflexivity).
    apply NormalizeOwner_fixed.
    + exact Hz.
    + apply Forall_app. split; [repeat constructor; lia|].
      apply Forall_app. split; [now apply asciiBytes_firstn|].
      apply Forall_app. split; [repeat constructor; lia|exact Hna].
    + rewrite !map_app, (lower_firstn k owner Hol), Hnl. reflexivity.
    + reflexivity.
    + rewrite Ez.
      replace ((str "_acme-challenge." ++ firstn k owner ++ dot ++ name) ++ dot)
        with ((str "_acme-challenge." ++ firstn k owner ++ dot) ++ (name ++ dot))
        by (rewrite <- !app_assoc; reflexivity).
      apply HasSuffix_app.
Qed.

(** X18. For the name [@] in a canonical zone of more than 16 bytes, the
    owner that ACMEHandler.Present hands to Manager.Upsert, and
    ACMEHandler.Cleanup to Manager.Delete, with the type TXT, is
    [_acme-challenge.] followed by the zone, a dot and the zone once more: a
    name with two dots in a row, that is, with an empty label.  Present and
    Cleanup return what the manager answers for that owner, an error of the
    manager wrapped in theirs. *)
Theorem apex_challenge_owner (zoneInput z value : gostring) (ttl : Z)
        (manager_Upsert : UpsertArgs -> result UpsertResult)
        (manager_Delete : DeleteArgs -> option error) :
  NormalizeZone To_LowerCase idna_ToASCII zoneInput = Ok z ->
  canonicalZone z = true ->
  (16 < length z)%nat ->
  let owner := str "_acme-challenge." ++ z ++ dot ++ z in
  let upsert :=
    mkUpsertArgs z owner (str "TXT") (if ttl =? 0 then 60 else ttl) [value] in
  let delete := mkDeleteArgs z owner (str "TXT") in
  Present_args To_LowerCase idna_ToASCII zoneInput (str "@") value ttl = Ok upsert
  /\ Cleanup_args To_LowerCase idna_ToASCII zoneInput (str "@") value = Ok delete
  /\ Present To_LowerCase idna_ToASCII manager_Upsert zoneInput (str "@") value ttl
     = match manager_Upsert upsert with
       | Err err => Err (Wrap "failed to create ACME challenge record" err)
       | Ok result => Ok result
       end
  /\ Cleanup To_LowerCase idna_ToASCII manager_Delete zoneInput (str "@") value
     = match manager_Delete delete with
       | Some err => Some (Wrap "failed to remove ACME challenge record" err)
       | None => None
       end
  /\ exists name, owner = str "_acme-challenge." ++ name ++ str ".." ++ z.
Proof.
  intros Hn Hz Hlen. cbv zeta.
  assert (Hp : Present_args To_LowerCase idna_ToASCII zoneInput (str "@") value ttl
               = Ok (mkUpsertArgs z (str "_acme-challenge." ++ z ++ dot ++ z)
                                  (str "TXT") (if ttl =? 0 then 60 else ttl)
                                  [value])).
  { unfold Present_args. rewrite Hn.
    change (NormalizeOwner To_LowerCase (str "@") z) with (Ok (A := gostring) z).
    cbv iota beta zeta. now rewrite (challengeOwner_apex z Hz Hlen). }
  assert (Hc : Cleanup_args To_LowerCase idna_ToASCII zoneInput (str "@") value
               = Ok (mkDeleteArgs z (str "_acme-challenge." ++ z ++ dot ++ z)
                                  (str "TXT"))).
  { unfold Cleanup_args. rewrite Hn.
    change (NormalizeOwner To_LowerCase (str "@") z) with (Ok (A := gostring) z).
    cbv iota beta zeta. now rewrite (challengeOwner_apex z Hz Hlen). }
  split; [exact Hp|]. split; [exact Hc|].
  split; [unfold Present; now rewrite Hp|].
  split; [unfold Cleanup; now rewrite Hc|].
  destruct (canonicalZone_shape z Hz) as [name [Ez _]].
  exists name. rewrite Ez at 1. rewrite <- !app_assoc. reflexivity.
Qed.

End ChallengeFacts.

(** The theorem for the name [mail] in [example.com.]. *)
Lemma challengeOwner_stable_witness :
  NormalizeOwner noCaseAboveASCII (str "mail") (str "example.com.")
  = Ok (str "mail.example.com.")
  /\ challengeOwner (str "mail.example.com.") (str "example.com.")
     = str "_acme-challenge.mail.example.com."
  /\ NormalizeOwner noCaseAboveASCII (str "_acme-challenge.mail.example.com.")
                    (str "example.com.")
     = Ok (str "_acme-challenge.mail.example.com.")
  /\ challengeOwner (str "_acme-challenge.mail.example.com.") (str "example.com.")
     = str "_acme-challenge.mail.example.com.".
Proof.
  split; [reflexivity|]. split; [reflexivity|].
  apply (challengeOwner_stable noCaseAboveASCII (str "mail") (str "example.com.")
           (str "mail.example.com.")).
  - apply isNameText_ascii. reflexivity.
  - reflexivity.
  - reflexivity.
Defined.

(** The theorem for the zone [long-example.com] and a manager that refuses
    the name. *)
Lemma apex_challenge_owner_witness :
  let owner := str "_acme-challenge.long-example.com..long-example.com." in
  let refused := Error "dns: bad rdata" [] in
  Present_args noCaseAboveASCII idnaIdentity (str "long-example.com") (str "@")
               (str "token") 0
  = Ok (mkUpsertArgs (str "long-example.com.") owner (str "TXT") 60 [str "token"])
  /\ Cleanup_args noCaseAboveASCII idnaIdentity (str "long-example.com") (str "@")
                  (str "token")
     = Ok (mkDeleteArgs (str "long-example.com.") owner (str "TXT"))
  /\ Present noCaseAboveASCII idnaIdentity (fun _ => Err refused)
             (str "long-example.com") (str "@") (str "token") 0
     = Err (Wrap "failed to create ACME challenge record" refused)
  /\ Cleanup noCaseAboveASCII idnaIdentity (fun _ => Some refused)
             (str "long-example.com") (str "@") (str "token")
     = Some (Wrap "failed to remove ACME challenge record" refused).
Proof.
  cbv zeta.
  refine ((fun H => conj (proj1 H)
                      (conj (proj1 (proj2 H))
                         (conj (proj1 (proj2 (proj2 H)))
                               (proj1 (proj2 (proj2 (proj2 H))))))) _).
  apply (apex_challenge_owner noCaseAboveASCII idnaIdentity (str "long-example.com")
           (str "long-example.com.") (str "token") 0
           (fun _ => Err (Error "dns: bad rdata" []))
           (fun _ => Some (Error "dns: bad rdata" []))).
  - reflexivity.
  - reflexivity.
  - vm_compute. reflexivity.
Defined.

(** ** Serials of a new zone *)

(** X19. The serial of DefaultZoneFileData is the serial of the day, and
    on that day [k] calls of BumpSerial in a row give that serial plus [k],
    as long as this is below 2^32: nothing holds the count to two digits. *)
Theorem BumpSerial_counts_from_default (now : Time) (zone : gostring) (k : nat) :
  Serial (DefaultZoneFileData now zone) + Z.of_nat k < 2 ^ 32 ->
  Serial (DefaultZoneFileData now zone) = todaySerial now
  /\ Nat.iter k (BumpSerial now) (Serial (DefaultZoneFileData now zone))
     = todaySerial now + Z.of_nat k.
Proof.
  cbn [DefaultZoneFileData Serial]. intros H. split; [reflexivity|].
  pose proof (todaySerial_range now) as Hr.
  induction k as [|k IH]; [simpl; lia|].
  rewrite Nat.iter_succ, IH by lia. unfold BumpSerial.
  destruct (Z.leb_spec (todaySerial now) (todaySerial now + Z.of_nat k)); [|lia].
  unfold uint32. rewrite Z.mod_small by lia. lia.
Qed.

(** The theorem on 2026-10-31: the hundredth bump gives the serial that
    starts the count of a day 32. *)
Lemma BumpSerial_counts_from_default_witness :
  Serial (DefaultZoneFileData (mkTime 2026 10 31) (str "example.com.")) = 2026103100
  /\ Nat.iter 100 (BumpSerial (mkTime 2026 10 31))
       (Serial (DefaultZoneFileData (mkTime 2026 10 31) (str "example.com.")))
     = 2026103200.
Proof.
  apply (BumpSerial_counts_from_default (mkTime 2026 10 31) (str "example.com.") 100).
  vm_compute. reflexivity.
Defined.

(** ** The lock file of a zone *)

Lemma skipn_last (s : gostring) :
  s <> [] -> skipn (length s - 1) s = [nth (length s - 1) s 0].
Proof.
  intros Hne. destruct (exists_last Hne) as [m [l ->]].
  rewrite length_app. cbn [length].
  replace (length m + 1 - 1)%nat with (length m) by lia.
  rewrite skipn_app, skipn_all, Nat.sub_diag. cbn [skipn app].
  now rewrite app_nth2, Nat.sub_diag by lia.
Qed.

Lemma HasSuffix_dot_last (s : gostring) :
  HasSuffix s dot
  = (0 <? length s)%nat && (nth (length s - 1) s 0 =? 0x2E).
Proof.
  unfold HasSuffix. change (length dot) with 1%nat.
  destruct s as [|c t]; [reflexivity|].
  unfold sliceFrom. rewrite skipn_last by discriminate.
  cbn [length]. change (1 <=? S (length t))%nat with true.
  change (0 <? S (length t))%nat with true. cbn [andb].
  change dot with [0x2E]. cbn [eqb_str]. now rewrite andb_true_r.
Qed.

(** X20. Config.LockFilePath and lock.ZoneLockPath, given the configured
    lock directory, return the same path for every zone. *)
Theorem LockFilePath_is_ZoneLockPath
        (filepath_Join : gostring -> gostring -> gostring)
        (cfg : Config) (zone : gostring) :
  LockFilePath filepath_Join cfg zone
  = ZoneLockPath filepath_Join (Locking_Dir cfg) zone.
Proof.
  unfold LockFilePath, ZoneLockPath, TrimSuffix. cbv zeta.
  rewrite HasSuffix_dot_last. change (length dot) with 1%nat. reflexivity.
Qed.

(** ** WriteZoneFile *)

Section WriteFacts.

Variable env : Env.

Ltac run_monad :=
  unfold bind, ret, emit, appendChange, setFiles, setLocks, getFiles;
  cbn [fst snd files locks events changes].

(** WriteZoneFile by cases: what it returns and what it leaves. *)
Lemma WriteZoneFile_run (path : gostring) (data : ZoneFileData)
      (owner group : gostring) (st : State) :
  let tmp := path ++ str ".tmp" in
  WriteZoneFile env path data owner group st
  = match template_Execute env data with
    | Err e => (Some (Wrap "failed to execute zone file template" e), st)
    | Ok _ =>
      match writeFile env tmp with
      | Some e =>
        (Some (Wrap "failed to write zone file" e),
         stateAfter st (files st) [WriteFile tmp] [])
      | None =>
        match open env tmp with
        | Some e =>
          (Some (Wrap "failed to open temp file for sync" e),
           stateAfter st (tmpWritten path (files st)) [WriteFile tmp; Open tmp] [])
        | None =>
          match sync env tmp with
          | Some e =>
            (Some (Wrap "failed to sync zone file" e),
             stateAfter st (tmpWritten path (files st))
                   [WriteFile tmp; Open tmp; Sync tmp] [])
          | None =>
            match rename env tmp path with
            | Some e =>
              (Some (Wrap "failed to rename zone file" e),
               stateAfter st (tmpWritten path (files st))
                     [WriteFile tmp; Open tmp; Sync tmp; Rename tmp path] [])
            | None =>
              (None,
               stateAfter st (renamed path (files st))
                     [WriteFile tmp; Open tmp; Sync tmp; Rename tmp path] [])
            end
          end
        end
      end
    end.
Proof.
  cbv zeta. unfold WriteZoneFile, GenerateZoneFile, stateAfter, renamed, tmpWritten.
  destruct (template_Execute env data) as [content|e]; [|reflexivity].
  run_monad.
  destruct (writeFile env _); [rewrite app_nil_r; reflexivity|].
  destruct (open env _); cbn [fst snd files locks events changes];
    [rewrite <- !app_assoc, app_nil_r; reflexivity|].
  destruct (sync env _); cbn [fst snd files locks events changes];
    [rewrite <- !app_assoc, app_nil_r; reflexivity|].
  destruct (rename env _ _); cbn [fst snd files locks events changes];
    rewrite <- !app_assoc, app_nil_r; reflexivity.
Qed.

Lemma eqb_str_tmp (path : gostring) :
  eqb_str path (path ++ str ".tmp") = false
  /\ eqb_str (path ++ str ".tmp") path = false.
Proof.
  split; apply eqb_str_neq; intros H; apply (f_equal (@length Z)) in H;
    rewrite length_app in H; cbn [length str List.map list_ascii_of_string] in H;
    simpl in H; lia.
Qed.

Lemma hasFile_without_neq (path q : gostring) (fs : list gostring) :
  eqb_str path q = false -> hasFile path (without q fs) = hasFile path fs.
Proof.
  intros Hne. unfold hasFile, without.
  induction fs as [|p fs IH]; [reflexivity|]. cbn [filter existsb].
  destruct (eqb_str q p) eqn:E; cbn [negb existsb].
  - apply eqb_str_eq in E. subst p. now rewrite Hne.
  - now rewrite IH.
Qed.

(** X21. WriteZoneFile returns no error only once the rename is done: the
    zone file then exists and the temporary file does not.  When it returns
    an error, the zone file is present or absent as it was before, and the
    temporary file, once written, is left behind. *)
Theorem WriteZoneFile_atomic (path : gostring) (data : ZoneFileData)
        (owner group : gostring) (st : State) :
  let run := WriteZoneFile env path data owner group st in
  let tmp := path ++ str ".tmp" in
  match fst run with
  | None =>
    hasFile path (files (snd run)) = true
    /\ hasFile tmp (files (snd run)) = false
  | Some _ =>
    hasFile path (files (snd run)) = hasFile path (files st)
    /\ (isOk (template_Execute env data) = true -> writeFile env tmp = None ->
        hasFile tmp (files (snd run)) = true)
  end.
Proof.
  cbv zeta. rewrite WriteZoneFile_run. cbv zeta.
  destruct (eqb_str_tmp path) as [Hpt Htp].
  assert (Htmp : forall fs, hasFile path (tmpWritten path fs) = hasFile path fs).
  { intros fs. unfold tmpWritten, hasFile. cbn [existsb]. rewrite Hpt.
    cbn [orb]. now apply hasFile_without_neq. }
  assert (Hhas : forall fs, hasFile (path ++ str ".tmp") (tmpWritten path fs) = true).
  { intros fs. unfold tmpWritten, hasFile. cbn [existsb].
    now rewrite eqb_str_refl. }
  destruct (template_Execute env data) as [content|e]; cbn [fst snd isOk].
  2: { split; [reflexivity|discriminate]. }
  destruct (writeFile env _) as [e|]; cbn [fst snd stateAfter files].
  { split; [reflexivity|discriminate]. }
  destruct (open env _) as [e|]; cbn [fst snd stateAfter files]; [now split|].
  destruct (sync env _) as [e|]; cbn [fst snd stateAfter files]; [now split|].
  destruct (rename env _ _) as [e|]; cbn [fst snd stateAfter files]; [now split|].
  unfold renamed. split.
  - unfold hasFile. cbn [existsb]. now rewrite eqb_str_refl.
  - unfold hasFile at 1. cbn [existsb]. rewrite Htp. cbn [orb].
    apply hasFile_without_other. apply hasFile_without.
Qed.

End WriteFacts.

(** ** CreateZone *)

Section CreateFacts.

Variable To_LowerCase : Z -> Z.
Variable idna_ToASCII : gostring -> result gostring.
Variable filepath_Join : gostring -> gostring -> gostring.
Variable now : Time.
Variable cfg : Config.
Variable env : Env.

Ltac run_monad :=
  unfold bind, ret, emit, appendChange, setFiles, setLocks, getFiles;
  cbn [fst snd files locks events changes].

Lemma EnsureDirs_run (st : State) :
  EnsureDirs cfg env st
  = match mkdirAll env (Zones_Dir cfg) with
    | Some e =>
      (Some (Wrap "failed to create directory %s" e),
       stateAfter st (files st) [MkdirAll (Zones_Dir cfg)] [])
    | None =>
      (match mkdirAll env (Locking_Dir cfg) with
       | Some e => Some (Wrap "failed to create directory %s" e)
       | None => None
       end,
       stateAfter st (files st)
             [MkdirAll (Zones_Dir cfg); MkdirAll (Locking_Dir cfg)] [])
    end.
Proof.
  unfold EnsureDirs, stateAfter. run_monad.
  destruct (mkdirAll env (Zones_Dir cfg)); [rewrite app_nil_r; reflexivity|].
  destruct (mkdirAll env (Locking_Dir cfg));
    cbn [fst snd files locks events changes];
    rewrite <- !app_assoc, app_nil_r; reflexivity.
Qed.

Lemma ZoneStatus_run (zone : gostring) (st : State) :
  ZoneStatus env zone st
  = (let '(_, stderr, err) := rndc_run env (zonestatusArgs zone) in
     match err with
     | Some err =>
       if Contains (rndcErrMsg env stderr err) (str "not found")
          || Contains (rndcErrMsg env stderr err) (str "no such zone")
       then (false, None)
       else (false, Some (Wrap "failed to get zone status" err))
     | None => (true, None)
     end,
     stateAfter st (files st) [Rndc (zonestatusArgs zone)] []).
Proof.
  unfold ZoneStatus, rndc, stateAfter, zonestatusArgs, rndcErrMsg. run_monad.
  destruct (rndc_run env _) as [[out stderr] [err|]].
  - cbv zeta.
    destruct (Contains _ (str "not found") || Contains _ (str "no such zone"));
      rewrite app_nil_r; reflexivity.
  - rewrite app_nil_r. reflexivity.
Qed.

(** CreateZone, after the lock is taken, by what [rndc zonestatus]
    answers. *)
Lemma CreateZone_locked_run (zone : gostring) (st : State) :
  CreateZone_locked To_LowerCase filepath_Join now cfg env zone st
  = let dirs := EnsureDirs cfg env st in
    match fst dirs with
    | Some err => (Some (Wrap "failed to ensure directories" err), snd dirs)
    | None =>
      let path := ZoneFilePath filepath_Join cfg zone in
      let asked := stateAfter (snd dirs) (files st) [Rndc (zonestatusArgs zone)] [] in
      if zoneKnown env zone then
        ensureCatalogMembership To_LowerCase cfg env zone
          (stateAfter asked (files st) [] ["zone_already_exists"%string])
      else
        let written :=
          WriteZoneFile env path (DefaultZoneFileData now zone)
                        (Zones_FileOwner cfg) (Zones_FileGroup cfg) asked in
        match fst written with
        | Some err => (Some (Wrap "failed to write zone file" err), snd written)
        | None =>
          CreateZone_register To_LowerCase cfg env zone path
            (stateAfter (snd written) (files (snd written)) []
                   ["zone_file_created"%string])
        end
    end.
Proof.
  cbv zeta. unfold CreateZone_locked. unfold bind at 1.
  destruct (EnsureDirs cfg env st) as [[err|] st1] eqn:Hdirs; cbn [fst snd];
    [reflexivity|].
  assert (Hf : files st1 = files st).
  { rewrite EnsureDirs_run in Hdirs.
    destruct (mkdirAll env (Zones_Dir cfg)); [discriminate|].
    injection Hdirs as _ <-. reflexivity. }
  unfold bind at 1. rewrite ZoneStatus_run. rewrite Hf. unfold zoneKnown.
  destruct (rndc_run env (zonestatusArgs zone)) as [[out stderr] [err|]].
  - assert (Hcond : forall (b : bool * option error),
              b = (if Contains (rndcErrMsg env stderr err) (str "not found")
                      || Contains (rndcErrMsg env stderr err) (str "no such zone")
                   then (false, None)
                   else (false, Some (Wrap "failed to get zone status" err))) ->
              (let '(exists_, err0) := b in
               (match err0 with None => true | Some _ => false end) && exists_)
              = false).
    { intros b ->. destruct (Contains _ _ || Contains _ _); reflexivity. }
    destruct (if Contains (rndcErrMsg env stderr err) (str "not found")
                 || Contains (rndcErrMsg env stderr err) (str "no such zone")
              then (false, None)
              else (false, Some (Wrap "failed to get zone status" err)))
      as [exists_ err0] eqn:Eb.
    specialize (Hcond (exists_, err0) eq_refl). cbv beta iota in Hcond.
    rewrite Hcond. unfold bind at 1.
    destruct (WriteZoneFile env _ _ _ _ _) as [[werr|] st2]; cbn [fst snd];
      [reflexivity|].
    unfold bind at 1, appendChange. unfold stateAfter.
    rewrite !app_nil_r. destruct st2; reflexivity.
  - cbn [andb]. unfold bind at 1, appendChange. unfold stateAfter.
    cbn [files locks events changes]. rewrite !app_nil_r. reflexivity.
Qed.


Lemma CreateZone_run (zoneInput : gostring) (st : State) :
  CreateZone To_LowerCase idna_ToASCII filepath_Join now cfg env zoneInput st
  = match NormalizeZone To_LowerCase idna_ToASCII zoneInput with
    | Err err => (Some (Wrap "invalid zone name" err), st)
    | Ok zone =>
      let lockPath := LockFilePath filepath_Join cfg zone in
      match flock env lockPath with
      | Some err =>
        (Some (Wrap "failed to acquire zone lock" err),
         stateAfter st (files st) [LockAcquire lockPath] [])
      | None =>
        let done :=
          CreateZone_locked To_LowerCase filepath_Join now cfg env zone
                            (lockTaken lockPath st) in
        (fst done,
         mkState (files (snd done)) (without lockPath (locks (snd done)))
                 (events (snd done) ++ [LockRelease lockPath])
                 (changes (snd done)))
      end
    end.
Proof.
  unfold CreateZone.
  destruct (NormalizeZone To_LowerCase idna_ToASCII zoneInput) as [zone|err];
    [|reflexivity].
  cbv zeta. unfold bind at 1. rewrite Lock_Acquire_run.
  destruct (flock env (LockFilePath filepath_Join cfg zone)) as [err|].
  - unfold stateAfter. rewrite app_nil_r. reflexivity.
  - unfold bind at 1. unfold lockTaken.
    destruct (CreateZone_locked To_LowerCase filepath_Join now cfg env zone _)
      as [r st1].
    reflexivity.
Qed.

(** X22. When CreateZone returns no error, the zone name was normalized,
    the catalog update was answered without error and the zone lock is
    released; and either named knew the zone, the changes are
    [zone_already_exists], [catalog_updated], no file was touched and the
    calls were lock, two mkdir, zonestatus, catalog update, unlock; or named
    did not know it, the changes are [zone_file_created], [zone_added],
    [catalog_updated], the zone file exists and the calls were lock, two
    mkdir, zonestatus, write, open, sync, rename, addzone, catalog update,
    unlock. *)
Theorem CreateZone_success (zoneInput : gostring) (st st' : State) :
  CreateZone To_LowerCase idna_ToASCII filepath_Join now cfg env zoneInput st
  = (None, st') ->
  exists zone,
    NormalizeZone To_LowerCase idna_ToASCII zoneInput = Ok zone
    /\ let path := ZoneFilePath filepath_Join cfg zone in
       let tmp := path ++ str ".tmp" in
       let lockPath := LockFilePath filepath_Join cfg zone in
       let upsert := DnsUpdate (catalogUpsert To_LowerCase cfg zone) in
       let prepare :=
         [LockAcquire lockPath; MkdirAll (Zones_Dir cfg);
          MkdirAll (Locking_Dir cfg); Rndc (zonestatusArgs zone)] in
       exchange env (catalogUpsert To_LowerCase cfg zone) = None
       /\ locks st' = without lockPath (lockPath :: locks st)
       /\ ((zoneKnown env zone = true
            /\ changes st'
               = changes st ++ ["zone_already_exists"; "catalog_updated"]%string
            /\ files st' = files st
            /\ events st'
               = events st ++ prepare ++ [upsert; LockRelease lockPath])
           \/ (zoneKnown env zone = false
               /\ changes st'
                  = changes st
                    ++ ["zone_file_created"; "zone_added"; "catalog_updated"]%string
               /\ files st' = renamed path (files st)
               /\ hasFile path (files st') = true
               /\ events st'
                  = events st ++ prepare
                    ++ [WriteFile tmp; Open tmp; Sync tmp; Rename tmp path;
                        Rndc (addzoneArgs zone (buildZoneConfig cfg path));
                        upsert; LockRelease lockPath])).
Proof.
  intros H. rewrite CreateZone_run in H.
  destruct (NormalizeZone To_LowerCase idna_ToASCII zoneInput) as [zone|err];
    [|discriminate].
  cbv zeta in H.
  destruct (flock env (LockFilePath filepath_Join cfg zone)) as [err|];
    [discriminate|].
  rewrite CreateZone_locked_run in H. cbv zeta in H. rewrite EnsureDirs_run in H.
  destruct (mkdirAll env (Zones_Dir cfg)) as [e|]; cbn [fst snd] in H;
    [discriminate|].
  destruct (mkdirAll env (Locking_Dir cfg)) as [e|]; cbn [fst snd] in H;
    [discriminate|].
  exists zone. split; [reflexivity|].
  destruct (zoneKnown env zone) eqn:Hk.
  - rewrite ensureCatalogMembership_run in H.
    destruct (exchange env (catalogUpsert To_LowerCase cfg zone)) as [e|];
      cbn [fst snd] in H; [discriminate|].
    injection H as <-. cbn [locks changes files events stateAfter lockTaken].
    split; [reflexivity|]. split; [reflexivity|]. left.
    split; [reflexivity|]. rewrite <- !app_assoc.
    repeat split; reflexivity.
  - rewrite WriteZoneFile_run in H. cbv zeta in H.
    destruct (template_Execute env _) as [content|e]; cbn [fst snd] in H;
      [|discriminate].
    destruct (writeFile env _) as [e|]; cbn [fst snd] in H; [discriminate|].
    destruct (open env _) as [e|]; cbn [fst snd] in H; [discriminate|].
    destruct (sync env _) as [e|]; cbn [fst snd] in H; [discriminate|].
    destruct (rename env _ _) as [e|]; cbn [fst snd] in H; [discriminate|].
    rewrite CreateZone_register_run in H. cbv zeta in H.
    destruct (rndc_run env (addzoneArgs zone _)) as [[out stderr] [e|]];
      cbn [fst snd] in H; [discriminate|].
    destruct (exchange env (catalogUpsert To_LowerCase cfg zone)) as [e|];
      cbn [fst snd] in H; [discriminate|].
    injection H as <-. cbn [locks changes files events stateAfter lockTaken].
    split; [reflexivity|]. split; [reflexivity|]. right.
    split; [reflexivity|]. rewrite <- !app_assoc.
    split; [reflexivity|]. split; [reflexivity|].
    split; [|reflexivity].
    unfold renamed, hasFile. cbn [existsb]. now rewrite eqb_str_refl.
Qed.


(** X23. When CreateZone has taken the lock and made the directories, the
    zone file template renders, and [rndc zonestatus] ends with an error,
    whatever its standard error says, then CreateZone goes on as for a zone
    that named does not know: its next call writes the temporary zone
    file. *)
Theorem CreateZone_ignores_status_error
        (zoneInput zone out stderr : gostring) (e : error) (st : State) :
  NormalizeZone To_LowerCase idna_ToASCII zoneInput = Ok zone ->
  flock env (LockFilePath filepath_Join cfg zone) = None ->
  mkdirAll env (Zones_Dir cfg) = None ->
  mkdirAll env (Locking_Dir cfg) = None ->
  rndc_run env (zonestatusArgs zone) = (out, stderr, Some e) ->
  isOk (template_Execute env (DefaultZoneFileData now zone)) = true ->
  exists later,
    events (snd (CreateZone To_LowerCase idna_ToASCII filepath_Join now cfg env
                            zoneInput st))
    = events st
      ++ [LockAcquire (LockFilePath filepath_Join cfg zone);
          MkdirAll (Zones_Dir cfg); MkdirAll (Locking_Dir cfg);
          Rndc (zonestatusArgs zone);
          WriteFile (ZoneFilePath filepath_Join cfg zone ++ str ".tmp")]
      ++ later.
Proof.
  intros Hz Hlock Hd1 Hd2 Hstatus Htmpl.
  rewrite CreateZone_run, Hz. cbv zeta. rewrite Hlock.
  rewrite CreateZone_locked_run. cbv zeta. rewrite EnsureDirs_run, Hd1, Hd2.
  cbn [fst snd]. unfold zoneKnown. rewrite Hstatus.
  rewrite WriteZoneFile_run. cbv zeta.
  destruct (template_Execute env _) as [content|e0]; [|discriminate Htmpl].
  destruct (writeFile env _) as [e1|]; cbn [fst snd stateAfter lockTaken events].
  { rewrite <- !app_assoc. cbn [app]. eexists. reflexivity. }
  destruct (open env _) as [e1|]; cbn [fst snd stateAfter lockTaken events].
  { rewrite <- !app_assoc. cbn [app]. eexists. reflexivity. }
  destruct (sync env _) as [e1|]; cbn [fst snd stateAfter lockTaken events].
  { rewrite <- !app_assoc. cbn [app]. eexists. reflexivity. }
  destruct (rename env _ _) as [e1|]; cbn [fst snd stateAfter lockTaken events].
  { rewrite <- !app_assoc. cbn [app]. eexists. reflexivity. }
  rewrite CreateZone_register_run. cbv zeta.
  destruct (rndc_run env (addzoneArgs zone _)) as [[o2 s2] [e2|]];
    cbn [fst snd stateAfter lockTaken events].
  { rewrite <- !app_assoc. cbn [app]. eexists. reflexivity. }
  destruct (exchange env _) as [e3|]; cbn [fst snd stateAfter lockTaken events];
    rewrite <- !app_assoc; cbn [app]; eexists; reflexivity.
Qed.

(** What runs under the lock makes no call on the lock. *)
Lemma CreateZone_locked_quiet (zone : gostring) (st : State) :
  let run := CreateZone_locked To_LowerCase filepath_Join now cfg env zone st in
  locks (snd run) = locks st
  /\ exists es, events (snd run) = events st ++ es
                /\ existsb isLockEvent es = false.
Proof.
  cbv zeta. rewrite CreateZone_locked_run. cbv zeta. rewrite EnsureDirs_run.
  destruct (mkdirAll env (Zones_Dir cfg)) as [e|]; cbn [fst snd stateAfter locks events].
  { split; [reflexivity|]. eexists. split; reflexivity. }
  destruct (mkdirAll env (Locking_Dir cfg)) as [e|]; cbn [fst snd stateAfter locks events].
  { split; [reflexivity|]. eexists. split; reflexivity. }
  destruct (zoneKnown env zone).
  { rewrite ensureCatalogMembership_run. cbn [fst snd stateAfter locks events].
    split; [reflexivity|]. rewrite <- !app_assoc. eexists. split; reflexivity. }
  rewrite WriteZoneFile_run. cbv zeta.
  destruct (template_Execute env _) as [content|e0]; cbn [fst snd stateAfter locks events].
  2: { split; [reflexivity|]. rewrite <- !app_assoc. eexists. split; reflexivity. }
  destruct (writeFile env _) as [e1|]; cbn [fst snd stateAfter locks events].
  { split; [reflexivity|]. rewrite <- !app_assoc. eexists. split; reflexivity. }
  destruct (open env _) as [e1|]; cbn [fst snd stateAfter locks events].
  { split; [reflexivity|]. rewrite <- !app_assoc. eexists. split; reflexivity. }
  destruct (sync env _) as [e1|]; cbn [fst snd stateAfter locks events].
  { split; [reflexivity|]. rewrite <- !app_assoc. eexists. split; reflexivity. }
  destruct (rename env _ _) as [e1|]; cbn [fst snd stateAfter locks events].
  { split; [reflexivity|]. rewrite <- !app_assoc. eexists. split; reflexivity. }
  rewrite CreateZone_register_run. cbv zeta.
  destruct (rndc_run env (addzoneArgs zone _)) as [[o2 s2] [e2|]];
    cbn [fst snd stateAfter locks events].
  { split; [reflexivity|]. rewrite <- !app_assoc. eexists. split; reflexivity. }
  destruct (exchange env _) as [e3|]; cbn [fst snd stateAfter locks events];
    (split; [reflexivity|]); rewrite <- !app_assoc; eexists; split; reflexivity.
Qed.

Lemma DeleteZone_locked_quiet (zone : gostring) (st : State) :
  let run := DeleteZone_locked To_LowerCase filepath_Join cfg env zone st in
  locks (snd run) = locks st
  /\ exists es, events (snd run) = events st ++ es
                /\ existsb isLockEvent es = false.
Proof.
  cbv zeta. rewrite DeleteZone_locked_run.
  destruct (exchange env _) as [e|]; cbn [snd locks events].
  { split; [reflexivity|]. eexists. split; reflexivity. }
  destruct (rndc_run env (delzoneArgs zone)) as [[o s] [e|]]; cbn [snd locks events];
    (split; [reflexivity|]); eexists; split; reflexivity.
Qed.

Lemma not_In_without (path : gostring) (l : list gostring) :
  ~ In path (without path l).
Proof.
  unfold without. intros H. apply filter_In in H as [_ H].
  now rewrite eqb_str_refl in H.
Qed.

(** X24. Once CreateZone or DeleteZone has taken the zone lock, it has
    released it when it returns, whatever fails in between: the lock is not
    held afterwards, and its calls are the acquire, then calls that are not
    on the lock, then the release. *)
Theorem zone_lock_released (zoneInput zone : gostring) (st : State) :
  NormalizeZone To_LowerCase idna_ToASCII zoneInput = Ok zone ->
  flock env (LockFilePath filepath_Join cfg zone) = None ->
  let lockPath := LockFilePath filepath_Join cfg zone in
  let released (st' : State) :=
    ~ In lockPath (locks st')
    /\ exists es,
        events st' = events st ++ [LockAcquire lockPath] ++ es ++ [LockRelease lockPath]
        /\ existsb isLockEvent es = false in
  released (snd (CreateZone To_LowerCase idna_ToASCII filepath_Join now cfg env
                            zoneInput st))
  /\ released (snd (DeleteZone To_LowerCase idna_ToASCII filepath_Join cfg env
                               zoneInput st)).
Proof.
  intros Hz Hlock. cbv zeta. split.
  - rewrite CreateZone_run, Hz. cbv zeta. rewrite Hlock. cbn [snd locks events].
    destruct (CreateZone_locked_quiet zone
                (lockTaken (LockFilePath filepath_Join cfg zone) st))
      as [Hl [es [He Hq]]].
    cbv zeta in Hl, He. split; [apply not_In_without|].
    exists es. rewrite He. cbn [lockTaken events]. rewrite <- !app_assoc.
    split; [reflexivity|exact Hq].
  - rewrite DeleteZone_run, Hz. cbv zeta. rewrite Hlock. cbn [snd locks events].
    destruct (DeleteZone_locked_quiet zone
                (lockTaken (LockFilePath filepath_Join cfg zone) st))
      as [Hl [es [He Hq]]].
    cbv zeta in Hl, He. unfold lockTaken in Hl, He.
    split; [apply not_In_without|].
    exists es. rewrite He. cbn [events]. rewrite <- !app_assoc.
    split; [reflexivity|exact Hq].
Qed.

End CreateFacts.

(** With nothing on the standard error of rndc, the text of the error is
    read in its place: where rndc cannot be started because its executable
    file was not found, ZoneStatus answers that the zone does not exist and
    returns no error, and DelZone that the zone was not found. *)
Example rndc_error_text_read :
  fst (ZoneStatus rndcMissing (str "example.com.") emptyState) = (false, None)
  /\ fst (DelZone rndcMissing (str "example.com.") true emptyState)
     = Some (Wrap "zone not found"
                  (Wrap "failed to start rndc"
                        (Error "executable file not found in $PATH" []))).
Proof.
  split; vm_compute; reflexivity.
Qed.

(** The theorem where named does not know the zone and every call
    succeeds: the zone file is written, the zone added and the catalog
    updated. *)
Lemma CreateZone_success_witness :
  let run :=
    CreateZone noCaseAboveASCII idnaIdentity joinWithSlash (mkTime 2026 10 31)
               exampleConfig
               (statusFails (str "rndc: 'zonestatus' failed: not found"))
               (str "example.com") emptyState in
  fst run = None
  /\ changes (snd run)
     = ["zone_file_created"; "zone_added"; "catalog_updated"]%string
  /\ hasFile (str "/var/lib/bind/zones/example.com.db") (files (snd run)) = true
  /\ locks (snd run) = [].
Proof.
  cbv zeta.
  set (run := CreateZone noCaseAboveASCII idnaIdentity joinWithSlash
                         (mkTime 2026 10 31) exampleConfig
                         (statusFails (str "rndc: 'zonestatus' failed: not found"))
                         (str "example.com") emptyState).
  assert (Hrun : run = (None, snd run)) by (vm_compute; reflexivity).
  split; [vm_compute; reflexivity|].
  destruct (CreateZone_success noCaseAboveASCII idnaIdentity joinWithSlash
              (mkTime 2026 10 31) exampleConfig
              (statusFails (str "rndc: 'zonestatus' failed: not found"))
              (str "example.com") emptyState (snd run) Hrun)
    as (zone & Hz & Hdone).
  assert (Hzone : zone = str "example.com.").
  { vm_compute in Hz. injection Hz as <-. reflexivity. }
  subst zone. cbv zeta in Hdone.
  destruct Hdone as (_ & Hlocks & [(Hk & _)|(_ & Hch & _ & Hhas & _)]).
  - vm_compute in Hk. discriminate Hk.
  - split; [exact Hch|]. split; [exact Hhas|]. rewrite Hlocks. reflexivity.
Defined.

(** The theorem where [rndc zonestatus] cannot reach named: ZoneStatus
    returns an error, and CreateZone goes on to write the zone file. *)
Lemma CreateZone_ignores_status_error_witness :
  let env := statusFails (str "rndc: connect failed: connection refused") in
  let run :=
    CreateZone noCaseAboveASCII idnaIdentity joinWithSlash (mkTime 2026 10 31)
               exampleConfig env (str "example.com") emptyState in
  fst (ZoneStatus env (str "example.com.") emptyState)
  = (false, Some (Wrap "failed to get zone status" exitStatus1))
  /\ exists later,
      events (snd run)
      = [LockAcquire (str "/var/lock/dnsctl/zone--example.com.lock");
         MkdirAll (str "/var/lib/bind/zones"); MkdirAll (str "/var/lock/dnsctl");
         Rndc [str "zonestatus"; str "example.com."];
         WriteFile (str "/var/lib/bind/zones/example.com.db.tmp")]
        ++ later.
Proof.
  cbv zeta. split; [vm_compute; reflexivity|].
  apply (CreateZone_ignores_status_error noCaseAboveASCII idnaIdentity joinWithSlash
           (mkTime 2026 10 31) exampleConfig
           (statusFails (str "rndc: connect failed: connection refused"))
           (str "example.com") (str "example.com.") []
           (str "rndc: connect failed: connection refused") exitStatus1 emptyState);
    reflexivity.
Defined.

(** The theorem where every call succeeds. *)
Lemma zone_lock_released_witness :
  let lockPath := str "/var/lock/dnsctl/zone--example.com.lock" in
  let created :=
    snd (CreateZone noCaseAboveASCII idnaIdentity joinWithSlash (mkTime 2026 10 31)
                    exampleConfig (allSucceed [] None) (str "example.com")
                    emptyState) in
  let deleted :=
    snd (DeleteZone noCaseAboveASCII idnaIdentity joinWithSlash exampleConfig
                    (allSucceed [] None) (str "example.com") emptyState) in
  (~ In lockPath (locks created)
   /\ exists es,
       events created = [LockAcquire lockPath] ++ es ++ [LockRelease lockPath]
       /\ existsb isLockEvent es = false)
  /\ (~ In lockPath (locks deleted)
      /\ exists es,
          events deleted = [LockAcquire lockPath] ++ es ++ [LockRelease lockPath]
          /\ existsb isLockEvent es = false).
Proof.
  cbv zeta.
  apply (zone_lock_released noCaseAboveASCII idnaIdentity joinWithSlash
           (mkTime 2026 10 31) exampleConfig (allSucceed [] None)
           (str "example.com") (str "example.com.") emptyState); reflexivity.
Defined.

(** ** Manager.Delete *)

Section ManagerFacts.

Variable To_LowerCase : Z -> Z.
Variable idna_ToASCII : gostring -> result gostring.
Variable filepath_Join : gostring -> gostring -> gostring.
Variable cfg : Config.
Variable env : Env.
Variable To_UpperCase : Z -> Z.
Variable foldsTo : Z -> Z -> bool.
Variable policy : PolicyConfig.
Variable StringToType : gostring -> Z.
Variable TypeToString : Z -> gostring.

(** Manager.Delete once its checks have passed: lock, send, unlock. *)
Lemma Manager_Delete_run (zoneInput ownerInput rrType : gostring) (st : State) :
  Manager_Delete To_LowerCase idna_ToASCII filepath_Join cfg env
                 To_UpperCase foldsTo policy StringToType TypeToString
                 zoneInput ownerInput rrType st
  = match NormalizeZone To_LowerCase idna_ToASCII zoneInput with
    | Err err => (Err (Wrap "invalid zone" err), st)
    | Ok zone =>
      match NormalizeOwner To_LowerCase ownerInput zone with
      | Err err => (Err (Wrap "invalid owner" err), st)
      | Ok owner =>
        let rrTypeUpper :=
          if negb (StringToType rrType =? 0)
          then TypeToString (StringToType rrType) else rrType in
        if negb (IsAllowedRRType foldsTo policy rrTypeUpper) then
          (Err (Error "RR type %s is not allowed" [rrTypeUpper]), st)
        else
          match ValidatePolicy To_UpperCase policy To_LowerCase
                               zone owner rrTypeUpper with
          | Some err => (Err (Wrap "policy violation" err), st)
          | None =>
            let lockPath := LockFilePath filepath_Join cfg zone in
            let msg :=
              update.DeleteRRset_msg zone owner (StringToType rrTypeUpper) in
            match flock env lockPath with
            | Some err =>
              (Err (Wrap "failed to acquire zone lock" err),
               stateAfter st (files st) [LockAcquire lockPath] [])
            | None =>
              (match exchange env msg with
               | Some err => Err (Wrap "failed to send delete update" err)
               | None => Ok (mkDeleteResult true owner rrTypeUpper)
               end,
               mkState (files st) (without lockPath (lockPath :: locks st))
                       (events st ++ [LockAcquire lockPath; DnsUpdate msg;
                                      LockRelease lockPath])
                       (changes st))
            end
          end
      end
    end.
Proof.
  unfold Manager_Delete.
  destruct (NormalizeZone To_LowerCase idna_ToASCII zoneInput) as [zone|e];
    [|reflexivity].
  destruct (NormalizeOwner To_LowerCase ownerInput zone) as [owner|e];
    [|reflexivity].
  cbv zeta.
  destruct (IsAllowedRRType foldsTo policy _); cbn [negb]; [|reflexivity].
  destruct (ValidatePolicy _ _ _ _ _ _) as [e|]; [reflexivity|].
  unfold bind at 1. rewrite Lock_Acquire_run.
  destruct (flock env (LockFilePath filepath_Join cfg zone)) as [e|].
  - unfold stateAfter. cbn [ret]. now rewrite app_nil_r.
  - unfold bind at 1, DeleteRRset. rewrite Update_run.
    unfold bind at 1. rewrite Lock_Release_run.
    cbn [fst snd files locks events changes].
    destruct (exchange env _) as [e|]; cbn [ret];
      rewrite <- !app_assoc; reflexivity.
Qed.

(** X25. Manager.Delete either returns an error without having made a
    call; or fails to take the zone lock, which is its only call; or takes
    the lock, sends one update, the message of DeleteRRset for the
    normalized zone and owner, and releases the lock, and then it succeeds
    exactly when the server accepted the update. *)
Theorem Manager_Delete_calls (zoneInput ownerInput rrType : gostring) (st : State) :
  let run := Manager_Delete To_LowerCase idna_ToASCII filepath_Join cfg env
                            To_UpperCase foldsTo policy StringToType TypeToString
                            zoneInput ownerInput rrType st in
  (isOk (fst run) = false /\ snd run = st)
  \/ exists zone owner type,
      NormalizeZone To_LowerCase idna_ToASCII zoneInput = Ok zone
      /\ NormalizeOwner To_LowerCase ownerInput zone = Ok owner
      /\ let lockPath := LockFilePath filepath_Join cfg zone in
         let msg := update.DeleteRRset_msg zone owner type in
         (isOk (fst run) = false
          /\ flock env lockPath <> None
          /\ snd run = stateAfter st (files st) [LockAcquire lockPath] [])
         \/ (flock env lockPath = None
             /\ isOk (fst run) = isNil (exchange env msg)
             /\ snd run
                = mkState (files st) (without lockPath (lockPath :: locks st))
                          (events st ++ [LockAcquire lockPath; DnsUpdate msg;
                                         LockRelease lockPath])
                          (changes st)).
Proof.
  cbv zeta. rewrite Manager_Delete_run.
  destruct (NormalizeZone To_LowerCase idna_ToASCII zoneInput) as [zone|e] eqn:Hz;
    [|left; split; reflexivity].
  destruct (NormalizeOwner To_LowerCase ownerInput zone) as [owner|e] eqn:Ho;
    [|left; split; reflexivity].
  cbv zeta.
  destruct (IsAllowedRRType foldsTo policy _); cbn [negb];
    [|left; split; reflexivity].
  destruct (ValidatePolicy _ _ _ _ _ _) as [e|]; [left; split; reflexivity|].
  right.
  exists zone, owner,
    (StringToType (if negb (StringToType rrType =? 0)
                   then TypeToString (StringToType rrType) else rrType)).
  split; [reflexivity|]. split; [exact Ho|].
  destruct (flock env (LockFilePath filepath_Join cfg zone)) as [e|] eqn:Hlock.
  - left. split; [reflexivity|]. split; [discriminate|reflexivity].
  - right. split; [reflexivity|]. cbn [fst snd].
    destruct (exchange env _) as [e|]; split; reflexivity.
Qed.

(** X26. For a type name that [dns.StringToType] does not have and that
    the policy allows, when the lock is taken and the server accepts the
    update, Manager.Delete reports success with that name for type, and the
    update it sent deletes the RRset of type 0 at the owner. *)
Theorem Manager_Delete_unknown_type
        (zoneInput ownerInput rrType zone owner : gostring) (st : State) :
  NormalizeZone To_LowerCase idna_ToASCII zoneInput = Ok zone ->
  NormalizeOwner To_LowerCase ownerInput zone = Ok owner ->
  StringToType rrType = 0 ->
  IsAllowedRRType foldsTo policy rrType = true ->
  ValidatePolicy To_UpperCase policy To_LowerCase zone owner rrType = None ->
  flock env (LockFilePath filepath_Join cfg zone) = None ->
  exchange env (update.DeleteRRset_msg zone owner 0) = None ->
  let run := Manager_Delete To_LowerCase idna_ToASCII filepath_Join cfg env
                            To_UpperCase foldsTo policy StringToType TypeToString
                            zoneInput ownerInput rrType st in
  fst run = Ok (mkDeleteResult true owner rrType)
  /\ In (DnsUpdate (update.DeleteRRset_msg zone owner 0)) (events (snd run))
  /\ dns.Ns (update.DeleteRRset_msg zone owner 0)
     = [dns.mkRR (dns.mkHeader (dns.Fqdn owner) 0 dns.ClassANY 0 0) dns.NoData].
Proof.
  intros Hz Ho Ht Hal Hpol Hlock Hex. cbv zeta. rewrite Manager_Delete_run.
  rewrite Hz, Ho. cbv zeta. rewrite Ht. change (negb (0 =? 0)) with false.
  cbv iota. rewrite Hal, Hpol. cbn [negb]. rewrite Hlock, Ht, Hex.
  cbn [fst snd events].
  split; [reflexivity|]. split; [|reflexivity].
  apply in_or_app. right. right. now left.
Qed.

End ManagerFacts.

(** The theorem for the type name [txt], which a table with upper-case
    names does not have: the update that is sent deletes the RRset of
    type 0. *)
Lemma Manager_Delete_unknown_type_witness :
  let run :=
    Manager_Delete noCaseAboveASCII idnaIdentity joinWithSlash exampleConfig
                   (allSucceed [] None) noCaseAboveASCII noFoldAboveASCII
                   examplePolicy exampleStringToType exampleTypeToString
                   (str "example.com") (str "www") (str "txt") emptyState in
  exampleStringToType (str "txt") = 0
  /\ fst run = Ok (mkDeleteResult true (str "www.example.com.") (str "txt"))
  /\ In (DnsUpdate (update.DeleteRRset_msg (str "example.com.")
                                           (str "www.example.com.") 0))
        (events (snd run))
  /\ Ns (update.DeleteRRset_msg (str "example.com.") (str "www.example.com.") 0)
     = [mkRR (mkHeader (str "www.example.com.") 0 ClassANY 0 0) NoData].
Proof.
  cbv zeta. split; [reflexivity|].
  apply (Manager_Delete_unknown_type noCaseAboveASCII idnaIdentity joinWithSlash
           exampleConfig (allSucceed [] None) noCaseAboveASCII noFoldAboveASCII
           examplePolicy exampleStringToType exampleTypeToString
           (str "example.com") (str "www") (str "txt")
           (str "example.com.") (str "www.example.com.") emptyState);
    reflexivity.
Defined.

(** ** The SSH wrapper *)

Lemma fieldsASCII_blank (s : gostring) :
  forallb asciiSpace s = true -> fieldsASCII s None = [].
Proof.
  induction s as [|c s IH]; [reflexivity|]. cbn [forallb fieldsASCII].
  intros H. apply andb_true_iff in H as [Hc Hs]. rewrite Hc.
  cbn [closeField app]. now apply IH.
Qed.

Lemma blank_isASCII (s : gostring) : forallb asciiSpace s = true -> isASCII s = true.
Proof.
  unfold isASCII. induction s as [|c s IH]; [reflexivity|]. cbn [forallb].
  intros H. apply andb_true_iff in H as [Hc Hs]. rewrite (IH Hs), andb_true_r.
  unfold asciiSpace in Hc. unfold RuneSelf. apply Z.ltb_lt.
  apply orb_true_iff in Hc as [Hc|Hc].
  - apply andb_true_iff in Hc as [_ Hc]. apply Z.leb_le in Hc. lia.
  - apply Z.eqb_eq in Hc. lia.
Qed.

(** X27. For a command that is not empty and all white space,
    ParseCommand returns an empty list and no error, ValidateCommand refuses
    that list, and Handle returns "empty command" and logs nothing. *)
Theorem blank_command_refused (cmd actor : gostring) :
  cmd <> [] ->
  forallb asciiSpace cmd = true ->
  ParseCommand cmd = Ok []
  /\ ValidateCommand [] = Some (Error "empty command" [])
  /\ Handle cmd actor = (Some (Error "empty command" []), []).
Proof.
  intros Hne Hblank.
  assert (Hf : strings_Fields cmd = []).
  { unfold strings_Fields. rewrite (blank_isASCII cmd Hblank).
    now apply fieldsASCII_blank. }
  apply eqb_str_neq in Hne.
  unfold ParseCommand, Handle. rewrite Hne, Hf. repeat split.
Qed.

(** The theorem for a command of three spaces. *)
Lemma blank_command_refused_witness :
  ParseCommand (str "   ") = Ok []
  /\ ValidateCommand [] = Some (Error "empty command" [])
  /\ Handle (str "   ") (str "deploy") = (Some (Error "empty command" []), []).
Proof.
  apply (blank_command_refused (str "   ") (str "deploy"));
    [discriminate|reflexivity].
Defined.

Lemma firstError_Forall {A} (check : A -> option error) (xs : list A) :
  firstError check xs = None <-> Forall (fun x => check x = None) xs.
Proof.
  induction xs as [|x xs IH]; cbn [firstError].
  - split; [constructor|reflexivity].
  - destruct (check x) eqn:E.
    + split; [discriminate|]. intros H. inversion H; congruence.
    + rewrite IH. split; [now constructor|]. intros H. now inversion H.
Qed.

Lemma TrimPrefix_app (p s : gostring) : TrimPrefix (p ++ s) p = s.
Proof.
  unfold TrimPrefix.
  assert (H : HasPrefix (p ++ s) p = true) by (apply HasPrefix_iff; now exists s).
  rewrite H. unfold sliceFrom. now rewrite skipn_app, skipn_all, Nat.sub_diag.
Qed.

(** X28. When Handle returns no error, the first field of the command is
    one of [doctor], [version], [zone], [rrset] and [acme], so that
    ParseCommand and ValidateCommand accept the command too; and for a
    subcommand with a flag table, every later field that starts with a dash
    is the name of an allowed flag after one dash or two. *)
Theorem Handle_accepts (originalCmd actor : gostring) :
  fst (Handle originalCmd actor) = None ->
  exists subcommand rest,
    strings_Fields originalCmd = subcommand :: rest
    /\ ParseCommand originalCmd = Ok (subcommand :: rest)
    /\ ValidateCommand (subcommand :: rest) = None
    /\ In subcommand [str "doctor"; str "version"; str "zone"; str "rrset";
                      str "acme"]
    /\ forall part allowed,
        In part rest -> HasPrefix part (str "-") = true ->
        lookupFlags allowedFlags subcommand = Some allowed ->
        exists name, lookupBool allowed name = true
                     /\ In part (flagForms name).
Proof.
  unfold Handle, ParseCommand, ValidateCommand.
  destruct (eqb_str originalCmd []); [discriminate|].
  destruct (strings_Fields originalCmd) as [|subcommand rest]; [discriminate|].
  destruct (lookupBool allowedSubcommands subcommand) eqn:Hsub; cbn [negb];
    [|discriminate].
  destruct (firstError (checkFlag subcommand) rest) as [e|] eqn:Hflags;
    [discriminate|].
  intros _. exists subcommand, rest.
  split; [reflexivity|]. split; [reflexivity|].
  split; [rewrite Hsub; reflexivity|]. split.
  - unfold allowedSubcommands in Hsub. cbn [lookupBool] in Hsub.
    repeat match type of Hsub with
           | (if eqb_str ?k subcommand then _ else _) = true =>
             let E := fresh "E" in
             destruct (eqb_str k subcommand) eqn:E;
               [apply eqb_str_eq in E; rewrite <- E; cbn [In]; tauto|]
           end.
    discriminate Hsub.
  - intros part allowed Hin Hdash Hal.
    apply firstError_Forall in Hflags. rewrite Forall_forall in Hflags.
    specialize (Hflags part Hin). unfold checkFlag in Hflags.
    rewrite Hdash, Hal in Hflags.
    destruct (lookupBool allowed _) eqn:Hname; cbn [negb] in Hflags;
      [|discriminate Hflags].
    apply HasPrefix_iff in Hdash as [t ->].
    rewrite TrimPrefix_app in Hname.
    unfold TrimPrefix in Hname.
    destruct (HasPrefix t (str "-")) eqn:Hd2.
    + apply HasPrefix_iff in Hd2 as [t' ->].
      unfold sliceFrom in Hname. change (length (str "-")) with 1%nat in Hname.
      cbn [app skipn] in Hname.
      exists t'. split; [exact Hname|]. right. left. reflexivity.
    + exists t. split; [exact Hname|]. left. reflexivity.
Qed.

(** The theorem for an [rrset] command with two flags. *)
Lemma Handle_accepts_witness :
  let cmd := str "rrset --upsert -ttl 300 example.com www A 192.0.2.1" in
  Handle cmd (str "deploy") = (None, [str "SSH wrapped command: " ++ cmd])
  /\ exists subcommand rest,
      strings_Fields cmd = subcommand :: rest
      /\ ParseCommand cmd = Ok (subcommand :: rest)
      /\ ValidateCommand (subcommand :: rest) = None
      /\ In subcommand [str "doctor"; str "version"; str "zone"; str "rrset";
                        str "acme"]
      /\ forall part allowed,
          In part rest -> HasPrefix part (str "-") = true ->
          lookupFlags allowedFlags subcommand = Some allowed ->
          exists name, lookupBool allowed name = true
                       /\ In part (flagForms name).
Proof.
  cbv zeta. split; [reflexivity|].
  apply (Handle_accepts
           (str "rrset --upsert -ttl 300 example.com www A 192.0.2.1")
           (str "deploy")).
  reflexivity.
Defined.
